(** * DetectaBB: boleto field extraction, FEBRABAN validation, score fusion
      and explanation, embedded in Rocq.

    Sources: [src/ml/validator.py], [src/ml/parser.py], [src/ml/model.py],
    [src/ml/explainer.py], [src/worker/tasks.py].

    Modelling conventions.
    - Python [str] values are byte strings ([string]) holding UTF-8; the
      characters the code inspects ([\d], [\s], [\w]) are taken in their ASCII
      range.
    - A value read from the loosely typed field dictionary is a [pyval]:
      [None], a [str] or a [float]. A Python float (a finite IEEE-754
      double) is modelled by its exact value, a rational [Q]; a float
      literal and the result of float arithmetic are rounded to the
      nearest double with [arredonda] below.
    - A Python exception is a value of [excecao]; code that may raise returns
      [excecao + A] (left = raised).
    - Library services the code calls ([datetime.strptime], [datetime.now],
      [repr] of a float, the [format] of a float) are section variables. *)

From Stdlib Require Import String Ascii List Bool Arith ZArith QArith Qround Qabs Lia Lqa SpecFloat.
Import ListNotations.
Open Scope string_scope.
Open Scope nat_scope.
Open Scope list_scope.

Infix "^^" := String.append (at level 60, right associativity).

(** ** Python values and exceptions *)

Inductive pyval :=
| PNone
| PStr (s : string)
| PNum (q : Q).

(** [bool(v)]: [None], [""] and [0.0] are falsy. *)
Definition truthy (v : pyval) : bool :=
  match v with
  | PNone => false
  | PStr s => negb (String.eqb s "")
  | PNum q => negb (Qeq_bool q 0)
  end.

Definition tipo_nome (v : pyval) : string :=
  match v with
  | PNone => "NoneType"
  | PStr _ => "str"
  | PNum _ => "float"
  end.

(** The type name in CPython's argument-type errors ("must be str, not
    None"), where [None] is written by its value. *)
Definition tipo_nome_arg (v : pyval) : string :=
  match v with
  | PNone => "None"
  | _ => tipo_nome v
  end.

Inductive excecao :=
| TypeError (msg : string)
| ValueError (msg : string)
| OverflowError (msg : string).

(** [str(e)] *)
Definition str_exc (e : excecao) : string :=
  match e with TypeError m => m | ValueError m => m | OverflowError m => m end.

(** The [TypeError] raised by [re.sub] / [re.search] on a non-string. *)
Definition erro_re (v : pyval) : excecao :=
  TypeError ("expected string or bytes-like object, got '" ^^ tipo_nome v ^^ "'").

(** ** Floats *)

(** Python's [round(x)] to an integer: nearest, ties to even. *)
Definition py_round (x : Q) : Z :=
  let f := Qfloor x in
  let r := (x - inject_Z f)%Q in
  if Qlt_le_dec r (1 # 2) then f
  else if Qlt_le_dec (1 # 2) r then (f + 1)%Z
  else if Z.even f then f else (f + 1)%Z.

(** [2 ^ e] for an integer exponent. *)
Definition pot2 (e : Z) : Q :=
  if Z.leb 0 e then inject_Z (2 ^ e)%Z else Qinv (inject_Z (2 ^ (- e))%Z).

(** [floor(log2 a)] for a positive rational [a]: the difference of the bit
    lengths of numerator and denominator, or one less. *)
Definition log2_q (a : Q) : Z :=
  let k := (Z.log2 (Qnum a) - Z.log2 (Zpos (Qden a)))%Z in
  if Qlt_le_dec a (pot2 k) then (k - 1)%Z else k.

(** IEEE-754 binary64 rounding to nearest, ties to even, of a positive
    rational: 53 significant bits, least exponent [-1074] (subnormals). *)
Definition arredonda_pos (a : Q) : Q :=
  let e := Z.max (log2_q a - 52)%Z (-1074)%Z in
  (inject_Z (py_round (a / pot2 e)) * pot2 e)%Q.

(** The double nearest to [x] (before the overflow check). *)
Definition arredonda (x : Q) : Q :=
  if Qlt_le_dec 0 x then arredonda_pos x
  else if Qlt_le_dec x 0 then (- arredonda_pos (- x))%Q else 0%Q.

(** The result of a float operation whose exact value is [x]: [None] when
    it overflows to an infinity (magnitude [2 ^ 1024] after rounding). *)
Arguments arredonda : simpl never.

Definition dbl (x : Q) : option Q :=
  let r := arredonda x in
  if Qle_bool (pot2 1024) (Qabs r) then None else Some r.

(** ** Characters and digits *)

Definition is_digit (c : ascii) : bool :=
  (48 <=? nat_of_ascii c) && (nat_of_ascii c <=? 57).

(** [int(c)] for a decimal digit character. *)
Definition int_digit (c : ascii) : nat := nat_of_ascii c - 48.

Definition digit_char (n : nat) : ascii := ascii_of_nat (48 + n).

(** [str(n)] for a natural number, in decimal. *)
Fixpoint str_nat_aux (fuel n : nat) (acc : string) : string :=
  match fuel with
  | O => acc
  | S f =>
      let acc' := String (digit_char (n mod 10)) acc in
      if n <? 10 then acc' else str_nat_aux f (n / 10) acc'
  end.

Definition str_nat (n : nat) : string := str_nat_aux (S n) n "".

(** [re.sub(r'[^\d]', '', s)], as a list of characters. *)
Definition digitos_de (s : string) : list ascii :=
  filter is_digit (list_ascii_of_string s).

(** Python slice [l[i:j]] (within bounds) and single-character index. *)
Definition fatia {A} (i j : nat) (l : list A) : list A := firstn (j - i) (skipn i l).

Definition char_em (l : list ascii) (i : nat) : string :=
  String (nth i l "000"%char) "".

(** ** Check-digit algorithms ([validator.py]) *)

(** [calcular_dv_modulo10]: the loop body over one digit, right to left. *)
Definition passo_mod10 (st : nat * nat) (c : ascii) : nat * nat :=
  let '(soma, multiplicador) := st in
  let resultado := int_digit c * multiplicador in
  let resultado := if 9 <? resultado then resultado / 10 + resultado mod 10
                   else resultado in
  (soma + resultado, if multiplicador =? 2 then 1 else 2).

Definition dv_modulo10 (sequencia : list ascii) : nat :=
  let '(soma, _) := fold_left passo_mod10 (rev sequencia) (0, 2) in
  let resto := soma mod 10 in
  if resto =? 0 then 0 else 10 - resto.

Definition calcular_dv_modulo10 (sequencia : list ascii) : string :=
  str_nat (dv_modulo10 sequencia).

(** [calcular_dv_modulo11] *)
Definition passo_mod11 (st : nat * nat) (c : ascii) : nat * nat :=
  let '(soma, multiplicador) := st in
  let soma := soma + int_digit c * multiplicador in
  let multiplicador := multiplicador + 1 in
  (soma, if 9 <? multiplicador then 2 else multiplicador).

Definition dv_modulo11 (sequencia : list ascii) : nat :=
  let '(soma, _) := fold_left passo_mod11 (rev sequencia) (0, 2) in
  let resto := soma mod 11 in
  let dv := 11 - resto in
  if (dv =? 0) || (dv =? 10) || (dv =? 11) then 1 else dv.

Definition calcular_dv_modulo11 (sequencia : list ascii) : string :=
  str_nat (dv_modulo11 sequencia).

(** ** Validation results *)

(** The dict [{'valido': bool, 'erros': [str]}] of a sub-validator. *)
Record resultado := mk_resultado { valido : bool; erros : list string }.

(** The closing [return {'valido': len(erros) == 0, 'erros': erros}]. *)
Definition fecha (erros : list string) : resultado :=
  mk_resultado (length erros =? 0) erros.

(** [if cond: erros.append(msg)] *)
Definition se (cond : bool) (msg : string) : list string :=
  if cond then [msg] else [].

(** [validar_linha_digitavel] *)
Definition validar_linha_digitavel (v : pyval) : resultado :=
  match v with
  | PStr linha =>
      let digitos := digitos_de linha in
      if negb (length digitos =? 47) then
        mk_resultado false
          ["Linha digitável deve ter 47 dígitos (tem " ^^ str_nat (length digitos) ^^ ")"]
      else
        let campo1 := fatia 0 10 digitos in
        let campo2 := fatia 10 21 digitos in
        let campo3 := fatia 21 32 digitos in
        let dv1_informado := char_em campo1 9 in
        let dv1_calculado := calcular_dv_modulo10 (fatia 0 9 campo1) in
        let dv2_informado := char_em campo2 10 in
        let dv2_calculado := calcular_dv_modulo10 (fatia 0 10 campo2) in
        let dv3_informado := char_em campo3 10 in
        let dv3_calculado := calcular_dv_modulo10 (fatia 0 10 campo3) in
        fecha
          (se (negb (String.eqb dv1_informado dv1_calculado))
              ("DV1 inválido (esperado: " ^^ dv1_calculado ^^ ", encontrado: " ^^ dv1_informado ^^ ")")
           ++ se (negb (String.eqb dv2_informado dv2_calculado))
              ("DV2 inválido (esperado: " ^^ dv2_calculado ^^ ", encontrado: " ^^ dv2_informado ^^ ")")
           ++ se (negb (String.eqb dv3_informado dv3_calculado))
              ("DV3 inválido (esperado: " ^^ dv3_calculado ^^ ", encontrado: " ^^ dv3_informado ^^ ")"))
  | _ =>
      mk_resultado false ["Erro ao validar linha digitável: " ^^ str_exc (erro_re v)]
  end.

(** [validar_codigo_barras] *)
Definition validar_codigo_barras (v : pyval) : resultado :=
  match v with
  | PStr codigo =>
      let digitos := digitos_de codigo in
      if negb (length digitos =? 44) then
        mk_resultado false
          ["Código de barras deve ter 44 dígitos (tem " ^^ str_nat (length digitos) ^^ ")"]
      else
        let dv_informado := char_em digitos 4 in
        let codigo_sem_dv := fatia 0 4 digitos ++ fatia 5 44 digitos in
        let dv_calculado := calcular_dv_modulo11 codigo_sem_dv in
        fecha
          (se (negb (String.eqb dv_informado dv_calculado))
              ("DV do código de barras inválido (esperado: " ^^ dv_calculado
               ^^ ", encontrado: " ^^ dv_informado ^^ ")"))
  | _ =>
      mk_resultado false ["Erro ao validar código de barras: " ^^ str_exc (erro_re v)]
  end.

(** [validar_valor]: not wrapped in [try]; comparing a non-number with [0]
    raises to the caller. *)
Definition validar_valor (v : pyval) : excecao + resultado :=
  match v with
  | PNum valor =>
      inr (fecha (se (Qle_bool valor 0) "Valor deve ser maior que zero"
                  ++ se (negb (Qle_bool valor (arredonda (999999999 # 100))))
                       "Valor excede limite máximo (R$ 9.999.999,99)"))
  | _ =>
      inl (TypeError ("'<=' not supported between instances of '" ^^ tipo_nome v ^^ "' and 'int'"))
  end.

(** [validar_cnpj] *)
Definition peso1 : list nat := [5; 4; 3; 2; 9; 8; 7; 6; 5; 4; 3; 2].
Definition peso2 : list nat := [6; 5; 4; 3; 2; 9; 8; 7; 6; 5; 4; 3; 2].

(** [for i in range(n): soma += int(d[i]) * peso[i]] *)
Definition soma_ponderada (peso : list nat) (d : list ascii) : nat :=
  fold_left Nat.add (map (fun '(c, p) => int_digit c * p) (combine d peso)) 0.

Definition dv_cnpj (soma : nat) : nat :=
  let resto := soma mod 11 in
  if resto <? 2 then 0 else 11 - resto.

(** [cnpj_digitos == cnpj_digitos[0] * 14] *)
Definition sequencia_repetida (d : list ascii) : bool :=
  match d with
  | [] => true
  | c :: _ => forallb (fun x => Ascii.eqb x c) d
  end.

Definition validar_cnpj (v : pyval) : resultado :=
  match v with
  | PStr cnpj =>
      let d := digitos_de cnpj in
      if negb (length d =? 14) then mk_resultado false ["CNPJ deve ter 14 dígitos"]
      else if sequencia_repetida d then
        mk_resultado false ["CNPJ inválido (sequência repetida)"]
      else
        let dv1 := dv_cnpj (soma_ponderada peso1 (firstn 12 d)) in
        let dv2 := dv_cnpj (soma_ponderada peso2 (firstn 13 d)) in
        fecha (se (negb (int_digit (nth 12 d "0"%char) =? dv1))
                  "Primeiro dígito verificador do CNPJ inválido"
               ++ se (negb (int_digit (nth 13 d "0"%char) =? dv2))
                  "Segundo dígito verificador do CNPJ inválido")
  | _ => mk_resultado false ["Erro ao validar CNPJ: " ^^ str_exc (erro_re v)]
  end.

Definition bancos_validos : list string :=
  ["001"; "033"; "104"; "237"; "341"; "748"; "756";
   "077"; "260"; "290"; "403"; "422"; "140"; "197"].

Definition em_bancos_validos (v : pyval) : bool :=
  match v with
  | PStr s => existsb (String.eqb s) bancos_validos
  | _ => false
  end.

(** ** The extracted-field dictionary *)

(** The dict built by [parse_dados_boleto] and read by the validator, the
    feature preparation and the explainer (keys absent from a hand-built dict
    read as [None] through [dict.get]). *)
Record dados := mk_dados {
  codigo_barras : pyval;
  linha_digitavel : pyval;
  valor : pyval;
  vencimento : pyval;
  beneficiario_nome : pyval;
  beneficiario_cnpj : pyval;
  codigo_banco : pyval;
  banco_nome : pyval;
  agencia : pyval
}.

(** The dict returned by [validar_boleto_febraban]. *)
Record validacao := mk_validacao {
  v_valido : bool;
  v_erros : list string;
  v_detalhes : list (string * resultado)
}.

Section Validador.

(** [datetime.strptime(s, '%d/%m/%Y')]: the day number of the date, or the
    message of the [ValueError] it raises. *)
Variable strptime_dmY : string -> string + Z.
(** [datetime.now()]: day number, and microseconds elapsed in that day. *)
Variable agora_dia : Z.
Variable agora_us : Z.
(** [str(x)] of a float. *)
Variable repr_float : Q -> string.

(** [str(v)] / [f"{v}"] *)
Definition py_str (v : pyval) : string :=
  match v with
  | PNone => "None"
  | PStr s => s
  | PNum q => repr_float q
  end.

(** [validar_vencimento]. A date parsed by [strptime] is at midnight, so
    [(hoje - vencimento).days] is the difference of day numbers, and
    [(vencimento - hoje).days] is one less when [hoje] is past midnight. *)
Definition validar_vencimento (v : pyval) : resultado :=
  match v with
  | PStr vencimento_str =>
      match strptime_dmY vencimento_str with
      | inl msg => mk_resultado false ["Data de vencimento inválida: " ^^ msg]
      | inr venc =>
          let hoje_menos_venc := (agora_dia - venc)%Z in
          let venc_menos_hoje :=
            if Z.eqb agora_us 0 then (venc - agora_dia)%Z else (venc - agora_dia - 1)%Z in
          fecha (se (Z.ltb (5 * 365) hoje_menos_venc)
                    ("Boleto com vencimento muito antigo (" ^^ vencimento_str ^^ ")")
                 ++ se (Z.ltb (2 * 365) venc_menos_hoje)
                    ("Boleto com vencimento muito distante (" ^^ vencimento_str ^^ ")"))
      end
  | _ =>
      mk_resultado false
        ["Data de vencimento inválida: strptime() argument 1 must be str, not " ^^ tipo_nome_arg v]
  end.

(** [validar_codigo_banco] *)
Definition validar_codigo_banco (v : pyval) : resultado :=
  fecha (se (negb (em_bancos_validos v)) ("Código de banco desconhecido: " ^^ py_str v)).

(** One checked field: extend [erros] when the sub-result is invalid and
    record the sub-result in [detalhes]. *)
Definition registra (acc : list string * list (string * resultado))
    (chave : string) (r : resultado) : list string * list (string * resultado) :=
  let '(es, det) := acc in
  (if valido r then es else es ++ erros r, det ++ [(chave, r)]).

(** A mandatory field missing: [erros.append(msg)]. *)
Definition falta (acc : list string * list (string * resultado)) (msg : string)
    : list string * list (string * resultado) :=
  let '(es, det) := acc in (es ++ [msg], det).

(** The body of the [try] in [validar_boleto_febraban]. *)
Definition validar_corpo (d : dados)
    : excecao + (list string * list (string * resultado)) :=
  let acc := ([], []) in
  let acc := if truthy (linha_digitavel d)
             then registra acc "linha_digitavel" (validar_linha_digitavel (linha_digitavel d))
             else falta acc "Linha digitável não encontrada" in
  let acc := if truthy (codigo_barras d)
             then registra acc "codigo_barras" (validar_codigo_barras (codigo_barras d))
             else acc in
  let passo_valor :=
    if truthy (valor d) then
      match validar_valor (valor d) with
      | inl e => inl e
      | inr r => inr (registra acc "valor" r)
      end
    else inr (falta acc "Valor não encontrado") in
  match passo_valor with
  | inl e => inl e
  | inr acc =>
      let acc := if truthy (vencimento d)
                 then registra acc "vencimento" (validar_vencimento (vencimento d))
                 else falta acc "Vencimento não encontrado" in
      let acc := if truthy (beneficiario_cnpj d)
                 then registra acc "cnpj" (validar_cnpj (beneficiario_cnpj d))
                 else acc in
      let acc := if truthy (codigo_banco d)
                 then registra acc "banco" (validar_codigo_banco (codigo_banco d))
                 else falta acc "Código do banco não encontrado" in
      inr acc
  end.

(** [validar_boleto_febraban]: any exception escaping the body is caught. *)
Definition validar_boleto_febraban (d : dados) : validacao :=
  match validar_corpo d with
  | inr (es, det) => mk_validacao (length es =? 0) es det
  | inl e => mk_validacao false ["Erro na validação: " ^^ str_exc e] []
  end.

End Validador.

(** ** Classifier boundary ([model.py]) and verdict fusion ([tasks.py]) *)

(** The seven features, in the order [predizer_fraude] feeds them. *)
Record features := mk_features {
  f_banco : Q; f_codigoBanco : Q; f_agencia : Q; f_valor : Q;
  f_linha_codBanco : Q; f_linha_moeda : Q; f_linha_valor : Q
}.

(** A trained model: [predict(df)[0]] and [predict_proba(df)[0]] (the two
    probabilities, finite doubles, by their exact values). *)
Record modelo := mk_modelo {
  predict : features -> Z;
  predict_proba : features -> Q * Q
}.

(** [int(x)]: truncation toward zero. *)
Definition py_int (x : Q) : Z :=
  if Qle_bool 0 x then Qfloor x else (- Qfloor (- x))%Z.

(** [max(a, b)]: the first argument unless the second is larger. *)
Definition py_max (a b : Q) : Q := if Qlt_le_dec a b then b else a.

(** The dict returned by [predizer_fraude]. *)
Record previsao := mk_previsao {
  is_fraudulento : bool;
  classe_predita : Z;
  score_fraude : Z;
  confianca : Q;
  prob_falso : Q;
  prob_verdadeiro : Q;
  features_usadas : features
}.

(** [predizer_fraude]: [int(prob_falso * 100)] truncates the float product,
    which is the exact product rounded to a double; [int] of an infinity
    raises [OverflowError]. *)
Definition predizer_fraude (m : modelo) (f : features) : excecao + previsao :=
  let classe := predict m f in
  let '(p_falso, p_verdadeiro) := predict_proba m f in
  match dbl (p_falso * (100 # 1)) with
  | None => inl (OverflowError "cannot convert float infinity to integer")
  | Some produto =>
      inr {| is_fraudulento := Z.eqb classe 0;
             classe_predita := classe;
             score_fraude := py_int produto;
             confianca := py_max p_falso p_verdadeiro;
             prob_falso := p_falso;
             prob_verdadeiro := p_verdadeiro;
             features_usadas := f |}
  end.

(** The [fraudeAnalise] record written by [processar_boleto] (its
    ['explicacao'] member is [gerar_explicacao_humanizada] below). *)
Record fraude_analise := mk_fraude_analise {
  fa_isFraudulento : bool;
  fa_score : Z;
  fa_confianca : Q;
  fa_metodos : list string;
  fa_motivos : list string
}.

(** Step 5 of [processar_boleto]. *)
Definition analise_fraude (val : validacao) (pred : previsao) : fraude_analise :=
  let is_fraud := negb (v_valido val) || is_fraudulento pred in
  let metodos := (if negb (v_valido val) then ["validacao_febraban"] else [])
                 ++ (if is_fraudulento pred then ["modelo_ml"] else []) in
  {| fa_isFraudulento := is_fraud;
     fa_score := score_fraude pred;
     fa_confianca := confianca pred;
     fa_metodos := metodos;
     fa_motivos := if negb (v_valido val) then v_erros val else [] |}.

(** ** Explanation ([explainer.py]) *)

(** [str.lower()] on UTF-8 bytes: ASCII capitals and the Latin-1 capitals
    (two bytes [0xC3 0x80..0x9E], except the sign [0xC3 0x97]). *)
Fixpoint lower (l : list ascii) : list ascii :=
  match l with
  | [] => []
  | c :: rest =>
      let n := nat_of_ascii c in
      if (65 <=? n) && (n <=? 90) then ascii_of_nat (n + 32) :: lower rest
      else if n =? 195 then
        match rest with
        | [] => [c]
        | d :: rest' =>
            let m := nat_of_ascii d in
            let d' := if (128 <=? m) && (m <=? 158) && negb (m =? 151)
                      then ascii_of_nat (m + 32) else d in
            c :: d' :: lower rest'
        end
      else c :: lower rest
  end.

Fixpoint prefixo (p s : list ascii) : bool :=
  match p, s with
  | [], _ => true
  | a :: p', b :: s' => Ascii.eqb a b && prefixo p' s'
  | _ :: _, [] => false
  end.

(** [p in s] *)
Fixpoint contem (p s : list ascii) : bool :=
  match s with
  | [] => prefixo p []
  | _ :: s' => prefixo p s || contem p s'
  end.

Definition contem_str (p s : string) : bool :=
  contem (list_ascii_of_string p) (list_ascii_of_string s).

Definition minusculas (s : string) : string :=
  string_of_list_ascii (lower (list_ascii_of_string s)).

(** [_determinar_gravidade] *)
Definition determinar_gravidade (erro : string) : string :=
  let erro_lower := minusculas erro in
  if existsb (fun p => contem_str p erro_lower) ["inválido"; "incorreto"; "falha crítica"]
  then "critica"
  else if existsb (fun p => contem_str p erro_lower) ["dígito verificador"; "código de barras"]
  then "alta"
  else if existsb (fun p => contem_str p erro_lower) ["formato"; "incompleto"]
  then "media"
  else "baixa".

(** [_calcular_impacto]: [impactos.get(gravidade, 50)] *)
Definition calcular_impacto (gravidade : string) : Z :=
  if String.eqb gravidade "critica" then 95%Z
  else if String.eqb gravidade "alta" then 80%Z
  else if String.eqb gravidade "media" then 60%Z
  else if String.eqb gravidade "baixa" then 30%Z
  else 50%Z.

(** [_get_cor_gravidade]: [cores.get(gravidade, 'medium')] *)
Definition get_cor_gravidade (gravidade : string) : string :=
  if String.eqb gravidade "critica" then "danger"
  else if String.eqb gravidade "alta" then "warning"
  else if String.eqb gravidade "media" then "medium"
  else if String.eqb gravidade "baixa" then "primary"
  else "medium".

(** One entry of the [razoes] list. *)
Record razao := mk_razao {
  gravidade : string;
  categoria : string;
  categoria_nome : string;
  cor : string;
  titulo : string;
  descricao_simples : string;
  descricao_avancada : string;
  impacto : Z;
  fonte : string
}.

Record recomendacao := mk_recomendacao {
  nivel_risco : string;
  cor_recomendacao : string;
  acao_principal : string;
  mensagem : string;
  proximos_passos : list string
}.

(** [_gerar_recomendacao] *)
Definition gerar_recomendacao (is_fraud : bool) (conf : Q) (score : Z) : recomendacao :=
  if is_fraud then
    if Qle_bool (arredonda (85 # 100)) conf then
      mk_recomendacao "ALTO" "danger" "NÃO PAGAR (Alta Probabilidade de Fraude)"
        "Este boleto apresenta FORTES indícios de falsificação. Recomendamos fortemente não efetuar o pagamento."
        ["NÃO efetue o pagamento deste boleto";
         "Entre em contato DIRETAMENTE com a empresa emissora pelos canais oficiais";
         "Reporte este possível boleto falso às autoridades competentes";
         "Solicite um novo boleto através de canais seguros e oficiais";
         "Verifique se o e-mail/site de origem é legítimo"]
    else if Qle_bool (arredonda (65 # 100)) conf then
      mk_recomendacao "MÉDIO-ALTO" "warning" "VERIFICAR ANTES DE PAGAR"
        "Este boleto apresenta características suspeitas. É necessária verificação adicional antes do pagamento."
        ["Aguarde! Não pague ainda";
         "Confirme os dados com a empresa emissora pelos canais oficiais";
         "Verifique se os dados bancários correspondem aos oficiais";
         "Confirme a autenticidade do e-mail/site de origem";
         "Solicite nova via por canal seguro, se necessário"]
    else
      mk_recomendacao "MÉDIO" "warning" "PROCEDER COM CAUTELA"
        "Algumas irregularidades foram detectadas. Recomendamos verificação antes do pagamento."
        ["Confira cuidadosamente todos os dados do boleto";
         "Em caso de dúvida, contate a empresa emissora";
         "Verifique se o valor e vencimento estão corretos";
         "Confirme se o banco é o esperado para este tipo de cobrança"]
  else
    if Qle_bool (arredonda (85 # 100)) conf then
      mk_recomendacao "BAIXO" "success" "PODE PAGAR (Com Verificação)"
        "Este boleto aparenta ser autêntico. Mesmo assim, sempre confira os dados antes do pagamento."
        ["Boleto aparenta ser legítimo";
         "Confira os dados: valor, vencimento e beneficiário";
         "Verifique se o banco corresponde ao esperado";
         "Em caso de qualquer dúvida, contate o emissor";
         "Proceda com o pagamento normalmente"]
    else if Qle_bool (arredonda (65 # 100)) conf then
      mk_recomendacao "BAIXO-MÉDIO" "success" "PROVÁVEL AUTENTICIDADE"
        "O boleto passou nas verificações básicas, mas sempre confirme os dados importantes."
        ["Verificações de segurança aprovadas";
         "Confira valor e vencimento";
         "Em caso de dúvida, confirme com o emissor";
         "Você pode prosseguir com o pagamento"]
    else
      mk_recomendacao "INCERTO" "medium" "VERIFICAR MANUALMENTE"
        "Não foi possível determinar com certeza. Recomendamos verificação manual cuidadosa."
        ["Analise cuidadosamente todos os dados";
         "Confirme a autenticidade com o emissor";
         "Verifique os dados bancários";
         "Proceda somente após confirmação"].

Section Explicacao.

(** [f"{x:.0f}"], [f"{x:.2f}"] and [f"{x:,.2f}"] of a float. *)
Variable fmt_0f : Q -> string.
Variable fmt_2f : Q -> string.
Variable fmt_milhar_2f : Q -> string.
(** [datetime.now().isoformat()] *)
Variable agora_iso : string.

(** The entry added for one validation error. *)
Definition razao_validacao (erro : string) : razao :=
  let g := determinar_gravidade erro in
  {| gravidade := g;
     categoria := "validacao_tecnica";
     categoria_nome := "Validação Técnica";
     cor := get_cor_gravidade g;
     titulo := "Possível Inconsistência Técnica";
     descricao_simples := "Foi identificada uma possível irregularidade: " ^^ erro;
     descricao_avancada := "Validação FEBRABAN: " ^^ erro
        ^^ ". Isso pode indicar adulteração ou erro na geração do boleto.";
     impacto := calcular_impacto g;
     fonte := "Validação FEBRABAN" |}.

Definition razao_ml_suspeita (s : Q) : razao :=
  {| gravidade := "alta";
     categoria := "machine_learning";
     categoria_nome := "Análise de Padrões";
     cor := "danger";
     titulo := "Padrão Suspeito Identificado";
     descricao_simples := "O modelo de IA identificou características que sugerem possível fraude (confiança: "
        ^^ fmt_0f (s * (100 # 1)) ^^ "%)";
     descricao_avancada := "Score de fraude: " ^^ fmt_2f s
        ^^ ". O modelo Random Forest, treinado com milhares de boletos reais e falsos, identificou padrões estatísticos atípicos que podem indicar falsificação.";
     impacto := 85%Z;
     fonte := "Machine Learning" |}.

Definition razao_ml_normal (s : Q) : razao :=
  {| gravidade := "baixa";
     categoria := "machine_learning";
     categoria_nome := "Análise de Padrões";
     cor := "success";
     titulo := "Padrão Aparentemente Normal";
     descricao_simples := "O modelo de IA não identificou características suspeitas significativas (confiança: "
        ^^ fmt_0f ((1 - s) * (100 # 1)) ^^ "%)";
     descricao_avancada := "Score de autenticidade: " ^^ fmt_2f (1 - s)
        ^^ ". As características analisadas sugerem conformidade com padrões de boletos legítimos.";
     impacto := 15%Z;
     fonte := "Machine Learning" |}.

Definition razao_valor_elevado (v : Q) : razao :=
  {| gravidade := "media";
     categoria := "valor";
     categoria_nome := "Análise de Valor";
     cor := "warning";
     titulo := "Valor Elevado";
     descricao_simples := "O valor do boleto é elevado (R$ " ^^ fmt_milhar_2f v
        ^^ "). Recomenda-se verificação adicional.";
     descricao_avancada := "Boletos com valores acima de R$ 10.000,00 merecem atenção extra. Em caso de fraude, o prejuízo seria significativo.";
     impacto := 60%Z;
     fonte := "Análise de Risco" |}.

Definition razao_generica : razao :=
  {| gravidade := "baixa";
     categoria := "geral";
     categoria_nome := "Análise Geral";
     cor := "primary";
     titulo := "Análise Completa Realizada";
     descricao_simples := "Todas as verificações de segurança foram executadas.";
     descricao_avancada := "O boleto passou por validação FEBRABAN, análise de Machine Learning e verificações de padrões suspeitos.";
     impacto := 30%Z;
     fonte := "Sistema DetectaBB" |}.

(** [dados_extraidos.get('valor', 0) > 10000]; comparing [None] or a [str]
    with an [int] raises. *)
Definition valor_maior_que_10000 (v : pyval) : excecao + bool :=
  match v with
  | PNum q => inr (negb (Qle_bool q (10000 # 1)))
  | _ => inl (TypeError ("'>' not supported between instances of '" ^^ tipo_nome v ^^ "' and 'int'"))
  end.

(** [_gerar_razoes_detalhadas] *)
Definition gerar_razoes_detalhadas (d : dados) (val : validacao) (pred : previsao)
    : excecao + list razao :=
  let razoes := map razao_validacao (v_erros val) in
  let s := inject_Z (score_fraude pred) in
  let razoes :=
    if Qlt_le_dec (7 # 10) s then razoes ++ [razao_ml_suspeita s]
    else if Qlt_le_dec s (3 # 10) then razoes ++ [razao_ml_normal s]
    else razoes in
  match valor_maior_que_10000 (valor d) with
  | inl e => inl e
  | inr elevado =>
      let razoes :=
        if elevado then
          match valor d with
          | PNum q => razoes ++ [razao_valor_elevado q]
          | _ => razoes
          end
        else razoes in
      inr (match razoes with [] => [razao_generica] | _ => razoes end)
  end.

(** [_identificar_principal_motivo] *)
Definition identificar_principal_motivo (val : validacao) (pred : previsao) : string :=
  match v_erros val with
  | e0 :: _ =>
      let criticos := filter (fun e => contem_str "inválido" (minusculas e)
                                       || contem_str "incorreto" (minusculas e)) (v_erros val) in
      match criticos with
      | c0 :: _ => "Possível irregularidade detectada: " ^^ c0
      | [] => "Inconsistência identificada: " ^^ e0
      end
  | [] =>
      let s := inject_Z (score_fraude pred) in
      if Qlt_le_dec (8 # 10) s then "Modelo de ML identificou padrão suspeito com alta confiança"
      else if Qlt_le_dec (6 # 10) s then "Modelo de ML identificou características atípicas"
      else if Qlt_le_dec s (3 # 10) then "Todas as verificações sugerem autenticidade"
      else "Análise inconclusiva - recomenda-se verificação manual"
  end.

Record explicacao_simples := mk_explicacao_simples {
  status : string;
  nivel_confianca : string;
  resumo : string;
  principal_motivo : string;
  acao_recomendada : string
}.

(** The bundle returned by [gerar_explicacao_humanizada] (its ['avancado']
    member, a copy of the inputs with rounded percentages, is not modelled). *)
Record explicacao := mk_explicacao {
  simples : explicacao_simples;
  razoes : list razao;
  recomendacao_final : recomendacao;
  gerado_em : string
}.

(** [gerar_explicacao_humanizada] *)
Definition gerar_explicacao_humanizada (d : dados) (val : validacao) (pred : previsao)
    : excecao + explicacao :=
  let is_fraud := is_fraudulento pred in
  let conf := confianca pred in
  let nivel :=
    if Qle_bool (arredonda (9 # 10)) conf then "Muito Alta"
    else if Qle_bool (arredonda (75 # 100)) conf then "Alta"
    else if Qle_bool (arredonda (6 # 10)) conf then "Média"
    else "Baixa" in
  let simples :=
    if is_fraud then
      mk_explicacao_simples "POSSIVELMENTE FALSO" nivel
        "Este boleto apresenta características suspeitas que sugerem possível falsificação."
        (identificar_principal_motivo val pred)
        "Recomendamos NÃO efetuar o pagamento sem verificação adicional"
    else
      mk_explicacao_simples "POSSIVELMENTE AUTÊNTICO" nivel
        "Este boleto aparenta ser autêntico, mas sempre confira os dados com o emissor."
        (identificar_principal_motivo val pred)
        "Você pode prosseguir com cautela, mas sempre verifique os dados" in
  match gerar_razoes_detalhadas d val pred with
  | inl e => inl e
  | inr rs =>
      inr {| simples := simples;
             razoes := rs;
             recomendacao_final := gerar_recomendacao is_fraud conf (score_fraude pred);
             gerado_em := agora_iso |}
  end.

End Explicacao.

(** ** Field extraction ([parser.py]) *)

(** [\s] (ASCII range: space, [\t\n\v\f\r] and [\x1c]-[\x1f]) and [\w]. *)
Definition is_space (c : ascii) : bool :=
  let n := nat_of_ascii c in
  (n =? 32) || ((9 <=? n) && (n <=? 13)) || ((28 <=? n) && (n <=? 31)).

Definition is_ponto_ou_espaco (c : ascii) : bool :=
  Ascii.eqb c "."%char || is_space c.

Definition is_word (c : ascii) : bool :=
  let n := nat_of_ascii c in
  is_digit c || ((65 <=? n) && (n <=? 90)) || ((97 <=? n) && (n <=? 122)) || (n =? 95).

(** [\d{k}] at the head of the input: the digits read and the rest. *)
Fixpoint digitos_exatos (k : nat) (s : list ascii) : option (list ascii * list ascii) :=
  match k with
  | O => Some ([], s)
  | S k' =>
      match s with
      | c :: t =>
          if is_digit c then
            match digitos_exatos k' t with
            | Some (g, r) => Some (c :: g, r)
            | None => None
            end
          else None
      | [] => None
      end
  end.

(** An optional separator [[...]?]. Separators and digits are disjoint, so
    the greedy choice is the only one under which the next [\d] can match:
    backtracking never changes the outcome. *)
Definition opcional (p : ascii -> bool) (s : list ascii) : list ascii :=
  match s with
  | c :: t => if p c then t else s
  | [] => s
  end.

(** [(\d{5})[.\s]?(\d{5})\s?(\d{5})[.\s]?(\d{6})\s?(\d{5})[.\s]?(\d{6})\s?(\d)\s?(\d{14})]
    anchored at the head of the input: its eight groups. *)
Definition casa_linha (s : list ascii) : option (list (list ascii)) :=
  match digitos_exatos 5 s with None => None | Some (g0, s) =>
  match digitos_exatos 5 (opcional is_ponto_ou_espaco s) with None => None | Some (g1, s) =>
  match digitos_exatos 5 (opcional is_space s) with None => None | Some (g2, s) =>
  match digitos_exatos 6 (opcional is_ponto_ou_espaco s) with None => None | Some (g3, s) =>
  match digitos_exatos 5 (opcional is_space s) with None => None | Some (g4, s) =>
  match digitos_exatos 6 (opcional is_ponto_ou_espaco s) with None => None | Some (g5, s) =>
  match digitos_exatos 1 (opcional is_space s) with None => None | Some (g6, s) =>
  match digitos_exatos 14 (opcional is_space s) with None => None | Some (g7, _) =>
    Some [g0; g1; g2; g3; g4; g5; g6; g7]
  end end end end end end end end.

(** [re.search]: the leftmost position where the pattern matches. *)
Fixpoint buscar_linha (s : list ascii) : option (list (list ascii)) :=
  match casa_linha s with
  | Some g => Some g
  | None => match s with [] => None | _ :: t => buscar_linha t end
  end.

(** [re.search(r'\b(\d{47})\b', texto)]; [prev] is the character before the
    current position. *)
Fixpoint buscar_47 (prev : option ascii) (s : list ascii) : option (list ascii) :=
  let inicio_ok := match prev with None => true | Some p => negb (is_word p) end in
  let aqui :=
    if inicio_ok then
      match digitos_exatos 47 s with
      | Some (g, c :: _) => if is_word c then None else Some g
      | Some (g, []) => Some g
      | None => None
      end
    else None in
  match aqui with
  | Some g => Some g
  | None => match s with [] => None | c :: t => buscar_47 (Some c) t end
  end.

Definition sl (l : list ascii) : string := string_of_list_ascii l.

(** [texto.replace('\n', ' ')] *)
Definition troca_quebras (s : list ascii) : list ascii :=
  map (fun c => if Ascii.eqb c "010"%char then " "%char else c) s.

(** [extrair_linha_digitavel] *)
Definition extrair_linha_digitavel (texto : string) : option string :=
  let t := troca_quebras (list_ascii_of_string texto) in
  match buscar_linha t with
  | Some [g0; g1; g2; g3; g4; g5; g6; g7] =>
      Some (sl g0 ^^ "." ^^ sl g1 ^^ " " ^^ sl g2 ^^ "." ^^ sl g3 ^^ " "
            ^^ sl g4 ^^ "." ^^ sl g5 ^^ " " ^^ sl g6 ^^ " " ^^ sl g7)
  | Some _ => None
  | None =>
      match buscar_47 None t with
      | Some d =>
          Some (sl (fatia 0 5 d) ^^ "." ^^ sl (fatia 5 10 d) ^^ " " ^^ sl (fatia 10 15 d)
                ^^ "." ^^ sl (fatia 15 21 d) ^^ " " ^^ sl (fatia 21 26 d) ^^ "."
                ^^ sl (fatia 26 32 d) ^^ " " ^^ sl (fatia 32 33 d) ^^ " " ^^ sl (fatia 33 47 d))
      | None => None
      end
  end.

Definition bancos : list (string * string) :=
  [("001", "Banco do Brasil"); ("033", "Santander");
   ("104", "Caixa Econômica Federal"); ("237", "Bradesco"); ("341", "Itaú");
   ("748", "Sicredi"); ("756", "Bancoob"); ("077", "Banco Inter");
   ("260", "Nubank"); ("290", "PagSeguro"); ("403", "Cora")].

Fixpoint procura (k : string) (l : list (string * string)) : option string :=
  match l with
  | [] => None
  | (k', v) :: t => if String.eqb k k' then Some v else procura k t
  end.

Section Parser.

Variable repr_float : Q -> string.
(** The other extractors ([extrair_codigo_barras], [extrair_valor],
    [extrair_vencimento], [extrair_cnpj]): regular-expression searches over a
    string, which do not raise and write only their own field. *)
Variable extrair_codigo_barras : string -> option string.
Variable extrair_valor : string -> option Q.
Variable extrair_vencimento : string -> option string.
Variable extrair_cnpj : string -> option string.

(** [identificar_banco]: [bancos.get(codigo_banco, f"Banco {codigo_banco}")] *)
Definition identificar_banco (codigo : pyval) : string :=
  match codigo with
  | PStr c => match procura c bancos with
              | Some nome => nome
              | None => "Banco " ^^ c
              end
  | _ => "Banco " ^^ py_str repr_float codigo
  end.

(** [if x: dados[k] = x] for an extracted string / number. *)
Definition se_str (o : option string) : pyval :=
  match o with Some s => if truthy (PStr s) then PStr s else PNone | None => PNone end.

(** [parse_dados_boleto] *)
Definition parse_dados_boleto (texto : string) : dados :=
  let linha := extrair_linha_digitavel texto in
  let linha_v := se_str linha in
  let codigo_banco_v :=
    match linha_v with PStr l => PStr (substring 0 3 l) | _ => PNone end in
  let valor_v :=
    match extrair_valor texto with
    | Some q => if truthy (PNum q) then PNum q else PNone
    | None => PNone
    end in
  let banco := identificar_banco codigo_banco_v in
  {| codigo_barras := se_str (extrair_codigo_barras texto);
     linha_digitavel := linha_v;
     valor := valor_v;
     vencimento := se_str (extrair_vencimento texto);
     beneficiario_nome := PNone;
     beneficiario_cnpj := se_str (extrair_cnpj texto);
     codigo_banco := codigo_banco_v;
     banco_nome := if truthy (PStr banco) then PStr banco else PNone;
     agencia := PNone |}.

End Parser.

(** ** Spec-side reference definitions *)

(** A classifier answering a fixed class and fixed probabilities. *)
Definition modelo_fixo (classe : Z) (p0 p1 : Q) : modelo :=
  mk_modelo (fun _ => classe) (fun _ => (p0, p1)).

Definition features_zero : features := mk_features 0 0 0 0 0 0 0.

(** ** Generic facts *)

Lemma fecha_coerente : forall es,
  valido (fecha es) = true <-> erros (fecha es) = [].
Proof.
  intros es; unfold fecha; simpl.
  rewrite Nat.eqb_eq, length_zero_iff_nil; reflexivity.
Qed.

Lemma singleton_incoerente : forall m,
  false = true <-> [m] = @nil string.
Proof. split; discriminate. Qed.

Ltac coerente :=
  first [ apply fecha_coerente | apply singleton_incoerente ].

(** ** C1: verdict fusion *)

(** C1: the fused verdict is [not valido or classifier fraud]; [metodos]
    records exactly the signals that fired and [motivos] are the validation
    errors when invalid, empty otherwise; an invalid slip with a negative
    classifier gives fraud with [metodos = ['validacao_febraban']]. *)
Theorem analise_fraude_fusao : forall (val : validacao) (pred : previsao),
  let fa := analise_fraude val pred in
  fa_isFraudulento fa = negb (v_valido val) || is_fraudulento pred /\
  (In "validacao_febraban" (fa_metodos fa) <-> v_valido val = false) /\
  (In "modelo_ml" (fa_metodos fa) <-> is_fraudulento pred = true) /\
  fa_motivos fa = (if v_valido val then [] else v_erros val) /\
  (v_valido val = false -> is_fraudulento pred = false ->
   fa_isFraudulento fa = true /\ fa_metodos fa = ["validacao_febraban"]).
Proof.
  intros val pred fa; subst fa; unfold analise_fraude; simpl.
  destruct (v_valido val), (is_fraudulento pred); simpl;
    repeat split; intuition (try discriminate; try congruence).
Qed.

(** ** C5: score and confidence at the classifier boundary *)

(** The rounding [arredonda] agrees with the Standard Library's
    specification of IEEE-754 binary64 ([SpecFloat], 53 bits, [emax] 1024)
    on float literals [k/100], [k/1000] and a few others, and on their
    products with [100]. *)
Definition sf_Q (x : spec_float) : Q :=
  match x with
  | S754_finite s m e => ((if s then -1 else 1) * inject_Z (Zpos m) * pot2 e)%Q
  | _ => 0%Q
  end.

Definition literal_sf (n d : Z) : spec_float :=
  SFdiv 53 1024 (binary_normalize 53 1024 n 0 false) (binary_normalize 53 1024 d 0 false).

Definition confere_arredonda (nd : Z * Z) : bool :=
  let '(n, d) := nd in
  let p := literal_sf n d in
  Qeq_bool (sf_Q p) (arredonda (n # Z.to_pos d)) &&
  Qeq_bool (sf_Q (SFmul 53 1024 p (binary_normalize 53 1024 100 0 false)))
           (arredonda (sf_Q p * (100 # 1))).

Lemma arredonda_conforme_SpecFloat :
  forallb confere_arredonda
    (map (fun k => (Z.of_nat k, 100%Z)) (seq 0 101)
     ++ map (fun k => (Z.of_nat k, 1000%Z)) (seq 0 1001)
     ++ [(1, 3); (2, 3); (1, 7); (5, 7); (-29, 100); (123456789123, 1000); (7, 1)]%Z) = true.
Proof. vm_compute. reflexivity. Qed.

Lemma py_round_entre : forall y, (Qfloor y <= py_round y <= Qfloor y + 1)%Z /\
  (py_round y = (Qfloor y + 1)%Z -> (inject_Z (Qfloor y) < y)%Q).
Proof.
  intros y; unfold py_round.
  assert (Hf := Qfloor_le y).
  destruct (Qlt_le_dec (y - inject_Z (Qfloor y)) (1 # 2)) as [H1 | H1].
  - split; [lia | intros H; lia].
  - assert (Hlt : (inject_Z (Qfloor y) < y)%Q) by lra.
    destruct (Qlt_le_dec (1 # 2) (y - inject_Z (Qfloor y))); [split; [lia | auto] |].
    destruct (Z.even (Qfloor y)); split; try lia; auto.
Qed.

Lemma py_round_le : forall y K, (y <= inject_Z K)%Q -> (py_round y <= K)%Z.
Proof.
  intros y K H.
  destruct (py_round_entre y) as [[H1 H2] H3].
  assert (Hk : (Qfloor y <= K)%Z).
  { rewrite <- (Qfloor_Z K); apply Qfloor_resp_le; exact H. }
  destruct (Z.eq_dec (py_round y) (Qfloor y + 1)) as [E | E]; [| lia].
  specialize (H3 E).
  assert (Hlt : (inject_Z (Qfloor y) < inject_Z K)%Q) by (eapply Qlt_le_trans; eauto).
  rewrite <- Zlt_Qlt in Hlt; lia.
Qed.

Lemma py_round_nonneg : forall y, (0 <= y)%Q -> (0 <= py_round y)%Z.
Proof.
  intros y H.
  destruct (py_round_entre y) as [[H1 _] _].
  assert (Hk : (0 <= Qfloor y)%Z).
  { rewrite <- (Qfloor_Z 0); apply Qfloor_resp_le; exact H. }
  lia.
Qed.

(** Rounding to a double keeps a value of [0..100] in [0..100] ([100] is a
    double). *)
Lemma arredonda_faixa_100 : forall x, (0 <= x <= 100 # 1)%Q -> (0 <= arredonda x <= 100 # 1)%Q.
Proof.
  intros x [H0 H1]; unfold arredonda.
  destruct (Qlt_le_dec 0 x) as [Hp | Hn].
  2: { destruct (Qlt_le_dec x 0); [lra | lra]. }
  unfold arredonda_pos.
  set (e := Z.max (log2_q x - 52)%Z (-1074)%Z).
  assert (Hn : (0 < Qnum x)%Z).
  { unfold Qlt in Hp; simpl in Hp; lia. }
  assert (Hd : (Qnum x <= 100 * Zpos (Qden x))%Z).
  { unfold Qle in H1; simpl in H1; lia. }
  assert (Hlog : (Z.log2 (Qnum x) <= Z.log2 (Zpos (Qden x)) + 7)%Z).
  { assert (A := Z.log2_le_mono (Qnum x) (Zpos (Qden x) * 2 ^ 7)%Z ltac:(lia)).
    rewrite Z.log2_mul_pow2 in A by lia. lia. }
  assert (He : (e <= -45)%Z).
  { unfold e, log2_q; destruct (Qlt_le_dec _ _); lia. }
  assert (Hpot : pot2 e = Qinv (inject_Z (2 ^ (- e))%Z)).
  { unfold pot2; rewrite (proj2 (Z.leb_gt 0 e)) by lia; reflexivity. }
  rewrite Hpot.
  set (P := (2 ^ (- e))%Z).
  assert (HP : (0 < P)%Z) by (apply Z.pow_pos_nonneg; lia).
  assert (HPq : (0 < inject_Z P)%Q) by (rewrite <- (Qfloor_Z P) in HP; unfold Qlt; simpl; lia).
  assert (Hy : (x / Qinv (inject_Z P) == x * inject_Z P)%Q).
  { unfold Qdiv; rewrite Qinv_involutive; reflexivity. }
  assert (Hyle : (x / Qinv (inject_Z P) <= inject_Z (100 * P))%Q).
  { rewrite Hy, inject_Z_mult.
    apply Qmult_le_compat_r; [exact H1 | lra]. }
  assert (Hy0 : (0 <= x / Qinv (inject_Z P))%Q).
  { rewrite Hy; apply Qmult_le_0_compat; lra. }
  pose proof (py_round_le _ _ Hyle) as M1.
  pose proof (py_round_nonneg _ Hy0) as M0.
  set (M := py_round (x / Qinv (inject_Z P))) in *.
  assert (HM1 : (inject_Z M <= (100 # 1) * inject_Z P)%Q).
  { change (100 # 1)%Q with (inject_Z 100); rewrite <- inject_Z_mult, <- Zle_Qle; exact M1. }
  assert (HM0 : (0 <= inject_Z M)%Q) by (change 0%Q with (inject_Z 0); rewrite <- Zle_Qle; exact M0).
  assert (Hinv : (0 <= Qinv (inject_Z P))%Q) by (apply Qinv_le_0_compat; lra).
  split.
  - apply Qmult_le_0_compat; assumption.
  - apply (Qle_trans _ ((100 # 1) * inject_Z P * Qinv (inject_Z P))).
    + apply Qmult_le_compat_r; assumption.
    + rewrite <- Qmult_assoc, Qmult_inv_r by lra; lra.
Qed.

Lemma dbl_faixa_100 : forall x, (0 <= x <= 100 # 1)%Q -> dbl x = Some (arredonda x).
Proof.
  intros x Hx; unfold dbl.
  destruct (arredonda_faixa_100 x Hx) as [A0 A1].
  destruct (Qle_bool (pot2 1024) (Qabs (arredonda x))) eqn:E; [| reflexivity].
  exfalso; apply Qle_bool_iff in E; rewrite Qabs_pos in E by exact A0.
  assert (Hc : ((100 # 1) < pot2 1024)%Q) by (vm_compute; reflexivity).
  lra.
Qed.

(** For a probability [P0] in [0, 1], [predizer_fraude] does not raise and
    stores the truncation of the rounded product [P0 * 100], a number of
    [0..100]. *)
Lemma predizer_fraude_forma : forall m f p0 p1,
  predict_proba m f = (p0, p1) -> (0 <= p0 <= 1)%Q ->
  predizer_fraude m f =
    inr {| is_fraudulento := Z.eqb (predict m f) 0;
           classe_predita := predict m f;
           score_fraude := Qfloor (arredonda (p0 * (100 # 1)));
           confianca := py_max p0 p1;
           prob_falso := p0;
           prob_verdadeiro := p1;
           features_usadas := f |} /\
  (0 <= Qfloor (arredonda (p0 * (100 # 1))) <= 100)%Z.
Proof.
  intros m f p0 p1 Hp [H0 H1].
  assert (Hx : (0 <= p0 * (100 # 1) <= 100 # 1)%Q) by lra.
  destruct (arredonda_faixa_100 _ Hx) as [A0 A1].
  split.
  - unfold predizer_fraude; rewrite Hp, (dbl_faixa_100 _ Hx).
    unfold py_int; rewrite (proj2 (Qle_bool_iff _ _) A0); reflexivity.
  - assert (F0 := Qfloor_resp_le (inject_Z 0) _ ltac:(change (inject_Z 0) with 0%Q; exact A0)).
    assert (F1 := Qfloor_resp_le _ (inject_Z 100) ltac:(change (inject_Z 100) with (100 # 1); exact A1)).
    rewrite Qfloor_Z in F0, F1; lia.
Qed.

(** C5 (counterexample): with [P0 = 0.375] (a binary fraction, so the float
    product [37.5] is exact) the fused score is [int(37.5) = 37], not
    [round(37.5) = 38]; with [P0 = 0.29] the float product [0.29 * 100] is
    [28.999999999999996], so the score is [28] where [round(P0 * 100)] is
    [29]. *)
Lemma score_fraude_trunca_37 :
  match predizer_fraude (modelo_fixo 0 (3 # 8) (5 # 8)) features_zero,
        predizer_fraude (modelo_fixo 0 (arredonda (29 # 100)) (arredonda (71 # 100)))
          features_zero with
  | inr pr1, inr pr2 =>
      fa_score (analise_fraude (mk_validacao true [] []) pr1) = 37%Z /\
      py_round ((3 # 8) * (100 # 1)) = 38%Z /\
      fa_score (analise_fraude (mk_validacao true [] []) pr2) = 28%Z /\
      py_round (arredonda (29 # 100) * (100 # 1)) = 29%Z
  | _, _ => False
  end.
Proof. vm_compute. repeat split. Qed.

(** C5 (amended): for a probability [P0] in [0, 1] the classifier output is
    produced (no exception) and the fused score is [int(P0 * 100)]: the
    product rounded to the nearest double, then truncated toward zero; it
    lies in [0..100]; the confidence is [max(P0, P1)]. *)
Theorem score_fraude_truncado : forall (m : modelo) (f : features) (val : validacao) (p0 p1 : Q),
  predict_proba m f = (p0, p1) -> (0 <= p0 <= 1)%Q ->
  exists pr, predizer_fraude m f = inr pr /\
    fa_score (analise_fraude val pr) = Qfloor (arredonda (p0 * (100 # 1))) /\
    (0 <= fa_score (analise_fraude val pr) <= 100)%Z /\
    (p0 <= fa_confianca (analise_fraude val pr))%Q /\
    (p1 <= fa_confianca (analise_fraude val pr))%Q /\
    (fa_confianca (analise_fraude val pr) = p0 \/ fa_confianca (analise_fraude val pr) = p1).
Proof.
  intros m f val p0 p1 Hp H01.
  destruct (predizer_fraude_forma m f p0 p1 Hp H01) as [E R].
  eexists; split; [exact E |].
  unfold analise_fraude; cbn [fa_score fa_confianca score_fraude confianca].
  split; [reflexivity | split; [exact R |]].
  unfold py_max; destruct (Qlt_le_dec p0 p1) as [Hlt | Hle].
  - split; [apply Qlt_le_weak; exact Hlt | split; [apply Qle_refl | right; reflexivity]].
  - split; [apply Qle_refl | split; [exact Hle | left; reflexivity]].
Qed.

Lemma score_fraude_truncado_witness :
  exists pr, predizer_fraude (modelo_fixo 0 (3 # 8) (5 # 8)) features_zero = inr pr /\
    fa_score (analise_fraude (mk_validacao true [] []) pr) = Qfloor (arredonda ((3 # 8) * (100 # 1))).
Proof.
  assert (H : (0 <= 3 # 8 <= 1)%Q)
    by (split; apply Qle_bool_imp_le; reflexivity).
  destruct (score_fraude_truncado (modelo_fixo 0 (3 # 8) (5 # 8)) features_zero
              (mk_validacao true [] []) (3 # 8) (5 # 8) eq_refl H) as [pr [E [S _]]].
  exists pr; split; [exact E | exact S].
Defined.

(** ** C8: [valido == (len(erros) == 0)] *)

Definition coerente (r : resultado) : Prop := valido r = true <-> erros r = [].

Lemma linha_coerente : forall v, coerente (validar_linha_digitavel v).
Proof.
  intros v; unfold coerente, validar_linha_digitavel.
  destruct v; try coerente.
  destruct (negb _); coerente.
Qed.

Lemma barras_coerente : forall v, coerente (validar_codigo_barras v).
Proof.
  intros v; unfold coerente, validar_codigo_barras.
  destruct v; try coerente.
  destruct (negb _); coerente.
Qed.

Lemma valor_coerente : forall v r, validar_valor v = inr r -> coerente r.
Proof.
  intros v r H; unfold validar_valor in H.
  destruct v; try discriminate.
  injection H as <-; coerente.
Qed.

Lemma vencimento_coerente : forall strp dia us v,
  coerente (validar_vencimento strp dia us v).
Proof.
  intros strp dia us v; unfold coerente, validar_vencimento.
  destruct v; try coerente.
  destruct (strp s); coerente.
Qed.

Lemma cnpj_coerente : forall v, coerente (validar_cnpj v).
Proof.
  intros v; unfold coerente, validar_cnpj.
  destruct v; try coerente.
  destruct (negb _); [coerente |].
  destruct (sequencia_repetida _); coerente.
Qed.

Lemma banco_coerente : forall repr v, coerente (validar_codigo_banco repr v).
Proof. intros; unfold coerente, validar_codigo_banco; coerente. Qed.

Definition detalhes_coerentes (acc : list string * list (string * resultado)) : Prop :=
  forall k s, In (k, s) (snd acc) -> coerente s.

Lemma registra_coerente : forall acc k r,
  detalhes_coerentes acc -> coerente r -> detalhes_coerentes (registra acc k r).
Proof.
  intros [es det] k r Hacc Hr k0 s0 H; simpl in H.
  apply in_app_or in H as [H | [H | []]]; [exact (Hacc _ _ H) |].
  injection H as -> ->; exact Hr.
Qed.

Lemma falta_coerente : forall acc m,
  detalhes_coerentes acc -> detalhes_coerentes (falta acc m).
Proof. intros [es det] m Hacc; exact Hacc. Qed.

Lemma corpo_detalhes_coerentes : forall strp dia us repr d acc,
  validar_corpo strp dia us repr d = inr acc -> detalhes_coerentes acc.
Proof.
  intros strp dia us repr d acc Hc; unfold validar_corpo in Hc.
  assert (H1 : detalhes_coerentes (if truthy (linha_digitavel d)
                  then registra ([], []) "linha_digitavel" (validar_linha_digitavel (linha_digitavel d))
                  else falta ([], []) "Linha digitável não encontrada")).
  { destruct (truthy (linha_digitavel d));
      [apply registra_coerente; [intros ? ? [] | apply linha_coerente]
      | apply falta_coerente; intros ? ? []]. }
  set (a1 := if truthy (linha_digitavel d) then _ else _) in *.
  assert (H2 : detalhes_coerentes (if truthy (codigo_barras d)
                  then registra a1 "codigo_barras" (validar_codigo_barras (codigo_barras d))
                  else a1)).
  { destruct (truthy (codigo_barras d));
      [apply registra_coerente; [exact H1 | apply barras_coerente] | exact H1]. }
  set (a2 := if truthy (codigo_barras d) then _ else _) in *.
  assert (H3 : forall a3, detalhes_coerentes a3 -> inr acc = inr (
      if truthy (codigo_banco d)
      then registra (if truthy (beneficiario_cnpj d)
                     then registra (if truthy (vencimento d)
                                    then registra a3 "vencimento" (validar_vencimento strp dia us (vencimento d))
                                    else falta a3 "Vencimento não encontrado")
                            "cnpj" (validar_cnpj (beneficiario_cnpj d))
                     else if truthy (vencimento d)
                          then registra a3 "vencimento" (validar_vencimento strp dia us (vencimento d))
                          else falta a3 "Vencimento não encontrado")
             "banco" (validar_codigo_banco repr (codigo_banco d))
      else falta (if truthy (beneficiario_cnpj d)
                  then registra (if truthy (vencimento d)
                                 then registra a3 "vencimento" (validar_vencimento strp dia us (vencimento d))
                                 else falta a3 "Vencimento não encontrado")
                         "cnpj" (validar_cnpj (beneficiario_cnpj d))
                  else if truthy (vencimento d)
                       then registra a3 "vencimento" (validar_vencimento strp dia us (vencimento d))
                       else falta a3 "Vencimento não encontrado")
             "Código do banco não encontrado") :> excecao + _ -> detalhes_coerentes acc).
  { intros a3 Ha3 Heq; injection Heq as ->.
    destruct (truthy (codigo_banco d));
      [apply registra_coerente; [| apply banco_coerente] | apply falta_coerente];
      (destruct (truthy (beneficiario_cnpj d));
         [apply registra_coerente; [| apply cnpj_coerente] |]);
      (destruct (truthy (vencimento d));
         [apply registra_coerente; [exact Ha3 | apply vencimento_coerente]
         | apply falta_coerente; exact Ha3]). }
  destruct (truthy (valor d)).
  - destruct (validar_valor (valor d)) as [e | rv] eqn:Hvv; [discriminate |].
    apply (H3 (registra a2 "valor" rv)); [| exact (eq_sym Hc)].
    apply registra_coerente; [exact H2 | exact (valor_coerente _ _ Hvv)].
  - apply (H3 (falta a2 "Valor não encontrado")); [| exact (eq_sym Hc)].
    apply falta_coerente; exact H2.
Qed.

(** C8: for every field dictionary (also one whose [valor] makes the body
    raise, or whose fields make a sub-validator raise internally), the
    result satisfies [valido = true <-> erros = []], and so does every
    sub-validator's own result. *)
Theorem validacao_valido_sse_sem_erros :
  forall (strp : string -> string + Z) (dia us : Z) (repr : Q -> string) (d : dados),
  let r := validar_boleto_febraban strp dia us repr d in
  (v_valido r = true <-> v_erros r = []) /\
  (forall v, coerente (validar_linha_digitavel v)) /\
  (forall v, coerente (validar_codigo_barras v)) /\
  (forall v s, validar_valor v = inr s -> coerente s) /\
  (forall v, coerente (validar_vencimento strp dia us v)) /\
  (forall v, coerente (validar_cnpj v)) /\
  (forall v, coerente (validar_codigo_banco repr v)) /\
  (forall k s, In (k, s) (v_detalhes r) -> coerente s).
Proof.
  intros strp dia us repr d r; subst r.
  split; [| split; [exact linha_coerente |]].
  { unfold validar_boleto_febraban.
    destruct (validar_corpo _ _ _ _ d) as [e | [es det]]; simpl.
    - apply singleton_incoerente.
    - rewrite Nat.eqb_eq, length_zero_iff_nil; reflexivity. }
  split; [exact barras_coerente |].
  split; [exact valor_coerente |].
  split; [apply vencimento_coerente |].
  split; [exact cnpj_coerente |].
  split; [apply banco_coerente |].
  intros k s Hin; unfold validar_boleto_febraban in Hin.
  destruct (validar_corpo strp dia us repr d) as [e | acc] eqn:Hc;
    [simpl in Hin; contradiction |].
  destruct acc as [es det]; simpl in Hin.
  exact (corpo_detalhes_coerentes _ _ _ _ _ _ Hc k s Hin).
Qed.

(** [inr] is injective; stated once so that proofs need not run [injection]
    on the large records of the explanation bundle. *)
Lemma inr_igual {A B : Type} {x y : B} : (inr x : A + B) = inr y -> x = y.
Proof. intros H; injection H; auto. Qed.

(** ** C6 and C7: the explanation bundle *)

Definition fmt_vazio (_ : Q) : string := "".

(** The classifier stub of the end-to-end scenario: class 1, probabilities
    [0.05, 0.95] (as doubles); [predizer_fraude] turns it into this record
    ([int(0.05 * 100) = 5]). *)
Definition previsao_stub : previsao :=
  {| is_fraudulento := false; classe_predita := 1; score_fraude := 5;
     confianca := arredonda (95 # 100);
     prob_falso := arredonda (5 # 100); prob_verdadeiro := arredonda (95 # 100);
     features_usadas := features_zero |}.

Lemma previsao_stub_do_classificador :
  predizer_fraude (modelo_fixo 1 (arredonda (5 # 100)) (arredonda (95 # 100))) features_zero
  = inr previsao_stub.
Proof. vm_compute. reflexivity. Qed.

Lemma previsao_stub_campos :
  is_fraudulento previsao_stub = false /\ score_fraude previsao_stub = 5%Z /\
  confianca previsao_stub = arredonda (95 # 100).
Proof. repeat split. Qed.

Lemma in_nao_vazia {A} (x : A) (l g : list A) :
  In x l -> In x (match l with [] => g | _ :: _ => l end).
Proof. destruct l; [contradiction | auto]. Qed.

(** C6 (code_bug): for any extracted fields with a numeric [valor] (the
    scenario's [R$ 150,00]) and any validation result, the stub prediction
    gives [nivel_risco = 'BAIXO'] as claimed, but [razoes] always holds an
    entry of gravidade ['alta']: [predizer_fraude] stores
    [score_fraude = int(0.05 * 100) = 5] on a 0..100 scale, and
    [_gerar_razoes_detalhadas] tests it against the probability threshold
    [0.7]. *)
Theorem explicacao_stub_tem_razao_alta :
  forall (f0 f2 fm : Q -> string) (iso : string) (d : dados) (val : validacao) (q : Q),
  valor d = PNum q ->
  exists b,
    gerar_explicacao_humanizada f0 f2 fm iso d val previsao_stub = inr b /\
    nivel_risco (recomendacao_final b) = "BAIXO" /\
    exists r, In r (razoes b) /\ gravidade r = "alta" /\
              titulo r = "Padrão Suspeito Identificado".
Proof.
  intros f0 f2 fm iso d val q Hq.
  destruct previsao_stub_campos as [Hf [Hs Hc]].
  unfold gerar_explicacao_humanizada, gerar_razoes_detalhadas.
  rewrite Hq, Hf, Hs, Hc; simpl valor_maior_que_10000.
  set (rs0 := map (razao_validacao) (v_erros val)).
  destruct (Qlt_le_dec (7 # 10) (inject_Z 5)) as [_ | Hn];
    [| exfalso; apply (Qle_not_lt _ _ Hn); reflexivity].
  destruct (negb (Qle_bool q (10000 # 1)));
    eexists; (split; [reflexivity |]); (split; [reflexivity |]);
    exists (razao_ml_suspeita f0 f2 (inject_Z 5)); (split; [| split; reflexivity]);
    cbn [razoes]; apply in_nao_vazia; rewrite ?in_app_iff; simpl; tauto.
Qed.

Definition dados_cenario : dados :=
  {| codigo_barras := PNone;
     linha_digitavel := PStr "00190.00009 01234.567897 12345.678903 2 12340000015000";
     valor := PNum (150 # 1);
     vencimento := PStr "18/11/2026";
     beneficiario_nome := PNone;
     beneficiario_cnpj := PNone;
     codigo_banco := PStr "001";
     banco_nome := PStr "Banco do Brasil";
     agencia := PNone |}.

Lemma explicacao_stub_tem_razao_alta_witness :
  valor dados_cenario = PNum (150 # 1) /\
  exists b,
    gerar_explicacao_humanizada fmt_vazio fmt_vazio fmt_vazio "" dados_cenario
      (mk_validacao true [] []) previsao_stub = inr b /\
    nivel_risco (recomendacao_final b) = "BAIXO" /\
    exists r, In r (razoes b) /\ gravidade r = "alta" /\
              titulo r = "Padrão Suspeito Identificado".
Proof.
  split; [reflexivity |].
  exact (explicacao_stub_tem_razao_alta fmt_vazio fmt_vazio fmt_vazio "" dados_cenario
           (mk_validacao true [] []) (150 # 1) eq_refl).
Defined.

(** The severity map of the spec: gravidade to (impacto, cor). *)
Definition gravidades : list string := ["critica"; "alta"; "media"; "baixa"].

Definition entradas_fixas : list (string * Z * string) :=
  [("alta", 85%Z, "danger"); ("baixa", 15%Z, "success");
   ("media", 60%Z, "warning"); ("baixa", 30%Z, "primary")].

(** An entry of [razoes] as the code builds it: its gravidade is one of the
    four; an entry of categoria ['validacao_tecnica'] (a validation error)
    carries the map's impact and colour, and an entry of any other categoria
    is one of the fixed entries. *)
Definition razao_conforme (r : razao) : Prop :=
  In (gravidade r) gravidades /\
  (categoria r = "validacao_tecnica" ->
   impacto r = calcular_impacto (gravidade r) /\ cor r = get_cor_gravidade (gravidade r)) /\
  (categoria r <> "validacao_tecnica" -> In (gravidade r, impacto r, cor r) entradas_fixas).

Lemma razao_fixa_conforme : forall r,
  In (gravidade r) gravidades -> categoria r <> "validacao_tecnica" ->
  In (gravidade r, impacto r, cor r) entradas_fixas -> razao_conforme r.
Proof.
  intros r Hg Hc Hf; split; [exact Hg | split; [intros E; contradiction | intros _; exact Hf]].
Qed.

Ltac fixa_conforme :=
  apply razao_fixa_conforme; [simpl; tauto | intros Hc; discriminate Hc | simpl; tauto].

Lemma determinar_gravidade_valores : forall e, In (determinar_gravidade e) gravidades.
Proof.
  intros e; unfold determinar_gravidade, gravidades.
  repeat match goal with |- context [if ?c then _ else _] => destruct c end;
    simpl; tauto.
Qed.

(** The classifier output for a model answering class 1 with
    probabilities [0, 1]. *)
Definition previsao_autentica : previsao :=
  {| is_fraudulento := false; classe_predita := 1; score_fraude := 0;
     confianca := 1; prob_falso := 0; prob_verdadeiro := 1;
     features_usadas := features_zero |}.

Lemma previsao_autentica_do_classificador :
  predizer_fraude (modelo_fixo 1 0 1) features_zero = inr previsao_autentica.
Proof. vm_compute. reflexivity. Qed.

Definition dados_valor_alto : dados :=
  {| codigo_barras := PNone; linha_digitavel := PNone; valor := PNum (20000 # 1);
     vencimento := PNone; beneficiario_nome := PNone; beneficiario_cnpj := PNone;
     codigo_banco := PNone; banco_nome := PNone; agencia := PNone |}.

(** C7 (counterexample): for a valid slip of [R$ 20.000,00] and a classifier
    answering [P0 = 0], the bundle's entries are the "apparently normal" one
    (gravidade ['baixa'], impacto 15, cor ['success']) and the high-value
    flag (['media'], 60, ['warning']): neither follows the severity map. *)
Lemma razoes_fora_do_mapa :
  exists b,
    gerar_explicacao_humanizada fmt_vazio fmt_vazio fmt_vazio "" dados_valor_alto
      (mk_validacao true [] []) previsao_autentica = inr b /\
    ~ (forall r, In r (razoes b) ->
         impacto r = calcular_impacto (gravidade r) /\ cor r = get_cor_gravidade (gravidade r)).
Proof.
  eexists; split; [vm_compute; reflexivity |].
  intros H. destruct (H (razao_ml_normal fmt_vazio fmt_vazio 0)) as [Hi _].
  - vm_compute; left; reflexivity.
  - vm_compute in Hi; discriminate.
Qed.

(** C7 (amended): every entry of every bundle has a gravidade among
    critica/alta/media/baixa; the entries derived from validation errors carry
    the map's impact and colour (95 danger, 80 warning, 60 medium, 30
    primary), and every other entry is one of the fixed ones: ML suspicious
    (alta, 85, danger), ML normal (baixa, 15, success), high value (media, 60,
    warning), generic placeholder (baixa, 30, primary). *)
Theorem razoes_gravidade_impacto_cor :
  forall (f0 f2 fm : Q -> string) (iso : string) (d : dados) (val : validacao)
         (pred : previsao) (b : explicacao),
  gerar_explicacao_humanizada f0 f2 fm iso d val pred = inr b ->
  Forall razao_conforme (razoes b).
Proof.
  intros f0 f2 fm iso d val pred b H.
  unfold gerar_explicacao_humanizada in H.
  destruct (gerar_razoes_detalhadas f0 f2 fm d val pred) as [e | rs] eqn:Hr;
    [discriminate |].
  apply inr_igual in H; subst; simpl.
  unfold gerar_razoes_detalhadas in Hr.
  destruct (valor_maior_que_10000 (valor d)) as [e | elevado]; [discriminate |].
  injection Hr as <-.
  assert (Hv : Forall razao_conforme (map razao_validacao (v_erros val))).
  { apply Forall_map, Forall_forall; intros e _.
    split; [apply determinar_gravidade_valores |].
    split; [intros _; split; reflexivity | intros Hc; exfalso; apply Hc; reflexivity]. }
  assert (Hml : Forall razao_conforme
    (if Qlt_le_dec (7 # 10) (inject_Z (score_fraude pred))
     then map razao_validacao (v_erros val) ++ [razao_ml_suspeita f0 f2 (inject_Z (score_fraude pred))]
     else if Qlt_le_dec (inject_Z (score_fraude pred)) (3 # 10)
     then map razao_validacao (v_erros val) ++ [razao_ml_normal f0 f2 (inject_Z (score_fraude pred))]
     else map razao_validacao (v_erros val))).
  { assert (Hx : forall x, razao_conforme x -> forall l0, Forall razao_conforme l0 ->
                  Forall razao_conforme (l0 ++ [x])).
    { intros x Hx0 l0 Hl0; apply Forall_app; split; [exact Hl0 | constructor; auto]. }
    destruct (Qlt_le_dec (7 # 10) (inject_Z (score_fraude pred))).
    - apply Hx; [fixa_conforme | exact Hv].
    - destruct (Qlt_le_dec (inject_Z (score_fraude pred)) (3 # 10)); [| exact Hv].
      apply Hx; [fixa_conforme | exact Hv]. }
  set (l := if Qlt_le_dec _ _ then _ else _) in *.
  assert (Hl2 : Forall razao_conforme
    (if elevado then match valor d with
                     | PNum q => l ++ [razao_valor_elevado fm q]
                     | _ => l end
     else l)).
  { destruct elevado; [| exact Hml].
    destruct (valor d); try exact Hml.
    apply Forall_app; split; [exact Hml |].
    apply Forall_cons; [| apply Forall_nil]; fixa_conforme. }
  set (l2 := if elevado then _ else _) in *.
  destruct l2; [| exact Hl2].
  apply Forall_cons; [| apply Forall_nil]; fixa_conforme.
Qed.

Lemma razoes_gravidade_impacto_cor_witness :
  exists b,
    gerar_explicacao_humanizada fmt_vazio fmt_vazio fmt_vazio "" dados_valor_alto
      (mk_validacao true [] []) previsao_autentica = inr b /\
    length (razoes b) = 2 /\ Forall razao_conforme (razoes b).
Proof.
  destruct (gerar_explicacao_humanizada fmt_vazio fmt_vazio fmt_vazio "" dados_valor_alto
              (mk_validacao true [] []) previsao_autentica) as [e | b] eqn:H.
  - vm_compute in H; discriminate.
  - exists b; split; [reflexivity |]; split.
    + vm_compute in H; injection H as <-; reflexivity.
    + exact (razoes_gravidade_impacto_cor fmt_vazio fmt_vazio fmt_vazio "" dados_valor_alto
               (mk_validacao true [] []) previsao_autentica b H).
Defined.

(** ** C10: bank name when no linha digitável is found *)

Lemma procura_nao_vazia : forall c n, procura c bancos = Some n -> n <> "".
Proof.
  intros c n H; unfold bancos in H; simpl in H.
  repeat match goal with
         | H : (if ?b then _ else _) = _ |- _ => destruct b
         | H : Some _ = Some _ |- _ => injection H as <-
         end; try discriminate.
Qed.

Lemma identificar_banco_nao_vazio : forall repr v, v = PNone \/ (exists s, v = PStr s) ->
  identificar_banco repr v <> "".
Proof.
  intros repr v [-> | [s ->]]; [simpl; discriminate |].
  unfold identificar_banco.
  destruct (procura s bancos) eqn:E; [exact (procura_nao_vazia _ _ E) | simpl; discriminate].
Qed.

(** C10: when no linha digitável is extracted, [codigo_banco] stays [None]
    and [banco_nome] is ["Banco None"]; for every text [banco_nome] is not
    [None]. *)
Theorem parse_sem_linha_banco_none :
  forall (repr : Q -> string) (ecb : string -> option string) (ev : string -> option Q)
         (evc ecnpj : string -> option string) (texto : string),
  extrair_linha_digitavel texto = None ->
  codigo_banco (parse_dados_boleto repr ecb ev evc ecnpj texto) = PNone /\
  banco_nome (parse_dados_boleto repr ecb ev evc ecnpj texto) = PStr "Banco None" /\
  (forall t, banco_nome (parse_dados_boleto repr ecb ev evc ecnpj t) <> PNone).
Proof.
  intros repr ecb ev evc ecnpj texto H.
  unfold parse_dados_boleto; simpl; rewrite H; simpl.
  split; [reflexivity | split; [reflexivity |]].
  intros t; unfold parse_dados_boleto; simpl.
  set (cb := match se_str (extrair_linha_digitavel t) with
             | PStr l => PStr (substring 0 3 l) | _ => PNone end).
  assert (Hcb : cb = PNone \/ exists s, cb = PStr s).
  { subst cb; destruct (se_str _); eauto. }
  pose proof (identificar_banco_nao_vazio repr cb Hcb) as Hne.
  destruct (String.eqb (identificar_banco repr cb) "") eqn:E.
  - apply String.eqb_eq in E; contradiction.
  - simpl; discriminate.
Qed.

Lemma parse_sem_linha_banco_none_witness :
  extrair_linha_digitavel "Pagavel em qualquer banco" = None /\
  banco_nome (parse_dados_boleto (fun _ => "") (fun _ => None) (fun _ => None)
                (fun _ => None) (fun _ => None) "Pagavel em qualquer banco")
  = PStr "Banco None".
Proof.
  assert (H : extrair_linha_digitavel "Pagavel em qualquer banco" = None)
    by (vm_compute; reflexivity).
  split; [exact H |].
  exact (proj1 (proj2 (parse_sem_linha_banco_none (fun _ => "") (fun _ => None) (fun _ => None)
                        (fun _ => None) (fun _ => None) _ H))).
Defined.

(** ** C9: missing mandatory fields *)

Definition msg_linha : string := "Linha digitável não encontrada".
Definition msg_valor : string := "Valor não encontrado".
Definition msg_vencimento : string := "Vencimento não encontrado".
Definition msg_banco : string := "Código do banco não encontrado".

Definition nao_encontrados : list string := [msg_linha; msg_valor; msg_vencimento; msg_banco].

(** The errors a sub-result contributes. *)
Definition sub (r : resultado) : list string := if valido r then [] else erros r.

(** The sub-result of a [valor] that does not raise. *)
Definition valor_res (v : pyval) : resultado :=
  match validar_valor v with inr r => r | inl _ => mk_resultado true [] end.

(** A list holding none of the "not found" messages. *)
Definition limpo (l : list string) : Prop := forall e, In e l -> ~ In e nao_encontrados.

Ltac fora_da_lista :=
  let H := fresh in
  intro H; unfold nao_encontrados, msg_linha, msg_valor, msg_vencimento, msg_banco in H;
  simpl in H; repeat (destruct H as [H | H]; [discriminate H |]); exact H.

Lemma limpo_nil : limpo [].
Proof. intros e []. Qed.

Lemma limpo_app : forall l1 l2, limpo l1 -> limpo l2 -> limpo (l1 ++ l2).
Proof. intros l1 l2 H1 H2 e H; apply in_app_or in H as [H | H]; auto. Qed.

Lemma limpo_um : forall m, ~ In m nao_encontrados -> limpo [m].
Proof. intros m Hm e [<- | []]; exact Hm. Qed.

Lemma limpo_se : forall c m, ~ In m nao_encontrados -> limpo (se c m).
Proof. intros [] m Hm; [apply limpo_um; exact Hm | apply limpo_nil]. Qed.

Lemma limpo_sub : forall r, limpo (erros r) -> limpo (sub r).
Proof. intros r H; unfold sub; destruct (valido r); [apply limpo_nil | exact H]. Qed.

Lemma limpo_linha : forall v, limpo (erros (validar_linha_digitavel v)).
Proof.
  intros v; unfold validar_linha_digitavel.
  destruct v; [| destruct (negb _) |]; simpl;
    repeat first [ apply limpo_app | apply limpo_se | apply limpo_um ]; fora_da_lista.
Qed.

Lemma limpo_barras : forall v, limpo (erros (validar_codigo_barras v)).
Proof.
  intros v; unfold validar_codigo_barras.
  destruct v; [| destruct (negb _) |]; simpl;
    repeat first [ apply limpo_app | apply limpo_se | apply limpo_um ]; fora_da_lista.
Qed.

Lemma limpo_valor : forall v, limpo (erros (valor_res v)).
Proof.
  intros v; unfold valor_res, validar_valor.
  destruct v; simpl; try apply limpo_nil;
    repeat first [ apply limpo_app | apply limpo_se | apply limpo_um ]; fora_da_lista.
Qed.

Lemma limpo_vencimento : forall strp dia us v, limpo (erros (validar_vencimento strp dia us v)).
Proof.
  intros strp dia us v; unfold validar_vencimento.
  destruct v; [| destruct (strp s) |]; simpl;
    repeat first [ apply limpo_app | apply limpo_se | apply limpo_um ]; fora_da_lista.
Qed.

Lemma limpo_cnpj : forall v, limpo (erros (validar_cnpj v)).
Proof.
  intros v; unfold validar_cnpj.
  destruct v; [| destruct (negb _); [| destruct (sequencia_repetida _)] |]; simpl;
    repeat first [ apply limpo_app | apply limpo_se | apply limpo_um ]; fora_da_lista.
Qed.

Lemma limpo_banco : forall repr v, limpo (erros (validar_codigo_banco repr v)).
Proof.
  intros repr v; unfold validar_codigo_banco; simpl.
  apply limpo_se; fora_da_lista.
Qed.

Lemma registra_eq : forall es det k r,
  registra (es, det) k r = (es ++ sub r, det ++ [(k, r)]).
Proof. intros; unfold registra, sub; destruct (valido r); rewrite ?app_nil_r; reflexivity. Qed.

Lemma falta_eq : forall es det m, falta (es, det) m = (es ++ [m], det).
Proof. reflexivity. Qed.

(** The body of the validator as six independent parts, when [valor] is
    absent or a number. *)
Lemma corpo_forma : forall strp dia us repr d,
  (forall s, valor d <> PStr s) ->
  validar_corpo strp dia us repr d =
  inr ((if truthy (linha_digitavel d) then sub (validar_linha_digitavel (linha_digitavel d))
        else [msg_linha])
       ++ (if truthy (codigo_barras d) then sub (validar_codigo_barras (codigo_barras d)) else [])
       ++ (if truthy (valor d) then sub (valor_res (valor d)) else [msg_valor])
       ++ (if truthy (vencimento d) then sub (validar_vencimento strp dia us (vencimento d))
           else [msg_vencimento])
       ++ (if truthy (beneficiario_cnpj d) then sub (validar_cnpj (beneficiario_cnpj d)) else [])
       ++ (if truthy (codigo_banco d) then sub (validar_codigo_banco repr (codigo_banco d))
           else [msg_banco]),
       (if truthy (linha_digitavel d)
        then [("linha_digitavel", validar_linha_digitavel (linha_digitavel d))] else [])
       ++ (if truthy (codigo_barras d)
           then [("codigo_barras", validar_codigo_barras (codigo_barras d))] else [])
       ++ (if truthy (valor d) then [("valor", valor_res (valor d))] else [])
       ++ (if truthy (vencimento d)
           then [("vencimento", validar_vencimento strp dia us (vencimento d))] else [])
       ++ (if truthy (beneficiario_cnpj d)
           then [("cnpj", validar_cnpj (beneficiario_cnpj d))] else [])
       ++ (if truthy (codigo_banco d)
           then [("banco", validar_codigo_banco repr (codigo_banco d))] else [])).
Proof.
  intros strp dia us repr d Hv; unfold validar_corpo.
  assert (Hval : truthy (valor d) = true -> validar_valor (valor d) = inr (valor_res (valor d))).
  { unfold valor_res; destruct (valor d) eqn:E; simpl; try discriminate.
    - exfalso; exact (Hv s eq_refl).
    - reflexivity. }
  destruct (truthy (valor d)) eqn:Ev; [rewrite (Hval eq_refl) |];
  destruct (truthy (linha_digitavel d)), (truthy (codigo_barras d)), (truthy (vencimento d)),
    (truthy (beneficiario_cnpj d)), (truthy (codigo_banco d));
  rewrite ?registra_eq, ?falta_eq, ?registra_eq, ?falta_eq, ?registra_eq, ?falta_eq,
    ?registra_eq, ?falta_eq, ?registra_eq, ?falta_eq, ?registra_eq, ?falta_eq;
  simpl; rewrite <- ?app_assoc; reflexivity.
Qed.

(** Where an error of [validar_boleto_febraban] comes from: the "not found"
    message of a falsy mandatory field, or an error of the validator of a
    truthy field. *)
Definition origem_erro strp dia us repr (d : dados) (e : string) : Prop :=
  (e = msg_linha /\ truthy (linha_digitavel d) = false)
  \/ (truthy (linha_digitavel d) = true /\ In e (erros (validar_linha_digitavel (linha_digitavel d))))
  \/ (truthy (codigo_barras d) = true /\ In e (erros (validar_codigo_barras (codigo_barras d))))
  \/ (e = msg_valor /\ truthy (valor d) = false)
  \/ (truthy (valor d) = true /\ In e (erros (valor_res (valor d))))
  \/ (e = msg_vencimento /\ truthy (vencimento d) = false)
  \/ (truthy (vencimento d) = true
      /\ In e (erros (validar_vencimento strp dia us (vencimento d))))
  \/ (truthy (beneficiario_cnpj d) = true /\ In e (erros (validar_cnpj (beneficiario_cnpj d))))
  \/ (e = msg_banco /\ truthy (codigo_banco d) = false)
  \/ (truthy (codigo_banco d) = true
      /\ In e (erros (validar_codigo_banco repr (codigo_banco d)))).

(** A field set with a present but zero [valor]. *)
Definition dados_valor_zero : dados :=
  mk_dados PNone PNone (PNum 0) PNone PNone PNone PNone PNone PNone.

Lemma em_parte : forall (b : bool) l ms m,
  limpo l -> In m nao_encontrados -> (In m (if b then l else ms) <-> b = false /\ In m ms).
Proof.
  intros [] l ms m Hl Hm; split.
  - intros H; exfalso; exact (Hl m H Hm).
  - intros [H _]; discriminate H.
  - intros H; split; [reflexivity | exact H].
  - intros [_ H]; exact H.
Qed.

Lemma em_chave : forall (b : bool) (k k' : string) (r : resultado),
  In k' (map fst (if b then [(k, r)] else [])) <-> b = true /\ k = k'.
Proof.
  intros [] k k' r; simpl; split.
  - intros [H | []]; split; [reflexivity | exact H].
  - intros [_ H]; left; exact H.
  - intros [].
  - intros [H _]; discriminate H.
Qed.

Lemma em_parte_caso : forall (b : bool) r ms e,
  In e (if b then sub r else ms) -> (b = true /\ In e (erros r)) \/ (b = false /\ In e ms).
Proof.
  intros [] r ms e H; [left | right]; split; auto.
  unfold sub in H; destruct (valido r); [destruct H | exact H].
Qed.


(** The failing input of C9: a [valor] that is present but equal to [0.0]
    is reported as "Valor não encontrado", although it is not absent, and
    [validar_valor]'s own "Valor deve ser maior que zero" is never reached. *)
Lemma valor_zero_nao_encontrado :
  valor dados_valor_zero <> PNone /\
  In msg_valor (v_erros (validar_boleto_febraban (fun _ => inr 0%Z) 0%Z 0%Z (fun _ => "")
                           dados_valor_zero)) /\
  ~ In "Valor deve ser maior que zero"
      (v_erros (validar_boleto_febraban (fun _ => inr 0%Z) 0%Z 0%Z (fun _ => "")
                  dados_valor_zero)) /\
  match validar_valor (PNum 0) with
  | inr r => In "Valor deve ser maior que zero" (erros r)
  | inl _ => False
  end.
Proof. split; [discriminate | vm_compute; split; [tauto | split; [intros H; intuition discriminate | tauto]]]. Qed.

(** C9 (code_bug): when [valor] is absent or a number, [validar_boleto_febraban]
    reports the "not found" error of each mandatory field ([linha_digitavel],
    [valor], [vencimento], [codigo_banco]) exactly when that field is falsy in
    Python ([None], an empty string or zero); [codigo_barras] and [cnpj] get a
    [detalhes] entry exactly when truthy, and every error comes either from
    the "not found" message of a falsy mandatory field or from the validator
    of a truthy field, so the optional fields never add a missing-field
    error. The test is Python truthiness ([if dados.get(campo)]), not
    absence: a present [valor] of [0.0] gets "Valor não encontrado" and never
    reaches [validar_valor]'s "Valor deve ser maior que zero". *)
Theorem validar_nao_encontrado_sse_falso : forall strp dia us repr d,
  (forall s, valor d <> PStr s) ->
  let r := validar_boleto_febraban strp dia us repr d in
  (In msg_linha (v_erros r) <-> truthy (linha_digitavel d) = false) /\
  (In msg_valor (v_erros r) <-> truthy (valor d) = false) /\
  (In msg_vencimento (v_erros r) <-> truthy (vencimento d) = false) /\
  (In msg_banco (v_erros r) <-> truthy (codigo_banco d) = false) /\
  (In "codigo_barras" (map fst (v_detalhes r)) <-> truthy (codigo_barras d) = true) /\
  (In "cnpj" (map fst (v_detalhes r)) <-> truthy (beneficiario_cnpj d) = true) /\
  Forall (origem_erro strp dia us repr d) (v_erros r).
Proof.
  intros strp dia us repr d Hv r; unfold r, validar_boleto_febraban.
  rewrite (corpo_forma strp dia us repr d Hv); cbn [v_erros v_detalhes].
  pose proof (limpo_sub _ (limpo_linha (linha_digitavel d))) as L1.
  pose proof (limpo_sub _ (limpo_barras (codigo_barras d))) as L2.
  pose proof (limpo_sub _ (limpo_valor (valor d))) as L3.
  pose proof (limpo_sub _ (limpo_vencimento strp dia us (vencimento d))) as L4.
  pose proof (limpo_sub _ (limpo_cnpj (beneficiario_cnpj d))) as L5.
  pose proof (limpo_sub _ (limpo_banco repr (codigo_banco d))) as L6.
  split; [| split; [| split; [| split; [| split; [| split]]]]].
  1-4:
    rewrite !in_app_iff, !em_parte
      by first [ assumption
               | unfold nao_encontrados; simpl; tauto ];
    unfold msg_linha, msg_valor, msg_vencimento, msg_banco; simpl;
    split; [ intros H; repeat destruct H as [H | H]; try tauto; try discriminate;
             destruct H as [_ H]; repeat destruct H as [H | H]; try discriminate H; tauto
           | intros H; tauto ].
  1-2: rewrite !map_app, !in_app_iff, !em_chave;
    split; [ intros H; repeat destruct H as [H | H]; try tauto;
             destruct H as [_ H]; discriminate H
           | intros H; tauto ].
  apply Forall_forall; intros e He.
  rewrite !in_app_iff in He; unfold origem_erro.
  destruct He as [H | [H | [H | [H | [H | H]]]]]; apply em_parte_caso in H;
    destruct H as [[Hb H] | [Hb H]]; simpl in H;
    repeat match type of H with _ \/ _ => destruct H as [H | H] | False => destruct H end;
    try subst e; tauto.
Qed.

(** Witness of [validar_nao_encontrado_sse_falso] on a field set whose
    [valor] is the number zero. *)
Lemma validar_nao_encontrado_sse_falso_witness :
  (forall s, valor dados_valor_zero <> PStr s) /\
  In msg_valor (v_erros (validar_boleto_febraban (fun _ => inr 0%Z) 0%Z 0%Z (fun _ => "")
                           dados_valor_zero)).
Proof.
  assert (Hv : forall s, valor dados_valor_zero <> PStr s) by (intros s; discriminate).
  split; [exact Hv |].
  apply (validar_nao_encontrado_sse_falso (fun _ => inr 0%Z) 0%Z 0%Z (fun _ => "")
           dados_valor_zero Hv).
  reflexivity.
Defined.

(** ** C2: modulo-10 round trip on the linha digitável *)

(** An error of [validar_linha_digitavel] about the check digit of block [k]
    (the messages of block [k] start with ["DV" + str(k)]). *)
Definition erro_do_bloco (k : nat) (e : string) : bool :=
  prefixo (list_ascii_of_string ("DV" ^^ str_nat k)) (list_ascii_of_string e).

Lemma str_nat_digito : forall n, n < 10 -> str_nat n = String (digit_char n) "".
Proof.
  intros n Hn; unfold str_nat; cbn [str_nat_aux].
  rewrite (proj2 (Nat.ltb_lt n 10) Hn), (Nat.mod_small n 10 Hn); reflexivity.
Qed.

Lemma dv_modulo10_lt : forall seq, dv_modulo10 seq < 10.
Proof.
  intros seq; unfold dv_modulo10.
  destruct (fold_left passo_mod10 (rev seq) (0, 2)) as [soma m].
  destruct (soma mod 10 =? 0) eqn:E; [lia |].
  apply Nat.eqb_neq in E; lia.
Qed.

Lemma calcular_dv_modulo10_char : forall seq,
  calcular_dv_modulo10 seq = String (digit_char (dv_modulo10 seq)) "".
Proof. intros seq; apply str_nat_digito, dv_modulo10_lt. Qed.

Lemma fatia_bloco : forall (pre bloco rest : list ascii) c i j,
  i = length pre -> j = length pre + length bloco + 1 ->
  fatia i j (pre ++ bloco ++ c :: rest) = bloco ++ [c].
Proof.
  intros pre bloco rest c i j -> ->; unfold fatia.
  rewrite skipn_app, skipn_all, Nat.sub_diag; simpl.
  replace (length pre + length bloco + 1 - length pre) with (length (bloco ++ [c]))
    by (rewrite length_app; simpl; lia).
  replace (bloco ++ c :: rest) with ((bloco ++ [c]) ++ rest)
    by (rewrite <- app_assoc; reflexivity).
  rewrite firstn_app, firstn_all, Nat.sub_diag; simpl.
  apply app_nil_r.
Qed.

Lemma fatia_sem_dv : forall (bloco : list ascii) c n,
  n = length bloco -> fatia 0 n (bloco ++ [c]) = bloco.
Proof.
  intros bloco c n ->; unfold fatia; simpl.
  rewrite Nat.sub_0_r, firstn_app, firstn_all, Nat.sub_diag; simpl; apply app_nil_r.
Qed.

Lemma char_em_dv : forall (bloco : list ascii) c n,
  n = length bloco -> char_em (bloco ++ [c]) n = String c "".
Proof.
  intros bloco c n ->; unfold char_em.
  rewrite app_nth2, Nat.sub_diag by lia; reflexivity.
Qed.

Lemma Forall_se : forall (P : string -> Prop) b m, P m -> Forall P (se b m).
Proof. intros P [] m H; simpl; auto. Qed.

(** C2: take a linha digitável whose digits are [pre ++ bloco ++ dv ++ pos],
    where [bloco] is the 9- or 10-digit prefix of block [k] (at offset 0, 10
    or 21) and [dv] is the modulo-10 check digit [calcular_dv_modulo10 bloco].
    Re-validating it reports no check-digit error for block [k]. *)
Theorem linha_dv_ida_e_volta : forall k pre bloco pos s,
  (k = 1 /\ length pre = 0 /\ length bloco = 9) \/
  (k = 2 /\ length pre = 10 /\ length bloco = 10) \/
  (k = 3 /\ length pre = 21 /\ length bloco = 10) ->
  length pre + length bloco + 1 + length pos = 47 ->
  digitos_de s = pre ++ bloco ++ list_ascii_of_string (calcular_dv_modulo10 bloco) ++ pos ->
  Forall (fun e => erro_do_bloco k e = false) (erros (validar_linha_digitavel (PStr s))).
Proof.
  intros k pre bloco pos s Hk Hlen HD.
  rewrite calcular_dv_modulo10_char in HD; cbn [list_ascii_of_string app] in HD.
  assert (HL : length (digitos_de s) = 47) by (rewrite HD, !length_app; simpl; lia).
  unfold validar_linha_digitavel; cbn zeta iota beta.
  rewrite HL; cbn [Nat.eqb negb].
  rewrite HD.
  destruct Hk as [[-> [Hp Hb]] | [[-> [Hp Hb]] | [-> [Hp Hb]]]].
  - rewrite (fatia_bloco pre bloco pos _ 0 10), (fatia_sem_dv bloco _ 9), (char_em_dv bloco _ 9),
      (calcular_dv_modulo10_char bloco), String.eqb_refl by lia.
    cbn [negb se app fecha erros].
    repeat first [apply Forall_app; split | apply Forall_se | apply Forall_nil];
      reflexivity.
  - rewrite (fatia_bloco pre bloco pos _ 10 21), (fatia_sem_dv bloco _ 10),
      (char_em_dv bloco _ 10), (calcular_dv_modulo10_char bloco), String.eqb_refl by lia.
    cbn [negb se app fecha erros].
    repeat first [apply Forall_app; split | apply Forall_se | apply Forall_cons | apply Forall_nil];
      reflexivity.
  - rewrite (fatia_bloco pre bloco pos _ 21 32), (fatia_sem_dv bloco _ 10),
      (char_em_dv bloco _ 10), (calcular_dv_modulo10_char bloco), String.eqb_refl by lia.
    cbn [negb se app fecha erros].
    repeat first [apply Forall_app; split | apply Forall_se | apply Forall_cons | apply Forall_nil];
      reflexivity.
Qed.

(** Witness of [linha_dv_ida_e_volta]: block 1 ["001900000"] followed by its
    check digit [9], in a line whose block 2 check digit is wrong. *)
Lemma linha_dv_ida_e_volta_witness :
  Forall (fun e => erro_do_bloco 1 e = false)
    (erros (validar_linha_digitavel
              (PStr "00190.00009 01234.567890 12345.678903 2 12340000015000"))).
Proof.
  apply (linha_dv_ida_e_volta 1 [] (list_ascii_of_string "001900000")
           (list_ascii_of_string "0123456789012345678903212340000015000")
           "00190.00009 01234.567890 12345.678903 2 12340000015000").
  - left; split; [reflexivity | split; reflexivity].
  - reflexivity.
  - vm_compute; reflexivity.
Defined.

(** ** C3: modulo-11 round trip on the código de barras *)

Lemma dv_modulo11_lt : forall seq, dv_modulo11 seq < 10.
Proof.
  intros seq; unfold dv_modulo11.
  destruct (fold_left passo_mod11 (rev seq) (0, 2)) as [soma m].
  pose proof (Nat.mod_upper_bound soma 11 ltac:(lia)) as H.
  destruct ((11 - soma mod 11 =? 0) || (11 - soma mod 11 =? 10) || (11 - soma mod 11 =? 11))
    eqn:E; [lia |].
  apply orb_false_iff in E as [E E3]; apply orb_false_iff in E as [E1 E2].
  apply Nat.eqb_neq in E1, E2, E3; lia.
Qed.

Lemma calcular_dv_modulo11_char : forall seq,
  calcular_dv_modulo11 seq = String (digit_char (dv_modulo11 seq)) "".
Proof. intros seq; apply str_nat_digito, dv_modulo11_lt. Qed.

(** C3: a barcode whose 44 digits are [pre ++ dv ++ pos], with [pre] the 4
    digits before index 4, [pos] the 39 after it, and [dv] the modulo-11
    check digit [calcular_dv_modulo11 (pre ++ pos)], validates with no
    error. *)
Theorem barras_dv_ida_e_volta : forall pre pos s,
  length pre = 4 -> length pos = 39 ->
  digitos_de s = pre ++ list_ascii_of_string (calcular_dv_modulo11 (pre ++ pos)) ++ pos ->
  validar_codigo_barras (PStr s) = mk_resultado true [].
Proof.
  intros pre pos s Hp Hq HD.
  rewrite calcular_dv_modulo11_char in HD; cbn [list_ascii_of_string app] in HD.
  assert (HL : length (digitos_de s) = 44) by (rewrite HD, length_app; simpl; lia).
  unfold validar_codigo_barras; cbn zeta iota beta.
  rewrite HL; cbn [Nat.eqb negb].
  rewrite HD.
  assert (H1 : fatia 0 4 (pre ++ digit_char (dv_modulo11 (pre ++ pos)) :: pos) = pre).
  { unfold fatia; rewrite Nat.sub_0_r; cbn [skipn].
    rewrite firstn_app, <- Hp, Nat.sub_diag, firstn_all; simpl; apply app_nil_r. }
  assert (H2 : fatia 5 44 (pre ++ digit_char (dv_modulo11 (pre ++ pos)) :: pos) = pos).
  { unfold fatia; rewrite skipn_app, (skipn_all2 pre) by lia; rewrite Hp; cbn [app skipn Nat.sub].
    apply firstn_all2; lia. }
  assert (H3 : char_em (pre ++ digit_char (dv_modulo11 (pre ++ pos)) :: pos) 4
               = String (digit_char (dv_modulo11 (pre ++ pos))) "").
  { unfold char_em; rewrite app_nth2 by lia; rewrite Hp; reflexivity. }
  rewrite H1, H2, H3, calcular_dv_modulo11_char, String.eqb_refl; reflexivity.
Qed.

(** Witness of [barras_dv_ida_e_volta] on a formatted barcode of bank 001. *)
Lemma barras_dv_ida_e_volta_witness :
  validar_codigo_barras (PStr "0019 1 1234 0000015000 0000001234567123456789012")
  = mk_resultado true [].
Proof.
  apply (barras_dv_ida_e_volta (list_ascii_of_string "0019")
           (list_ascii_of_string "123400000150000000001234567123456789012")).
  - reflexivity.
  - reflexivity.
  - vm_compute; reflexivity.
Defined.

(** ** C4: CNPJ check digits *)

(** The two check digits [validar_cnpj] computes for a digit list. *)
Definition dv1_cnpj (d : list ascii) : nat := dv_cnpj (soma_ponderada peso1 (firstn 12 d)).
Definition dv2_cnpj (d : list ascii) : nat := dv_cnpj (soma_ponderada peso2 (firstn 13 d)).

Lemma digit_cases : forall c, is_digit c = true ->
  c = "0"%char \/ c = "1"%char \/ c = "2"%char \/ c = "3"%char \/ c = "4"%char \/
  c = "5"%char \/ c = "6"%char \/ c = "7"%char \/ c = "8"%char \/ c = "9"%char.
Proof.
  intros [[] [] [] [] [] [] [] []] H; simpl in H; try discriminate H;
    repeat (match goal with
            | |- ?a = ?a \/ _ => left; reflexivity
            | |- _ \/ _ => right
            | |- _ => reflexivity
            end).
Qed.

Lemma int_digit_inj : forall a b, is_digit a = true -> is_digit b = true ->
  int_digit a = int_digit b -> a = b.
Proof.
  intros a b Ha Hb H.
  destruct (digit_cases a Ha) as [-> | [-> | [-> | [-> | [-> | [-> | [-> | [-> | [-> | ->]]]]]]]]];
  destruct (digit_cases b Hb) as [-> | [-> | [-> | [-> | [-> | [-> | [-> | [-> | [-> | ->]]]]]]]]];
  solve [reflexivity | discriminate H].
Qed.

Lemma forallb_digitos : forall s, forallb is_digit (digitos_de s) = true.
Proof.
  intros s; unfold digitos_de; apply forallb_forall; intros x Hx.
  apply filter_In in Hx; tauto.
Qed.

(** [validar_cnpj] on a 14-digit list that is not a repeated sequence. *)
Lemma validar_cnpj_forma : forall s,
  length (digitos_de s) = 14 -> sequencia_repetida (digitos_de s) = false ->
  validar_cnpj (PStr s) =
  fecha (se (negb (int_digit (nth 12 (digitos_de s) "0"%char) =? dv1_cnpj (digitos_de s)))
            "Primeiro dígito verificador do CNPJ inválido"
         ++ se (negb (int_digit (nth 13 (digitos_de s) "0"%char) =? dv2_cnpj (digitos_de s)))
            "Segundo dígito verificador do CNPJ inválido").
Proof.
  intros s Hl Hr; unfold validar_cnpj; cbn zeta iota beta.
  rewrite Hl, Hr; reflexivity.
Qed.

Ltac iguais_cabeca H :=
  cbn [firstn app sequencia_repetida forallb] in H;
  repeat match type of H with
         | _ && _ = true => let H' := fresh in apply andb_prop in H as [H' H]
         end;
  repeat match goal with
         | H0 : Ascii.eqb _ _ = true |- _ => apply Ascii.eqb_eq in H0
         end.

(** Changing check digit 13 of a valid CNPJ never yields a repeated
    sequence. *)
Lemma cnpj_troca13_nao_repetida : forall d c,
  length d = 14 -> forallb is_digit d = true -> is_digit c = true ->
  int_digit (nth 12 d "0"%char) = dv1_cnpj d -> int_digit (nth 13 d "0"%char) = dv2_cnpj d ->
  c <> nth 13 d "0"%char -> sequencia_repetida (firstn 13 d ++ [c]) = false.
Proof.
  intros d c Hl Hd Hc H12 H13 Hne.
  destruct (sequencia_repetida (firstn 13 d ++ [c])) eqn:E; [exfalso | reflexivity].
  rewrite forallb_forall in Hd.
  destruct d as [|x0 [|x1 [|x2 [|x3 [|x4 [|x5 [|x6 [|x7 [|x8 [|x9 [|x10 [|x11 [|x12 [|x13 [|]]]]]]]]]]]]]]];
    try (simpl in Hl; discriminate Hl).
  assert (H0 : is_digit x0 = true) by (apply Hd; simpl; tauto).
  assert (H13d : is_digit x13 = true) by (apply Hd; simpl; tauto).
  clear Hd; iguais_cabeca E; subst.
  cbn [nth] in Hne, H12, H13.
  destruct (digit_cases _ H0) as [-> | [-> | [-> | [-> | [-> | [-> | [-> | [-> | [-> | ->]]]]]]]]];
    try (vm_compute in H12; discriminate H12).
  destruct (digit_cases _ H13d) as [-> | [-> | [-> | [-> | [-> | [-> | [-> | [-> | [-> | ->]]]]]]]]];
    try (vm_compute in H13; discriminate H13); congruence.
Qed.

(** Changing check digit 12 of a valid CNPJ never yields a repeated
    sequence. *)
Lemma cnpj_troca12_nao_repetida : forall d c,
  length d = 14 -> forallb is_digit d = true -> is_digit c = true ->
  int_digit (nth 12 d "0"%char) = dv1_cnpj d -> int_digit (nth 13 d "0"%char) = dv2_cnpj d ->
  c <> nth 12 d "0"%char -> sequencia_repetida (firstn 12 d ++ [c; nth 13 d "0"%char]) = false.
Proof.
  intros d c Hl Hd Hc H12 H13 Hne.
  destruct (sequencia_repetida (firstn 12 d ++ [c; nth 13 d "0"%char])) eqn:E;
    [exfalso | reflexivity].
  rewrite forallb_forall in Hd.
  destruct d as [|x0 [|x1 [|x2 [|x3 [|x4 [|x5 [|x6 [|x7 [|x8 [|x9 [|x10 [|x11 [|x12 [|x13 [|]]]]]]]]]]]]]]];
    try (simpl in Hl; discriminate Hl).
  assert (H0 : is_digit x0 = true) by (apply Hd; simpl; tauto).
  assert (H12d : is_digit x12 = true) by (apply Hd; simpl; tauto).
  clear Hd; cbn [nth] in E; iguais_cabeca E; subst.
  cbn [nth] in Hne, H12, H13.
  destruct (digit_cases _ H0) as [-> | [-> | [-> | [-> | [-> | [-> | [-> | [-> | [-> | ->]]]]]]]]];
  destruct (digit_cases _ H12d) as [-> | [-> | [-> | [-> | [-> | [-> | [-> | [-> | [-> | ->]]]]]]]]];
    try (vm_compute in H12; discriminate H12);
    try (vm_compute in H13; discriminate H13); congruence.
Qed.

Lemma firstn_prefixo : forall (l r : list ascii) i,
  i <= length l -> firstn i (l ++ r) = firstn i l.
Proof.
  intros l r i H; rewrite firstn_app.
  replace (i - length l) with 0 by lia; simpl; apply app_nil_r.
Qed.

Lemma firstn_firstn_le : forall (d : list ascii) i n, i <= n -> firstn i (firstn n d) = firstn i d.
Proof. intros d i n H; rewrite firstn_firstn, Nat.min_l by lia; reflexivity. Qed.

Lemma nth_firstn_lt : forall (d : list ascii) i n x, i < n -> nth i (firstn n d) x = nth i d x.
Proof. intros d i n x H; rewrite nth_firstn; apply Nat.ltb_lt in H; rewrite H; reflexivity. Qed.

(** C4 (counterexample): changing only check digit 12 of the valid CNPJ
    11.222.333/0001-81 yields two errors, not one: the second check digit is
    computed over the first 13 digits, the changed one included. *)
Lemma cnpj_troca_dv1_dois_erros :
  validar_cnpj (PStr "11.222.333/0001-81") = mk_resultado true [] /\
  validar_cnpj (PStr "11.222.333/0001-91") =
  mk_resultado false ["Primeiro dígito verificador do CNPJ inválido";
                      "Segundo dígito verificador do CNPJ inválido"].
Proof. split; vm_compute; reflexivity. Qed.

(** C4: let [d] be the 14 digits of a CNPJ string. A repeated sequence is
    rejected with the single "sequência repetida" error. For a CNPJ that is
    not a repeated sequence and whose two check digits match the computed
    ones:
    - it validates with no error;
    - changing check digit 13 to another digit gives exactly the
      second-digit error;
    - changing check digit 12 to another digit gives the first-digit error,
      plus the second-digit error unless digit 13 still matches the second
      check digit computed over the changed first 13 digits. *)
Theorem cnpj_dv_alterado : forall d s,
  digitos_de s = d -> length d = 14 ->
  (sequencia_repetida d = true ->
   validar_cnpj (PStr s) = mk_resultado false ["CNPJ inválido (sequência repetida)"]) /\
  (sequencia_repetida d = false ->
   int_digit (nth 12 d "0"%char) = dv1_cnpj d -> int_digit (nth 13 d "0"%char) = dv2_cnpj d ->
   validar_cnpj (PStr s) = mk_resultado true [] /\
   (forall c s', is_digit c = true -> c <> nth 13 d "0"%char ->
      digitos_de s' = firstn 13 d ++ [c] ->
      validar_cnpj (PStr s') = mk_resultado false ["Segundo dígito verificador do CNPJ inválido"]) /\
   (forall c s', is_digit c = true -> c <> nth 12 d "0"%char ->
      digitos_de s' = firstn 12 d ++ [c; nth 13 d "0"%char] ->
      validar_cnpj (PStr s') =
      mk_resultado false
        ("Primeiro dígito verificador do CNPJ inválido"
         :: (if int_digit (nth 13 d "0"%char) =? dv2_cnpj (firstn 12 d ++ [c]) then []
             else ["Segundo dígito verificador do CNPJ inválido"])))).
Proof.
  intros d s Hs Hl.
  assert (Hd : forallb is_digit d = true) by (rewrite <- Hs; apply forallb_digitos).
  split.
  - intros Hr; unfold validar_cnpj; cbn zeta iota beta.
    rewrite Hs, Hl, Hr; reflexivity.
  - intros Hr H12 H13; split; [| split].
    + rewrite validar_cnpj_forma by (rewrite Hs; assumption).
      rewrite Hs, H12, H13, !Nat.eqb_refl; reflexivity.
    + intros c s' Hc Hne Hs'.
      assert (Hl13 : length (firstn 13 d) = 13) by (rewrite length_firstn; lia).
      rewrite validar_cnpj_forma;
        [| rewrite Hs', length_app, Hl13; reflexivity
         | rewrite Hs'; apply cnpj_troca13_nao_repetida; assumption].
      rewrite Hs'; unfold dv1_cnpj, dv2_cnpj.
      rewrite (firstn_prefixo (firstn 13 d) [c] 12), (firstn_firstn_le d 12 13),
        (firstn_prefixo (firstn 13 d) [c] 13), (firstn_firstn_le d 13 13),
        (app_nth1 (firstn 13 d) [c] _ (n := 12)), (nth_firstn_lt d 12 13),
        (app_nth2 (firstn 13 d) [c] _ (n := 13)) by (rewrite ?Hl13; lia).
      rewrite Hl13.
      fold (dv1_cnpj d); rewrite <- H12, Nat.eqb_refl; cbn [nth Nat.sub].
      fold (dv2_cnpj d); rewrite <- H13.
      destruct (int_digit c =? int_digit (nth 13 d "0"%char)) eqn:E.
      * exfalso; apply Hne, int_digit_inj; [exact Hc | | apply Nat.eqb_eq, E].
        rewrite forallb_forall in Hd; apply Hd, nth_In; lia.
      * reflexivity.
    + intros c s' Hc Hne Hs'.
      assert (Hl12 : length (firstn 12 d) = 12) by (rewrite length_firstn; lia).
      rewrite validar_cnpj_forma;
        [| rewrite Hs', length_app, Hl12; reflexivity
         | rewrite Hs'; apply cnpj_troca12_nao_repetida; assumption].
      rewrite Hs'; unfold dv1_cnpj, dv2_cnpj.
      rewrite (firstn_prefixo (firstn 12 d) [c; nth 13 d "0"%char] 12), (firstn_firstn_le d 12 12),
        (app_nth2 (firstn 12 d) [c; nth 13 d "0"%char] _ (n := 12)) by (rewrite ?Hl12; lia).
      replace (firstn 13 (firstn 12 d ++ [c; nth 13 d "0"%char])) with (firstn 12 d ++ [c])
        by (rewrite firstn_app, Hl12, (firstn_all2 (firstn 12 d)) by (rewrite Hl12; lia);
            reflexivity).
      rewrite app_nth2, Hl12 by lia; cbn [nth Nat.sub].
      fold (dv1_cnpj d); rewrite <- H12.
      destruct (int_digit c =? int_digit (nth 12 d "0"%char)) eqn:E.
      * exfalso; apply Hne, int_digit_inj; [exact Hc | | apply Nat.eqb_eq, E].
        rewrite forallb_forall in Hd; apply Hd, nth_In; lia.
      * rewrite (firstn_all2 (firstn 12 d ++ [c]) (n := 13))
          by (rewrite length_app, Hl12; simpl; lia).
        destruct (int_digit (nth 13 d "0"%char)
                  =? dv_cnpj (soma_ponderada peso2 (firstn 12 d ++ [c]))); reflexivity.
Qed.

(** Witness of [cnpj_dv_alterado] on the CNPJ 11.222.333/0001-81, whose check
    digit 12 is changed to 9. *)
Lemma cnpj_dv_alterado_witness :
  validar_cnpj (PStr "11.222.333/0001-81") = mk_resultado true [] /\
  validar_cnpj (PStr "11.222.333/0001-91") =
  mk_resultado false ["Primeiro dígito verificador do CNPJ inválido";
                      "Segundo dígito verificador do CNPJ inválido"].
Proof.
  pose proof (cnpj_dv_alterado (digitos_de "11.222.333/0001-81") "11.222.333/0001-81"
                eq_refl ltac:(vm_compute; reflexivity)) as [_ H].
  pose proof (H ltac:(vm_compute; reflexivity) ltac:(vm_compute; reflexivity)
                ltac:(vm_compute; reflexivity)) as [H0 [_ H12]].
  split; [exact H0 |].
  rewrite (H12 "9"%char "11.222.333/0001-91" ltac:(reflexivity)
             ltac:(simpl; discriminate) ltac:(vm_compute; reflexivity)).
  vm_compute; reflexivity.
Defined.

(** * Further properties of the code *)

(** ** Check-digit algorithms *)

(** The [soma] accumulated by the loops of [calcular_dv_modulo10] and
    [calcular_dv_modulo11]. *)
Definition soma_mod10 (sequencia : list ascii) : nat :=
  fst (fold_left passo_mod10 (rev sequencia) (0, 2)).

Definition soma_mod11 (sequencia : list ascii) : nat :=
  fst (fold_left passo_mod11 (rev sequencia) (0, 2)).

Lemma completa_mod : forall a m, 0 < m -> (a + (m - a mod m)) mod m = 0.
Proof.
  intros a m Hm.
  pose proof (Nat.div_mod a m ltac:(lia)) as Hd.
  pose proof (Nat.mod_upper_bound a m ltac:(lia)) as Hu.
  replace (a + (m - a mod m)) with ((a / m + 1) * m) by nia.
  apply Nat.Div0.mod_mul.
Qed.

(** X1: [calcular_dv_modulo10] always returns one decimal digit, and that
    digit completes the weighted sum to a multiple of 10. *)
Theorem dv_modulo10_completa : forall seq,
  dv_modulo10 seq < 10 /\
  calcular_dv_modulo10 seq = String (digit_char (dv_modulo10 seq)) "" /\
  (soma_mod10 seq + dv_modulo10 seq) mod 10 = 0.
Proof.
  intros seq; split; [apply dv_modulo10_lt | split; [apply calcular_dv_modulo10_char |]].
  unfold soma_mod10, dv_modulo10.
  destruct (fold_left passo_mod10 (rev seq) (0, 2)) as [soma m]; cbn [fst].
  destruct (soma mod 10 =? 0) eqn:E.
  - apply Nat.eqb_eq in E; rewrite Nat.add_0_r; exact E.
  - apply completa_mod; lia.
Qed.

(** X2: [calcular_dv_modulo11] always returns one digit between 1 and 9
    (never 0). When the remainder of the weighted sum modulo 11 is at least
    2, the digit completes the sum to a multiple of 11; when it is 0 or 1,
    the digit is 1. *)
Theorem dv_modulo11_faixa : forall seq,
  1 <= dv_modulo11 seq <= 9 /\
  calcular_dv_modulo11 seq = String (digit_char (dv_modulo11 seq)) "" /\
  (2 <= soma_mod11 seq mod 11 -> (soma_mod11 seq + dv_modulo11 seq) mod 11 = 0) /\
  (soma_mod11 seq mod 11 < 2 -> dv_modulo11 seq = 1).
Proof.
  intros seq; split; [| split; [apply calcular_dv_modulo11_char |]].
  - pose proof (dv_modulo11_lt seq) as Hlt; split; [| lia].
    unfold dv_modulo11.
    destruct (fold_left passo_mod11 (rev seq) (0, 2)) as [soma m].
    destruct ((11 - soma mod 11 =? 0) || (11 - soma mod 11 =? 10) || (11 - soma mod 11 =? 11))
      eqn:E; [lia |].
    apply orb_false_iff in E as [E _]; apply orb_false_iff in E as [E _].
    apply Nat.eqb_neq in E; lia.
  - unfold soma_mod11, dv_modulo11.
    destruct (fold_left passo_mod11 (rev seq) (0, 2)) as [soma m]; cbn [fst].
    pose proof (Nat.mod_upper_bound soma 11 ltac:(lia)) as Hu.
    split; intros H.
    + replace ((11 - soma mod 11 =? 0) || (11 - soma mod 11 =? 10) || (11 - soma mod 11 =? 11))
        with false.
      * apply completa_mod; lia.
      * symmetry; apply orb_false_iff; split; [apply orb_false_iff; split |];
          apply Nat.eqb_neq; lia.
    + assert (Hr : soma mod 11 = 0 \/ soma mod 11 = 1) by lia.
      destruct Hr as [-> | ->]; reflexivity.
Qed.

(** ** Sub-validators *)

Lemma eqb_um : forall a b : ascii, String.eqb (String a "") (String b "") = Ascii.eqb a b.
Proof. intros a b; simpl; destruct (Ascii.eqb a b); reflexivity. Qed.

Lemma valido_fecha_se : forall b m, valido (fecha (se b m)) = negb b.
Proof. intros [] m; reflexivity. Qed.

Lemma valido_fecha_se3 : forall a b c m1 m2 m3,
  valido (fecha (se a m1 ++ se b m2 ++ se c m3)) = negb a && negb b && negb c.
Proof. intros [] [] [] m1 m2 m3; reflexivity. Qed.

Lemma digit_char_inj : forall n m, n < 10 -> m < 10 -> digit_char n = digit_char m -> n = m.
Proof.
  intros n m Hn Hm H; unfold digit_char in H.
  apply (f_equal nat_of_ascii) in H.
  rewrite !nat_ascii_embedding in H by lia; lia.
Qed.

Lemma fatia_fatia : forall (d : list ascii) i j k,
  k <= j - i -> fatia 0 k (fatia i j d) = fatia i (i + k) d.
Proof.
  intros d i j k H; unfold fatia; cbn [skipn].
  rewrite Nat.sub_0_r, firstn_firstn, Nat.min_l by lia.
  replace (i + k - i) with k by lia; reflexivity.
Qed.

Lemma nth_fatia : forall (d : list ascii) i j p x,
  p < j - i -> nth p (fatia i j d) x = nth (i + p) d x.
Proof.
  intros d i j p x H; unfold fatia.
  rewrite nth_firstn; apply Nat.ltb_lt in H; rewrite H; apply nth_skipn.
Qed.

Lemma fatia_firstn : forall (d : list ascii) i j k,
  j <= k -> fatia i j (firstn k d) = fatia i j d.
Proof.
  intros d i j k H; unfold fatia.
  rewrite skipn_firstn_comm, firstn_firstn, Nat.min_l by lia; reflexivity.
Qed.

(** X3: a 44-digit barcode is valid exactly when its digit at index 4 is
    the modulo-11 check digit of the other 43 digits. Since that check digit
    is never 0, a barcode with a 0 at index 4 is always rejected. *)
Theorem barras_valido_sse : forall s,
  length (digitos_de s) = 44 ->
  (valido (validar_codigo_barras (PStr s)) = true <->
   nth 4 (digitos_de s) "000"%char
   = digit_char (dv_modulo11 (firstn 4 (digitos_de s) ++ skipn 5 (digitos_de s)))) /\
  (nth 4 (digitos_de s) "000"%char = "0"%char ->
   valido (validar_codigo_barras (PStr s)) = false).
Proof.
  intros s Hl.
  assert (Hiff : valido (validar_codigo_barras (PStr s)) = true <->
     nth 4 (digitos_de s) "000"%char
     = digit_char (dv_modulo11 (firstn 4 (digitos_de s) ++ skipn 5 (digitos_de s)))).
  { unfold validar_codigo_barras; cbn zeta iota beta.
    rewrite Hl; cbn [Nat.eqb negb].
    replace (fatia 5 44 (digitos_de s)) with (skipn 5 (digitos_de s))
      by (unfold fatia; symmetry; apply firstn_all2; rewrite length_skipn; lia).
    unfold char_em; rewrite calcular_dv_modulo11_char, eqb_um, valido_fecha_se.
    unfold fatia at 1; cbn [skipn Nat.sub].
    rewrite negb_involutive; split; [apply Ascii.eqb_eq | intros ->; apply Ascii.eqb_refl]. }
  split; [exact Hiff |].
  intros H0; apply not_true_is_false; intros E.
  apply Hiff in E; rewrite H0 in E.
  pose proof (dv_modulo11_faixa (firstn 4 (digitos_de s) ++ skipn 5 (digitos_de s))) as [Hr _].
  apply (digit_char_inj 0) in E; lia.
Qed.

Lemma barras_valido_sse_witness :
  length (digitos_de "00191758600001026560000090114971860168524522") = 44 /\
  (nth 4 (digitos_de "00191758600001026560000090114971860168524522") "000"%char = "0"%char ->
   valido (validar_codigo_barras (PStr "00191758600001026560000090114971860168524522")) = false).
Proof.
  assert (H : length (digitos_de "00191758600001026560000090114971860168524522") = 44)
    by (vm_compute; reflexivity).
  split; [exact H | exact (proj2 (barras_valido_sse _ H))].
Defined.

(** X4: a linha digitável with 47 digits is valid exactly when the digits
    at indexes 9, 20 and 31 are the modulo-10 check digits of digits 0..8,
    10..19 and 21..30. Digits 32..46 (the general check digit, the due-date
    factor and the amount) are never read: two 47-digit lines that agree on
    their first 32 digits get the same result. *)
Theorem linha_valida_sse : forall s,
  length (digitos_de s) = 47 ->
  (valido (validar_linha_digitavel (PStr s)) = true <->
   nth 9 (digitos_de s) "000"%char = digit_char (dv_modulo10 (fatia 0 9 (digitos_de s))) /\
   nth 20 (digitos_de s) "000"%char = digit_char (dv_modulo10 (fatia 10 20 (digitos_de s))) /\
   nth 31 (digitos_de s) "000"%char = digit_char (dv_modulo10 (fatia 21 31 (digitos_de s)))) /\
  (forall s', length (digitos_de s') = 47 ->
   firstn 32 (digitos_de s') = firstn 32 (digitos_de s) ->
   validar_linha_digitavel (PStr s') = validar_linha_digitavel (PStr s)).
Proof.
  intros s Hl; split.
  - unfold validar_linha_digitavel; cbn zeta iota beta.
    rewrite Hl; cbn [Nat.eqb negb].
    rewrite (fatia_fatia _ 0 10 9), (fatia_fatia _ 10 21 10), (fatia_fatia _ 21 32 10) by lia.
    unfold char_em; rewrite (nth_fatia _ 0 10 9), (nth_fatia _ 10 21 10), (nth_fatia _ 21 32 10)
      by lia.
    rewrite !calcular_dv_modulo10_char, !eqb_um, valido_fecha_se3, !negb_involutive.
    cbn [Nat.add].
    rewrite !andb_true_iff, !Ascii.eqb_eq; tauto.
  - intros s' Hl' H32.
    unfold validar_linha_digitavel; cbn zeta iota beta.
    rewrite Hl, Hl'; cbn [Nat.eqb negb].
    rewrite <- (fatia_firstn (digitos_de s') 0 10 32), <- (fatia_firstn (digitos_de s') 10 21 32),
      <- (fatia_firstn (digitos_de s') 21 32 32), H32, !fatia_firstn by lia.
    reflexivity.
Qed.

Lemma linha_valida_sse_witness :
  length (digitos_de "00190.00009 01149.718601 68524.522114 6 75860000102656") = 47 /\
  validar_linha_digitavel (PStr "00190.00009 01149.718601 68524.522114 6 00000000000000")
  = validar_linha_digitavel (PStr "00190.00009 01149.718601 68524.522114 6 75860000102656").
Proof.
  assert (H : length (digitos_de "00190.00009 01149.718601 68524.522114 6 75860000102656") = 47)
    by (vm_compute; reflexivity).
  split; [exact H |].
  apply (proj2 (linha_valida_sse _ H)); vm_compute; reflexivity.
Defined.

(** X5: [validar_valor] accepts a number exactly when it lies in
    (0, 9999999.99], the upper bound being the double nearest to the literal
    [9999999.99], and never reports more than one error. *)
Theorem validar_valor_faixa : forall q,
  exists r, validar_valor (PNum q) = inr r /\
    (valido r = true <-> (0 < q /\ q <= arredonda (999999999 # 100))%Q) /\
    length (erros r) <= 1.
Proof.
  intros q; eexists; split; [reflexivity |].
  assert (HL : (0 <= arredonda (999999999 # 100))%Q)
    by (apply Qle_bool_imp_le; vm_compute; reflexivity).
  revert HL; generalize (arredonda (999999999 # 100)); intros L HL.
  assert (A : Qle_bool q 0 = false <-> (0 < q)%Q).
  { split; intros H.
    - apply Qnot_le_lt; intros H'; apply Qle_bool_iff in H'; congruence.
    - destruct (Qle_bool q 0) eqn:E; [| reflexivity].
      apply Qle_bool_iff in E; exfalso; exact (Qlt_not_le _ _ H E). }
  pose proof (Qle_bool_iff q L) as B.
  destruct (Qle_bool q 0) eqn:E1, (Qle_bool q L) eqn:E2; cbn.
  - split; [| lia]. split; [discriminate | intros [H _]; apply A in H; discriminate].
  - exfalso; apply Qle_bool_iff in E1.
    assert (H : (q <= L)%Q) by (apply (Qle_trans _ 0); [exact E1 | exact HL]).
    apply B in H; discriminate.
  - split; [| lia]. split; [intros _; split; [apply A | apply B]; reflexivity | reflexivity].
  - split; [| lia]. split; [discriminate | intros [_ H]; apply B in H; discriminate].
Qed.

(** X6: [validar_vencimento] never reports more than one error: the date
    cannot be both too old and too far away. *)
Theorem validar_vencimento_um_erro : forall strp dia us v,
  length (erros (validar_vencimento strp dia us v)) <= 1.
Proof.
  intros strp dia us v; unfold validar_vencimento.
  destruct v as [| s | q]; [cbn; lia | | cbn; lia].
  destruct (strp s) as [msg | venc]; [cbn; lia |]; cbv zeta.
  destruct (Z.eqb us 0);
    destruct (Z.ltb (5 * 365) (dia - venc)) eqn:A;
    match goal with |- context [Z.ltb (2 * 365) ?x] => destruct (Z.ltb (2 * 365) x) eqn:B end;
    cbn; try lia; apply Z.ltb_lt in A, B; lia.
Qed.

(** X7: a date that [strptime] parses is accepted exactly when it lies
    from 5*365 days before today up to 2*365 days after it, plus one more
    day once the current day has begun (the time of day is dropped from the
    due date only). *)
Theorem validar_vencimento_janela : forall strp dia us s venc,
  strp s = inr venc ->
  valido (validar_vencimento strp dia us (PStr s)) = true <->
  (dia - 5 * 365 <= venc /\ venc <= dia + 2 * 365 + (if Z.eqb us 0 then 0 else 1))%Z.
Proof.
  intros strp dia us s venc H; unfold validar_vencimento; rewrite H; cbv zeta.
  destruct (Z.eqb us 0);
    destruct (Z.ltb (5 * 365) (dia - venc)) eqn:A;
    match goal with |- context [Z.ltb (2 * 365) ?x] => destruct (Z.ltb (2 * 365) x) eqn:B end;
    cbn; rewrite ?Z.ltb_lt, ?Z.ltb_ge in A, B;
    split; intros; try discriminate; try reflexivity; lia.
Qed.

Lemma validar_vencimento_janela_witness :
  valido (validar_vencimento (fun _ => inr 830%Z) 100%Z 5%Z (PStr "31/12/2030")) = true <->
  (100 - 5 * 365 <= 830 /\ 830 <= 100 + 2 * 365 + (if Z.eqb 5 0 then 0 else 1))%Z.
Proof. apply (validar_vencimento_janela (fun _ => inr 830%Z) 100%Z 5%Z "31/12/2030" 830%Z). reflexivity. Defined.

Lemma procura_In : forall c v l, procura c l = Some v -> In (c, v) l.
Proof.
  intros c v l; induction l as [| [k w] l IH]; simpl; [discriminate |].
  destruct (String.eqb c k) eqn:E; [apply String.eqb_eq in E; subst; injection 1 as ->; left; reflexivity |].
  intros H; right; apply IH, H.
Qed.

(** X8: the codes [validar_codigo_banco] accepts are the codes
    [identificar_banco] names from its table, plus 422, 140 and 197, which
    are accepted but only named "Banco <code>". *)
Theorem bancos_validos_tabela : forall repr c,
  (valido (validar_codigo_banco repr (PStr c)) = true <->
   (exists nome, procura c bancos = Some nome) \/ In c ["422"; "140"; "197"]) /\
  (In c ["422"; "140"; "197"] -> identificar_banco repr (PStr c) = "Banco " ^^ c).
Proof.
  intros repr c; split.
  - unfold validar_codigo_banco; rewrite valido_fecha_se, negb_involutive; cbn [em_bancos_validos].
    rewrite existsb_exists; split.
    + intros [x [Hx Hc]]; apply String.eqb_eq in Hc; subst x.
      simpl in Hx; decompose sum Hx; subst c;
        solve [left; eexists; reflexivity | right; simpl; tauto].
    + intros [[nome Hn] | Hn]; exists c; split; try apply String.eqb_refl.
      * apply procura_In in Hn; simpl in Hn; decompose sum Hn;
          match goal with H : (_, _) = (_, _) |- _ => injection H as <- <- end; simpl; tauto.
      * simpl in Hn |- *; tauto.
  - intros Hn; simpl in Hn; decompose sum Hn; subst c; try contradiction; reflexivity.
Qed.

Lemma bancos_validos_tabela_witness :
  (valido (validar_codigo_banco (fun _ => "") (PStr "422")) = true <->
   (exists nome, procura "422" bancos = Some nome) \/ In "422" ["422"; "140"; "197"]) /\
  (In "422" ["422"; "140"; "197"] -> identificar_banco (fun _ => "") (PStr "422") = "Banco " ^^ "422").
Proof. apply (bancos_validos_tabela (fun _ => "") "422"). Defined.

(** X9: the [except] branch of [validar_boleto_febraban] is taken exactly
    when [valor] is a non-empty string: [validar_valor] compares it with
    [<=] and raises a [TypeError]. The result is then invalid with that one
    message and no details, whatever the other fields hold. *)
Theorem validar_excecao_valor_str : forall strp dia us repr d,
  ((exists e, validar_corpo strp dia us repr d = inl e) <->
   (exists s, valor d = PStr s /\ s <> "")) /\
  (forall s, valor d = PStr s -> s <> "" ->
   validar_boleto_febraban strp dia us repr d =
   mk_validacao false ["Erro na validação: '<=' not supported between instances of 'str' and 'int'"] []).
Proof.
  intros strp dia us repr d.
  assert (Hstr : forall s, valor d = PStr s -> s <> "" ->
            validar_corpo strp dia us repr d =
            inl (TypeError "'<=' not supported between instances of 'str' and 'int'")).
  { intros s Hv Hs; unfold validar_corpo; rewrite Hv.
    replace (truthy (PStr s)) with true
      by (cbn; apply String.eqb_neq in Hs; rewrite Hs; reflexivity).
    reflexivity. }
  split; [split |].
  - intros [e He]; destruct (valor d) as [| s | q] eqn:Ev.
    + rewrite corpo_forma in He by (rewrite Ev; discriminate); discriminate.
    + exists s; split; [reflexivity | intros ->].
      unfold validar_corpo in He; rewrite Ev in He; cbn [truthy String.eqb negb] in He.
      destruct (truthy (linha_digitavel d)), (truthy (codigo_barras d)), (truthy (vencimento d)),
        (truthy (beneficiario_cnpj d)), (truthy (codigo_banco d)); discriminate.
    + rewrite corpo_forma in He by (rewrite Ev; discriminate); discriminate.
  - intros [s [Hv Hs]]; eexists; apply (Hstr s Hv Hs).
  - intros s Hv Hs; unfold validar_boleto_febraban; rewrite (Hstr s Hv Hs); reflexivity.
Qed.

Lemma validar_excecao_valor_str_witness :
  let d := mk_dados PNone PNone (PStr "54,01") PNone PNone PNone PNone PNone PNone in
  validar_boleto_febraban (fun _ => inr 0%Z) 0%Z 0%Z (fun _ => "") d =
  mk_validacao false ["Erro na validação: '<=' not supported between instances of 'str' and 'int'"] [].
Proof.
  intros d.
  apply (proj2 (validar_excecao_valor_str (fun _ => inr 0%Z) 0%Z 0%Z (fun _ => "") d) "54,01");
    [reflexivity | discriminate].
Defined.

(** ** Explanation *)

Lemma Qlt_7_10_inteiro : forall z : Z, (7 # 10 < inject_Z z)%Q <-> (1 <= z)%Z.
Proof. intros z; unfold Qlt; simpl; lia. Qed.

Lemma Qlt_3_10_inteiro : forall z : Z, (inject_Z z < 3 # 10)%Q <-> (z <= 0)%Z.
Proof. intros z; unfold Qlt; simpl; lia. Qed.

Lemma Qlt_8_10_inteiro : forall z : Z, (8 # 10 < inject_Z z)%Q <-> (1 <= z)%Z.
Proof. intros z; unfold Qlt; simpl; lia. Qed.

Lemma razoes_excecao : forall f0 f2 fm d val pred,
  (exists e, gerar_razoes_detalhadas f0 f2 fm d val pred = inl e) <->
  (forall q, valor d <> PNum q).
Proof.
  intros f0 f2 fm d val pred; unfold gerar_razoes_detalhadas; split.
  - intros [e He] q Hq; rewrite Hq in He; cbn [valor_maior_que_10000] in He.
    destruct (Qlt_le_dec _ _); [| destruct (Qlt_le_dec _ _)];
      destruct (negb _); discriminate.
  - intros Hn; destruct (valor d) as [| s | q] eqn:Ev;
      [eexists; reflexivity | eexists; reflexivity | exfalso; exact (Hn q eq_refl)].
Qed.

(** X10: [_gerar_razoes_detalhadas] raises exactly when [valor] is not a
    number. Otherwise it returns one entry per validation error, then
    exactly one machine-learning entry (suspicious when the integer score is
    at least 1, normal otherwise), then the high-value entry when the amount
    exceeds 10000. The score band between 0.3 and 0.7 and the generic
    fallback entry are never reached. *)
Theorem razoes_estrutura : forall f0 f2 fm d val pred,
  ((exists e, gerar_razoes_detalhadas f0 f2 fm d val pred = inl e) <->
   (forall q, valor d <> PNum q)) /\
  (forall q, valor d = PNum q ->
   gerar_razoes_detalhadas f0 f2 fm d val pred =
   inr (map razao_validacao (v_erros val)
        ++ (if Z.leb 1 (score_fraude pred)
            then razao_ml_suspeita f0 f2 (inject_Z (score_fraude pred))
            else razao_ml_normal f0 f2 (inject_Z (score_fraude pred)))
        :: (if Qle_bool q (10000 # 1) then [] else [razao_valor_elevado fm q]))).
Proof.
  intros f0 f2 fm d val pred; split; [apply razoes_excecao |].
  - intros q Hq; unfold gerar_razoes_detalhadas; rewrite Hq; cbn [valor_maior_que_10000].
    set (z := score_fraude pred).
    destruct (Z.leb 1 z) eqn:Ez; [apply Z.leb_le in Ez | apply Z.leb_gt in Ez].
    + destruct (Qlt_le_dec (7 # 10) (inject_Z z)) as [_ | Hle];
        [| exfalso; apply Qle_not_lt in Hle; apply Hle, Qlt_7_10_inteiro; lia].
      destruct (Qle_bool q (10000 # 1)); cbn [negb];
        rewrite <- ?app_assoc; cbn [app]; destruct (map razao_validacao (v_erros val)); reflexivity.
    + destruct (Qlt_le_dec (7 # 10) (inject_Z z)) as [Hlt | _];
        [exfalso; apply Qlt_7_10_inteiro in Hlt; lia |].
      destruct (Qlt_le_dec (inject_Z z) (3 # 10)) as [_ | Hle];
        [| exfalso; apply Qle_not_lt in Hle; apply Hle, Qlt_3_10_inteiro; lia].
      destruct (Qle_bool q (10000 # 1)); cbn [negb];
        rewrite <- ?app_assoc; cbn [app]; destruct (map razao_validacao (v_erros val)); reflexivity.
Qed.

Lemma razoes_estrutura_witness :
  let d := mk_dados PNone PNone (PNum (15000 # 1)) PNone PNone PNone PNone PNone PNone in
  gerar_razoes_detalhadas fmt_vazio fmt_vazio fmt_vazio d (mk_validacao true [] []) previsao_stub =
  inr (map razao_validacao []
       ++ (if Z.leb 1 (score_fraude previsao_stub)
           then razao_ml_suspeita fmt_vazio fmt_vazio (inject_Z (score_fraude previsao_stub))
           else razao_ml_normal fmt_vazio fmt_vazio (inject_Z (score_fraude previsao_stub)))
       :: (if Qle_bool (15000 # 1) (10000 # 1) then []
           else [razao_valor_elevado fmt_vazio (15000 # 1)])).
Proof.
  intros d.
  exact (proj2 (razoes_estrutura fmt_vazio fmt_vazio fmt_vazio d (mk_validacao true [] [])
                  previsao_stub) (15000 # 1) eq_refl).
Defined.

(** X11: when validation reports no error, [_identificar_principal_motivo]
    only says "suspicious pattern" (integer score at least 1) or "all checks
    suggest authenticity"; the "atypical characteristics" and
    "inconclusive" messages are never produced. *)
Theorem principal_motivo_sem_erros : forall val pred,
  v_erros val = [] ->
  identificar_principal_motivo val pred =
  if Z.leb 1 (score_fraude pred)
  then "Modelo de ML identificou padrão suspeito com alta confiança"
  else "Todas as verificações sugerem autenticidade".
Proof.
  intros val pred He; unfold identificar_principal_motivo; rewrite He.
  set (z := score_fraude pred).
  destruct (Z.leb 1 z) eqn:Ez; [apply Z.leb_le in Ez | apply Z.leb_gt in Ez].
  - destruct (Qlt_le_dec (8 # 10) (inject_Z z)) as [_ | Hle]; [reflexivity |].
    exfalso; apply Qle_not_lt in Hle; apply Hle, Qlt_8_10_inteiro; lia.
  - destruct (Qlt_le_dec (8 # 10) (inject_Z z)) as [Hlt | _];
      [exfalso; apply Qlt_8_10_inteiro in Hlt; lia |].
    destruct (Qlt_le_dec (6 # 10) (inject_Z z)) as [Hlt | _];
      [exfalso; unfold Qlt in Hlt; simpl in Hlt; lia |].
    destruct (Qlt_le_dec (inject_Z z) (3 # 10)) as [_ | Hle]; [reflexivity |].
    exfalso; apply Qle_not_lt in Hle; apply Hle, Qlt_3_10_inteiro; lia.
Qed.

Lemma principal_motivo_sem_erros_witness :
  identificar_principal_motivo (mk_validacao true [] []) previsao_stub =
  if Z.leb 1 (score_fraude previsao_stub)
  then "Modelo de ML identificou padrão suspeito com alta confiança"
  else "Todas as verificações sugerem autenticidade".
Proof. apply (principal_motivo_sem_erros (mk_validacao true [] []) previsao_stub); reflexivity. Defined.

Definition riscos_fraude : list string := ["ALTO"; "MÉDIO-ALTO"; "MÉDIO"].
Definition riscos_autentico : list string := ["BAIXO"; "BAIXO-MÉDIO"; "INCERTO"].

Lemma gerar_recomendacao_risco : forall is_fraud conf score,
  In (nivel_risco (gerar_recomendacao is_fraud conf score))
     (if is_fraud then riscos_fraude else riscos_autentico).
Proof.
  intros [] conf score; unfold gerar_recomendacao;
    repeat match goal with
           | |- context [if Qle_bool ?a conf then _ else _] => destruct (Qle_bool a conf)
           end; simpl; tauto.
Qed.

(** X12: in the bundle of [gerar_explicacao_humanizada], the status, the
    summary and the risk level all follow the classifier alone: the status is
    "POSSIVELMENTE FALSO" and the risk level one of ALTO, MÉDIO-ALTO, MÉDIO
    when the classifier flags fraud, and "POSSIVELMENTE AUTÊNTICO" with one
    of BAIXO, BAIXO-MÉDIO, INCERTO otherwise. The validation result never
    changes them. *)
Theorem explicacao_segue_classificador : forall f0 f2 fm iso d val pred ex,
  gerar_explicacao_humanizada f0 f2 fm iso d val pred = inr ex ->
  status (simples ex) =
    (if is_fraudulento pred then "POSSIVELMENTE FALSO" else "POSSIVELMENTE AUTÊNTICO") /\
  In (nivel_risco (recomendacao_final ex))
    (if is_fraudulento pred then riscos_fraude else riscos_autentico) /\
  (forall val', exists ex', gerar_explicacao_humanizada f0 f2 fm iso d val' pred = inr ex' /\
     status (simples ex') = status (simples ex) /\
     recomendacao_final ex' = recomendacao_final ex).
Proof.
  intros f0 f2 fm iso d val pred ex H.
  unfold gerar_explicacao_humanizada in H |- *.
  destruct (gerar_razoes_detalhadas f0 f2 fm d val pred) as [e | rs] eqn:Hr; [discriminate |].
  apply inr_igual in H; subst; cbn [simples recomendacao_final].
  split; [destruct (is_fraudulento pred); reflexivity |].
  split; [apply gerar_recomendacao_risco |].
  intros val'.
  destruct (gerar_razoes_detalhadas f0 f2 fm d val' pred) as [e' | rs'] eqn:Hr'.
  - exfalso.
    assert (Hn : forall q, valor d <> PNum q)
      by (apply (razoes_excecao f0 f2 fm d val' pred); eexists; exact Hr').
    destruct (valor d) as [| s | q] eqn:Ev; [| | exact (Hn q eq_refl)];
      unfold gerar_razoes_detalhadas in Hr; rewrite Ev in Hr; cbn in Hr;
      repeat destruct (Qlt_le_dec _ _); discriminate.
  - eexists; split; [reflexivity |]; cbn [simples recomendacao_final status].
    split; destruct (is_fraudulento pred); reflexivity.
Qed.

Lemma explicacao_segue_classificador_witness :
  let d := mk_dados PNone PNone (PNum (150 # 1)) PNone PNone PNone PNone PNone PNone in
  exists ex, gerar_explicacao_humanizada fmt_vazio fmt_vazio fmt_vazio "" d
               (mk_validacao true [] []) previsao_stub = inr ex /\
  status (simples ex) =
    (if is_fraudulento previsao_stub then "POSSIVELMENTE FALSO" else "POSSIVELMENTE AUTÊNTICO").
Proof.
  intros d; eexists; split; [reflexivity |].
  refine (proj1 (explicacao_segue_classificador fmt_vazio fmt_vazio fmt_vazio "" d
                   (mk_validacao true [] []) previsao_stub _ _)).
  reflexivity.
Defined.

(** X13: verdict and explanation can disagree. When FEBRABAN validation
    fails but the classifier does not flag fraud, [processar_boleto] stores
    a fraudulent verdict together with an explanation whose status is
    "POSSIVELMENTE AUTÊNTICO" and whose risk level is BAIXO, BAIXO-MÉDIO or
    INCERTO. *)
Theorem veredito_explicacao_divergem : forall f0 f2 fm iso d val pred ex,
  v_valido val = false ->
  is_fraudulento pred = false ->
  gerar_explicacao_humanizada f0 f2 fm iso d val pred = inr ex ->
  fa_isFraudulento (analise_fraude val pred) = true /\
  status (simples ex) = "POSSIVELMENTE AUTÊNTICO" /\
  In (nivel_risco (recomendacao_final ex)) riscos_autentico.
Proof.
  intros f0 f2 fm iso d val pred ex Hv Hp H.
  split; [unfold analise_fraude; cbn; rewrite Hv; reflexivity |].
  unfold gerar_explicacao_humanizada in H.
  destruct (gerar_razoes_detalhadas f0 f2 fm d val pred); [discriminate |].
  apply inr_igual in H; subst; cbn [simples recomendacao_final status]; rewrite Hp.
  split; [reflexivity |].
  pose proof (gerar_recomendacao_risco false (confianca pred) (score_fraude pred)) as Hr.
  exact Hr.
Qed.

Lemma veredito_explicacao_divergem_witness :
  let d := mk_dados PNone PNone (PNum (150 # 1)) PNone PNone PNone PNone PNone PNone in
  exists ex, gerar_explicacao_humanizada fmt_vazio fmt_vazio fmt_vazio "" d
               (mk_validacao false ["Valor não encontrado"] []) previsao_stub = inr ex /\
  fa_isFraudulento (analise_fraude (mk_validacao false ["Valor não encontrado"] []) previsao_stub)
    = true /\
  status (simples ex) = "POSSIVELMENTE AUTÊNTICO" /\
  In (nivel_risco (recomendacao_final ex)) riscos_autentico.
Proof.
  intros d; eexists; split; [reflexivity |].
  refine (veredito_explicacao_divergem fmt_vazio fmt_vazio fmt_vazio "" d
            (mk_validacao false ["Valor não encontrado"] []) previsao_stub _ _ _ _);
    reflexivity.
Defined.

(** ** Extraction of the linha digitável *)

Lemma lista_app : forall a b,
  list_ascii_of_string (a ^^ b) = list_ascii_of_string a ++ list_ascii_of_string b.
Proof. induction a as [| c a IH]; intros b; simpl; [reflexivity | rewrite IH; reflexivity]. Qed.

Lemma filter_digitos : forall g, forallb is_digit g = true -> filter is_digit g = g.
Proof.
  induction g as [| c g IH]; simpl; [reflexivity |].
  intros H; apply andb_true_iff in H as [H1 H2]; rewrite H1, IH by exact H2; reflexivity.
Qed.

Lemma digitos_exatos_spec : forall k s g r,
  digitos_exatos k s = Some (g, r) ->
  s = g ++ r /\ length g = k /\ forallb is_digit g = true.
Proof.
  induction k as [| k IH]; intros s g r H; simpl in H.
  - injection H as <- <-; repeat split.
  - destruct s as [| c t]; [discriminate |].
    destruct (is_digit c) eqn:Ec; [| discriminate].
    destruct (digitos_exatos k t) as [[g' r'] |] eqn:E; [| discriminate].
    injection H as <- <-; apply IH in E as [-> [Hl Hd]].
    simpl; rewrite Ec, Hd, Hl; repeat split.
Qed.

(** The eight groups of the formatted pattern: all digits, of lengths
    5, 5, 5, 6, 5, 6, 1 and 14. *)
Definition grupos_ok (gs : list (list ascii)) : Prop :=
  Forall2 (fun g k => length g = k /\ forallb is_digit g = true) gs [5; 5; 5; 6; 5; 6; 1; 14].

Lemma casa_linha_spec : forall s gs, casa_linha s = Some gs -> grupos_ok gs.
Proof.
  intros s gs H; unfold casa_linha in H.
  repeat match type of H with
  | context [digitos_exatos ?k ?x] =>
      let E := fresh "E" in
      destruct (digitos_exatos k x) as [[? ?] |] eqn:E; [apply digitos_exatos_spec in E | discriminate]
  end.
  injection H as <-; unfold grupos_ok.
  repeat match goal with H : _ /\ _ /\ _ |- _ => destruct H as [_ H] end.
  repeat (apply Forall2_cons; [assumption |]); apply Forall2_nil.
Qed.

Lemma buscar_linha_spec : forall s gs, buscar_linha s = Some gs -> grupos_ok gs.
Proof.
  induction s as [| c s IH]; intros gs H; cbn [buscar_linha] in H.
  - destruct (casa_linha []) eqn:E; [injection H as <-; exact (casa_linha_spec _ _ E) | discriminate].
  - destruct (casa_linha (c :: s)) eqn:E;
      [injection H as <-; exact (casa_linha_spec _ _ E) | apply IH, H].
Qed.

Lemma buscar_47_spec : forall s p g,
  buscar_47 p s = Some g -> length g = 47 /\ forallb is_digit g = true.
Proof.
  induction s as [| c s IH]; intros p g H; cbn [buscar_47] in H.
  - destruct p as [p |]; cbn in H; [destruct (negb (is_word p)) |]; discriminate.
  - destruct (match p with Some _ => _ | None => _ end).
    + destruct (digitos_exatos 47 (c :: s)) as [[g' r] |] eqn:E.
      * apply digitos_exatos_spec in E as [_ Hg].
        destruct r as [| c' r]; [injection H as <-; exact Hg |].
        destruct (is_word c'); [apply (IH _ _ H) | injection H as <-; exact Hg].
      * apply (IH _ _ H).
    + apply (IH _ _ H).
Qed.

Lemma forallb_fatia : forall (p : ascii -> bool) l i j,
  forallb p l = true -> forallb p (fatia i j l) = true.
Proof.
  intros p l i j H; unfold fatia.
  rewrite <- (firstn_skipn i l), forallb_app in H; apply andb_true_iff in H as [_ H].
  rewrite <- (firstn_skipn (j - i) (skipn i l)), forallb_app in H.
  apply andb_true_iff in H as [H _]; exact H.
Qed.

Lemma length_fatia : forall (l : list ascii) i j,
  j <= length l -> length (fatia i j l) = j - i.
Proof. intros l i j H; unfold fatia; rewrite length_firstn, length_skipn; lia. Qed.

(** The string both branches of [extrair_linha_digitavel] build. *)
Lemma formatada_spec : forall g0 g1 g2 g3 g4 g5 g6 g7,
  grupos_ok [g0; g1; g2; g3; g4; g5; g6; g7] ->
  let l := sl g0 ^^ "." ^^ sl g1 ^^ " " ^^ sl g2 ^^ "." ^^ sl g3 ^^ " "
            ^^ sl g4 ^^ "." ^^ sl g5 ^^ " " ^^ sl g6 ^^ " " ^^ sl g7 in
  digitos_de l = g0 ++ g1 ++ g2 ++ g3 ++ g4 ++ g5 ++ g6 ++ g7 /\
  length (digitos_de l) = 47 /\
  substring 0 3 l = sl (firstn 3 (digitos_de l)).
Proof.
  intros g0 g1 g2 g3 g4 g5 g6 g7 H l.
  unfold grupos_ok in H.
  repeat match goal with H : Forall2 _ _ _ |- _ => inversion H; subst; clear H end.
  repeat match goal with H : _ /\ _ |- _ => destruct H end.
  assert (Hd : digitos_de l = g0 ++ g1 ++ g2 ++ g3 ++ g4 ++ g5 ++ g6 ++ g7).
  { unfold l, digitos_de, sl.
    rewrite !lista_app, !list_ascii_of_string_of_list_ascii, !filter_app.
    change (filter is_digit (list_ascii_of_string ".")) with (@nil ascii).
    change (filter is_digit (list_ascii_of_string " ")) with (@nil ascii).
    repeat match goal with H : forallb is_digit ?g = true |- _ =>
      rewrite (filter_digitos g H); clear H end.
    reflexivity. }
  split; [exact Hd |]; rewrite Hd.
  split; [rewrite !length_app; lia |].
  destruct g0 as [| a [| b [| c g0]]]; simpl in *; try lia.
  match goal with |- context [substring 0 0 ?x] => destruct x end; reflexivity.
Qed.

Lemma extrair_linha_forma : forall texto l,
  extrair_linha_digitavel texto = Some l ->
  length (digitos_de l) = 47 /\ substring 0 3 l = sl (firstn 3 (digitos_de l)).
Proof.
  intros texto l H.
  unfold extrair_linha_digitavel in H.
  destruct (buscar_linha _) as [gs |] eqn:Eb.
  - apply buscar_linha_spec in Eb.
    destruct gs as [| g0 [| g1 [| g2 [| g3 [| g4 [| g5 [| g6 [| g7 [| g8 gs]]]]]]]]];
      try discriminate; try (inversion Eb; subst;
        repeat match goal with H : Forall2 _ _ _ |- _ => inversion H; subst; clear H end; fail).
    injection H as <-.
    pose proof (formatada_spec _ _ _ _ _ _ _ _ Eb) as [_ Hs]; exact Hs.
  - destruct (buscar_47 None _) as [d |] eqn:E4; [| discriminate].
    apply buscar_47_spec in E4 as [Hl Hd].
    injection H as <-.
    assert (Hok : grupos_ok [fatia 0 5 d; fatia 5 10 d; fatia 10 15 d; fatia 15 21 d;
                             fatia 21 26 d; fatia 26 32 d; fatia 32 33 d; fatia 33 47 d]).
    { unfold grupos_ok; repeat constructor;
        solve [rewrite length_fatia by lia; reflexivity | apply forallb_fatia, Hd]. }
    pose proof (formatada_spec _ _ _ _ _ _ _ _ Hok) as [_ Hs]; exact Hs.
Qed.

(** X14: whatever the input text, a linha digitável returned by
    [extrair_linha_digitavel] has exactly 47 digits and its first three
    characters are its first three digits. [validar_linha_digitavel] on it
    can therefore only report check-digit errors ("DV1", "DV2", "DV3"),
    never the length error. *)
Theorem extrair_linha_47_digitos : forall texto l,
  extrair_linha_digitavel texto = Some l ->
  length (digitos_de l) = 47 /\
  substring 0 3 l = sl (firstn 3 (digitos_de l)) /\
  (forall e, In e (erros (validar_linha_digitavel (PStr l))) -> String.prefix "DV" e = true).
Proof.
  intros texto l H.
  pose proof (extrair_linha_forma texto l H) as Hf.
  destruct Hf as [Hl Hs]; split; [exact Hl | split; [exact Hs |]].
  intros e He; unfold validar_linha_digitavel in He; rewrite Hl in He; cbn zeta in He.
  cbn [Nat.eqb negb] in He; unfold fecha, se in He; cbn [erros] in He.
  repeat match type of He with context [if ?b then _ else _] => destruct b end;
    simpl in He; decompose sum He; subst e; reflexivity || contradiction.
Qed.

Lemma extrair_linha_47_digitos_witness :
  extrair_linha_digitavel "Linha: 00190000090114971860168524522114675860000102656"
  = Some "00190.00009 01149.718601 68524.522114 6 75860000102656" /\
  length (digitos_de "00190.00009 01149.718601 68524.522114 6 75860000102656") = 47.
Proof.
  assert (H : extrair_linha_digitavel "Linha: 00190000090114971860168524522114675860000102656"
              = Some "00190.00009 01149.718601 68524.522114 6 75860000102656")
    by (vm_compute; reflexivity).
  split; [exact H |].
  exact (proj1 (extrair_linha_47_digitos _ _ H)).
Defined.

(** X15: when [parse_dados_boleto] finds a linha digitável, the bank code
    it stores is the string of the first three digits of that linha, and the
    linha has 47 digits. *)
Theorem parse_codigo_banco_da_linha : forall repr ecb ev evc ecnpj texto l,
  linha_digitavel (parse_dados_boleto repr ecb ev evc ecnpj texto) = PStr l ->
  codigo_banco (parse_dados_boleto repr ecb ev evc ecnpj texto) = PStr (sl (firstn 3 (digitos_de l))) /\
  length (digitos_de l) = 47.
Proof.
  intros repr ecb ev evc ecnpj texto l H.
  unfold parse_dados_boleto in *; cbn [linha_digitavel codigo_banco] in *.
  destruct (extrair_linha_digitavel texto) as [l' |] eqn:E; cbn [se_str] in *; [| discriminate].
  destruct (truthy (PStr l')); [| discriminate].
  injection H as ->.
  destruct (extrair_linha_forma texto l E) as [Hl Hs].
  rewrite Hs; split; [reflexivity | exact Hl].
Qed.

Lemma parse_codigo_banco_da_linha_witness :
  codigo_banco (parse_dados_boleto (fun _ => "") (fun _ => None) (fun _ => None)
                  (fun _ => None) (fun _ => None)
                  "Linha: 00190000090114971860168524522114675860000102656")
  = PStr (sl (firstn 3 (digitos_de "00190.00009 01149.718601 68524.522114 6 75860000102656"))).
Proof.
  refine (proj1 (parse_codigo_banco_da_linha (fun _ => "") (fun _ => None) (fun _ => None)
                   (fun _ => None) (fun _ => None) _ _ _)).
  vm_compute; reflexivity.
Defined.

(** ** Extraction of the barcode and the CNPJ *)

(** [re.search(r'\b(\d{k})\b', texto)]; [prev] is the character before the
    current position. *)
Fixpoint buscar_digitos (k : nat) (prev : option ascii) (s : list ascii) : option (list ascii) :=
  let inicio_ok := match prev with None => true | Some p => negb (is_word p) end in
  let aqui :=
    if inicio_ok then
      match digitos_exatos k s with
      | Some (g, c :: _) => if is_word c then None else Some g
      | Some (g, []) => Some g
      | None => None
      end
    else None in
  match aqui with
  | Some g => Some g
  | None => match s with [] => None | c :: t => buscar_digitos k (Some c) t end
  end.

(** [extrair_codigo_barras] *)
Definition extrair_codigo_barras (texto : string) : option string :=
  match buscar_digitos 44 None (list_ascii_of_string texto) with
  | Some g => Some (sl g)
  | None => None
  end.

Definition is_barra_ou_espaco (c : ascii) : bool := Ascii.eqb c "/"%char || is_space c.
Definition is_traco_ou_espaco (c : ascii) : bool := Ascii.eqb c "-"%char || is_space c.

(** [(\d{2}[.\s]?\d{3}[.\s]?\d{3}[/\s]?\d{4}[-\s]?\d{2})] anchored at the
    head of the input: the matched text, [match.group(1)]. *)
Definition casa_cnpj (s : list ascii) : option (list ascii) :=
  match digitos_exatos 2 s with None => None | Some (_, s1) =>
  match digitos_exatos 3 (opcional is_ponto_ou_espaco s1) with None => None | Some (_, s2) =>
  match digitos_exatos 3 (opcional is_ponto_ou_espaco s2) with None => None | Some (_, s3) =>
  match digitos_exatos 4 (opcional is_barra_ou_espaco s3) with None => None | Some (_, s4) =>
  match digitos_exatos 2 (opcional is_traco_ou_espaco s4) with None => None | Some (_, s5) =>
    Some (firstn (length s - length s5) s)
  end end end end end.

(** [re.search] of the first CNPJ pattern. *)
Fixpoint buscar_cnpj (s : list ascii) : option (list ascii) :=
  match casa_cnpj s with
  | Some g => Some g
  | None => match s with [] => None | _ :: t => buscar_cnpj t end
  end.

(** [f"{cnpj[0:2]}.{cnpj[2:5]}.{cnpj[5:8]}/{cnpj[8:12]}-{cnpj[12:14]}"] *)
Definition formata_cnpj (c : list ascii) : string :=
  sl (fatia 0 2 c) ^^ "." ^^ sl (fatia 2 5 c) ^^ "." ^^ sl (fatia 5 8 c) ^^ "/"
  ^^ sl (fatia 8 12 c) ^^ "-" ^^ sl (fatia 12 14 c).

(** One iteration of the loop: [re.sub(r'[^\d]', '', cnpj)], then the
    length test. *)
Definition tenta_cnpj (m : option (list ascii)) : option string :=
  match m with
  | Some g =>
      let cnpj := filter is_digit g in
      if length cnpj =? 14 then Some (formata_cnpj cnpj) else None
  | None => None
  end.

(** [extrair_cnpj] *)
Definition extrair_cnpj (texto : string) : option string :=
  let t := list_ascii_of_string texto in
  match tenta_cnpj (buscar_cnpj t) with
  | Some c => Some c
  | None => tenta_cnpj (buscar_digitos 14 None t)
  end.

Lemma buscar_digitos_spec : forall k s p g,
  buscar_digitos k p s = Some g -> length g = k /\ forallb is_digit g = true.
Proof.
  induction s as [| c s IH]; intros p g H; cbn [buscar_digitos] in H.
  - destruct (match p with Some _ => _ | None => _ end); [| discriminate].
    destruct (digitos_exatos k []) as [[g' r] |] eqn:E; [| discriminate].
    apply digitos_exatos_spec in E as [_ Hg].
    destruct r; [injection H as <-; exact Hg |].
    destruct (is_word a); [discriminate | injection H as <-; exact Hg].
  - destruct (match p with Some _ => _ | None => _ end).
    + destruct (digitos_exatos k (c :: s)) as [[g' r] |] eqn:E.
      * apply digitos_exatos_spec in E as [_ Hg].
        destruct r as [| c' r]; [injection H as <-; exact Hg |].
        destruct (is_word c'); [apply (IH _ _ H) | injection H as <-; exact Hg].
      * apply (IH _ _ H).
    + apply (IH _ _ H).
Qed.

(** X16: a barcode returned by [extrair_codigo_barras] consists of exactly
    44 digits and nothing else, so [validar_codigo_barras] on it can only
    report the check-digit error, never the length error. *)
Theorem extrair_codigo_barras_44 : forall texto c,
  extrair_codigo_barras texto = Some c ->
  list_ascii_of_string c = digitos_de c /\ length (digitos_de c) = 44 /\
  (forall e, In e (erros (validar_codigo_barras (PStr c))) ->
   String.prefix "DV do código de barras inválido" e = true).
Proof.
  intros texto c H; unfold extrair_codigo_barras in H.
  destruct (buscar_digitos 44 None _) as [g |] eqn:E; [| discriminate].
  injection H as <-; apply buscar_digitos_spec in E as [Hl Hd].
  assert (Hg : digitos_de (sl g) = g)
    by (unfold digitos_de, sl; rewrite list_ascii_of_string_of_list_ascii; apply filter_digitos, Hd).
  split; [unfold sl; rewrite list_ascii_of_string_of_list_ascii; symmetry; exact Hg |].
  rewrite Hg; split; [exact Hl |].
  intros e He; unfold validar_codigo_barras in He; rewrite Hg, Hl in He; cbn zeta in He.
  cbn [Nat.eqb negb] in He; unfold fecha, se in He; cbn [erros] in He.
  destruct (negb _); simpl in He; [destruct He as [<- | []]; reflexivity | contradiction].
Qed.

Lemma extrair_codigo_barras_44_witness :
  extrair_codigo_barras "Codigo: 00191758600001026560000090114971860168524522"
  = Some "00191758600001026560000090114971860168524522" /\
  length (digitos_de "00191758600001026560000090114971860168524522") = 44.
Proof.
  assert (H : extrair_codigo_barras "Codigo: 00191758600001026560000090114971860168524522"
              = Some "00191758600001026560000090114971860168524522")
    by (vm_compute; reflexivity).
  split; [exact H |].
  exact (proj1 (proj2 (extrair_codigo_barras_44 _ _ H))).
Defined.

Lemma separador_nao_digito : forall c x,
  Ascii.eqb c x || is_space c = true -> nat_of_ascii x < 48 -> is_digit c = false.
Proof.
  intros c x H Hx; unfold is_digit; apply orb_true_iff in H as [H | H].
  - apply Ascii.eqb_eq in H; subst c; apply andb_false_iff; left; apply Nat.leb_gt; exact Hx.
  - unfold is_space in H; apply andb_false_iff; left; apply Nat.leb_gt.
    repeat rewrite ?orb_true_iff, ?andb_true_iff, ?Nat.eqb_eq, ?Nat.leb_le in H; lia.
Qed.

Lemma opcional_spec : forall x s,
  nat_of_ascii x < 48 ->
  exists sep, s = sep ++ opcional (fun c => Ascii.eqb c x || is_space c) s /\
              filter is_digit sep = [].
Proof.
  intros x [| c t] Hx; [exists []; split; reflexivity |].
  cbn [opcional]; destruct (Ascii.eqb c x || is_space c) eqn:E.
  - exists [c]; split; [reflexivity |]; cbn.
    rewrite (separador_nao_digito c x E Hx); reflexivity.
  - exists []; split; reflexivity.
Qed.

Lemma casa_cnpj_spec : forall s m,
  casa_cnpj s = Some m -> (exists r, s = m ++ r) /\ length (filter is_digit m) = 14.
Proof.
  intros s m H; unfold casa_cnpj in H.
  destruct (digitos_exatos 2 s) as [[g0 s1] |] eqn:E0; [| discriminate].
  destruct (opcional_spec "."%char s1 ltac:(cbv; lia)) as [p1 [Hs1 Hp1]].
  destruct (digitos_exatos 3 (opcional is_ponto_ou_espaco s1)) as [[g1 s2] |] eqn:E1;
    [| discriminate].
  destruct (opcional_spec "."%char s2 ltac:(cbv; lia)) as [p2 [Hs2 Hp2]].
  destruct (digitos_exatos 3 (opcional is_ponto_ou_espaco s2)) as [[g2 s3] |] eqn:E2;
    [| discriminate].
  destruct (opcional_spec "/"%char s3 ltac:(cbv; lia)) as [p3 [Hs3 Hp3]].
  destruct (digitos_exatos 4 (opcional is_barra_ou_espaco s3)) as [[g3 s4] |] eqn:E3;
    [| discriminate].
  destruct (opcional_spec "-"%char s4 ltac:(cbv; lia)) as [p4 [Hs4 Hp4]].
  destruct (digitos_exatos 2 (opcional is_traco_ou_espaco s4)) as [[g4 s5] |] eqn:E4;
    [| discriminate].
  injection H as <-.
  apply digitos_exatos_spec in E0 as [-> [L0 D0]], E1 as [H1 [L1 D1]], E2 as [H2 [L2 D2]],
    E3 as [H3 [L3 D3]], E4 as [H4 [L4 D4]].
  unfold is_ponto_ou_espaco, is_barra_ou_espaco, is_traco_ou_espaco in *.
  rewrite H1 in Hs1; rewrite H2 in Hs2; rewrite H3 in Hs3; rewrite H4 in Hs4.
  subst s1 s2 s3 s4.
  set (m := g0 ++ p1 ++ g1 ++ p2 ++ g2 ++ p3 ++ g3 ++ p4 ++ g4).
  assert (Hm : g0 ++ (p1 ++ g1 ++ p2 ++ g2 ++ p3 ++ g3 ++ p4 ++ g4 ++ s5) = m ++ s5)
    by (unfold m; rewrite <- !app_assoc; reflexivity).
  rewrite Hm, length_app, Nat.add_sub, firstn_app, firstn_all, Nat.sub_diag; cbn [firstn].
  rewrite app_nil_r; split; [exists s5; reflexivity |].
  unfold m; rewrite !filter_app, Hp1, Hp2, Hp3, Hp4, !filter_digitos by assumption.
  cbn [app]; rewrite !length_app; lia.
Qed.

Lemma buscar_cnpj_spec : forall s m,
  buscar_cnpj s = Some m -> length (filter is_digit m) = 14.
Proof.
  induction s as [| c s IH]; intros m H; cbn [buscar_cnpj] in H.
  - destruct (casa_cnpj []) eqn:E; [injection H as <-; apply (casa_cnpj_spec _ _ E) | discriminate].
  - destruct (casa_cnpj (c :: s)) eqn:E;
      [injection H as <-; apply (casa_cnpj_spec _ _ E) | apply IH, H].
Qed.

Lemma digitos_exatos_app : forall k g r,
  length g = k -> forallb is_digit g = true -> digitos_exatos k (g ++ r) = Some (g, r).
Proof.
  intros k g r <-; induction g as [| c g IH]; intros H; [reflexivity |].
  cbn [forallb] in H; apply andb_true_iff in H as [H1 H2].
  cbn [length digitos_exatos app]; rewrite H1, IH by exact H2; reflexivity.
Qed.

Lemma digito_nao_separador : forall c x,
  nat_of_ascii x < 48 -> is_digit c = true -> Ascii.eqb c x || is_space c = false.
Proof.
  intros c x Hx Hd; destruct (Ascii.eqb c x || is_space c) eqn:E; [| reflexivity].
  rewrite (separador_nao_digito c x E Hx) in Hd; discriminate.
Qed.

Lemma opcional_digitos : forall (p : ascii -> bool) g r,
  (forall c, is_digit c = true -> p c = false) ->
  forallb is_digit g = true -> g <> [] -> opcional p (g ++ r) = g ++ r.
Proof.
  intros p [| c g] r Hp Hd Hn; [contradiction |].
  cbn [forallb] in Hd; apply andb_true_iff in Hd as [Hc _].
  cbn [app opcional]; rewrite (Hp c Hc); reflexivity.
Qed.

(** A run of 14 digits matches the first pattern, with every separator
    absent. *)
Lemma casa_cnpj_14 : forall s g r,
  digitos_exatos 14 s = Some (g, r) -> casa_cnpj s <> None.
Proof.
  intros s g r H; apply digitos_exatos_spec in H as [-> [Hl Hd]].
  do 14 (destruct g as [| ? g]; [discriminate |]); destruct g; [| discriminate].
  match goal with
  | |- casa_cnpj ([?a; ?b; ?c; ?d; ?e; ?f; ?g; ?h; ?i; ?j; ?k; ?l; ?m; ?n] ++ ?r) <> None =>
      change (casa_cnpj ([a; b] ++ [c; d; e] ++ [f; g; h] ++ [i; j; k; l] ++ [m; n] ++ r) <> None)
  end.
  cbn [forallb] in Hd; rewrite !andb_true_iff in Hd.
  repeat match type of Hd with _ /\ _ => let D := fresh "D" in destruct Hd as [D Hd] end.
  assert (Hsep : forall x, nat_of_ascii x < 48 -> forall c, is_digit c = true ->
                   Ascii.eqb c x || is_space c = false)
    by (intros x Hx c Hc; apply digito_nao_separador; assumption).
  unfold casa_cnpj, is_ponto_ou_espaco, is_barra_ou_espaco, is_traco_ou_espaco.
  repeat match goal with
  | |- context [digitos_exatos ?k (?g ++ ?r)] =>
      rewrite (digitos_exatos_app k g r eq_refl)
        by (cbn [forallb]; repeat match goal with D : is_digit _ = true |- _ => rewrite D end;
            reflexivity)
  | |- context [opcional ?p (?g ++ ?r)] =>
      rewrite (opcional_digitos p g r)
        by (first [ intros ? ?; apply Hsep; [cbv; lia | assumption]
                  | cbn [forallb]; repeat match goal with D : is_digit _ = true |- _ => rewrite D end;
                    reflexivity
                  | discriminate ])
  end.
  discriminate.
Qed.

Lemma forallb_filter : forall (p : ascii -> bool) l, forallb p (filter p l) = true.
Proof.
  intros p l; induction l as [| c l IH]; [reflexivity |].
  cbn [filter]; destruct (p c) eqn:E; cbn [forallb]; rewrite ?E, ?IH; reflexivity.
Qed.

Lemma tenta_cnpj_spec : forall m c,
  tenta_cnpj m = Some c ->
  exists d, length d = 14 /\ forallb is_digit d = true /\ c = formata_cnpj d.
Proof.
  intros [g |] c H; [| discriminate]; cbn [tenta_cnpj] in H.
  destruct (length (filter is_digit g) =? 14) eqn:E; [| discriminate].
  injection H as <-; apply Nat.eqb_eq in E.
  exists (filter is_digit g); split; [exact E | split; [apply forallb_filter | reflexivity]].
Qed.

Lemma digitos_formata_cnpj : forall d,
  length d = 14 -> forallb is_digit d = true -> digitos_de (formata_cnpj d) = d.
Proof.
  intros d Hl Hd; unfold digitos_de, formata_cnpj, sl.
  rewrite !lista_app, !list_ascii_of_string_of_list_ascii, !filter_app.
  rewrite !(filter_digitos (fatia _ _ d)) by (apply forallb_fatia, Hd).
  do 14 (destruct d as [| ? d]; [discriminate |]); destruct d; [| discriminate].
  reflexivity.
Qed.

(** X17: a CNPJ returned by [extrair_cnpj] is always the formatted
    XX.XXX.XXX/XXXX-XX rendering of its own 14 digits, so [validar_cnpj] on
    it can only report a repeated sequence or a wrong check digit, never a
    wrong length. *)
Theorem extrair_cnpj_forma : forall texto c,
  extrair_cnpj texto = Some c ->
  length (digitos_de c) = 14 /\ c = formata_cnpj (digitos_de c) /\
  (forall e, In e (erros (validar_cnpj (PStr c))) ->
   In e ["CNPJ inválido (sequência repetida)"; "Primeiro dígito verificador do CNPJ inválido";
         "Segundo dígito verificador do CNPJ inválido"]).
Proof.
  intros texto c H.
  assert (Hf : exists d, length d = 14 /\ forallb is_digit d = true /\ c = formata_cnpj d).
  { unfold extrair_cnpj in H.
    destruct (tenta_cnpj (buscar_cnpj _)) eqn:E1;
      [injection H as <-; exact (tenta_cnpj_spec _ _ E1) | exact (tenta_cnpj_spec _ _ H)]. }
  destruct Hf as [d [Hl [Hd ->]]].
  rewrite (digitos_formata_cnpj d Hl Hd).
  split; [exact Hl | split; [reflexivity |]].
  intros e He; unfold validar_cnpj in He; rewrite (digitos_formata_cnpj d Hl Hd), Hl in He.
  cbn [Nat.eqb negb] in He.
  destruct (sequencia_repetida d); [cbn in He; destruct He as [<- | []]; simpl; tauto |].
  unfold fecha, se in He; cbn [erros] in He.
  repeat match type of He with context [if ?b then _ else _] => destruct b end;
    simpl in He; decompose sum He; subst e; simpl; tauto.
Qed.

Lemma extrair_cnpj_forma_witness :
  extrair_cnpj "CNPJ: 11.222.333/0001-81" = Some "11.222.333/0001-81" /\
  length (digitos_de "11.222.333/0001-81") = 14.
Proof.
  assert (H : extrair_cnpj "CNPJ: 11.222.333/0001-81" = Some "11.222.333/0001-81")
    by (vm_compute; reflexivity).
  split; [exact H |].
  exact (proj1 (extrair_cnpj_forma _ _ H)).
Defined.

Lemma buscar_digitos_pos : forall k s p g,
  buscar_digitos k p s = Some g ->
  exists pre suf r, s = pre ++ suf /\ digitos_exatos k suf = Some (g, r).
Proof.
  intros k; induction s as [| c s IH]; intros p g H; cbn [buscar_digitos] in H.
  - destruct (match p with Some _ => _ | None => _ end); [| discriminate].
    destruct (digitos_exatos k []) as [[g' r] |] eqn:E; [| discriminate].
    exists [], [], r; split; [reflexivity |].
    destruct r as [| c' r]; [injection H as <-; exact E |].
    destruct (is_word c'); [discriminate | injection H as <-; exact E].
  - assert (Hrec : buscar_digitos k (Some c) s = Some g ->
                   exists pre suf r, c :: s = pre ++ suf /\ digitos_exatos k suf = Some (g, r)).
    { intros H'; destruct (IH _ _ H') as [pre [suf [r [-> Hs]]]].
      exists (c :: pre), suf, r; split; [reflexivity | exact Hs]. }
    destruct (match p with Some _ => _ | None => _ end); [| exact (Hrec H)].
    destruct (digitos_exatos k (c :: s)) as [[g' r] |] eqn:E; [| exact (Hrec H)].
    destruct r as [| c' r].
    + injection H as <-; exists [], (c :: s), []; split; [reflexivity | exact E].
    + destruct (is_word c'); [exact (Hrec H) |].
      injection H as <-; exists [], (c :: s), (c' :: r); split; [reflexivity | exact E].
Qed.

Lemma buscar_cnpj_sufixo : forall pre s,
  casa_cnpj s <> None -> buscar_cnpj (pre ++ s) <> None.
Proof.
  induction pre as [| c pre IH]; intros s H; cbn [app].
  - destruct s as [| c s]; cbn [buscar_cnpj]; destruct (casa_cnpj _); congruence.
  - cbn [buscar_cnpj]; destruct (casa_cnpj (c :: pre ++ s)); [discriminate | apply IH, H].
Qed.

Lemma tenta_cnpj_buscar : forall t m,
  buscar_cnpj t = Some m -> tenta_cnpj (Some m) <> None.
Proof.
  intros t m H; apply buscar_cnpj_spec in H.
  cbn [tenta_cnpj]; rewrite H; discriminate.
Qed.

(** X18: the second pattern of [extrair_cnpj], [\b(\d{14})\b], is dead
    code: the result is always that of the first pattern. Because the first
    pattern has no word boundaries and optional separators, any text that
    contains 14 consecutive digits (for instance inside a barcode or an
    unformatted linha digitável) yields a CNPJ. *)
Theorem extrair_cnpj_primeiro_padrao : forall texto,
  extrair_cnpj texto = tenta_cnpj (buscar_cnpj (list_ascii_of_string texto)) /\
  (forall pre s g r, list_ascii_of_string texto = pre ++ s ->
   digitos_exatos 14 s = Some (g, r) -> extrair_cnpj texto <> None).
Proof.
  intros texto.
  assert (Heq : extrair_cnpj texto = tenta_cnpj (buscar_cnpj (list_ascii_of_string texto))).
  { unfold extrair_cnpj.
    destruct (buscar_cnpj (list_ascii_of_string texto)) as [m |] eqn:Eb.
    - destruct (tenta_cnpj (Some m)) eqn:Et; [reflexivity |].
      exfalso; exact (tenta_cnpj_buscar _ _ Eb Et).
    - cbn [tenta_cnpj].
      destruct (buscar_digitos 14 None (list_ascii_of_string texto)) as [g |] eqn:Ed;
        [| reflexivity].
      exfalso; apply buscar_digitos_pos in Ed as [pre [suf [r [Hs Hd]]]].
      apply (buscar_cnpj_sufixo pre suf (casa_cnpj_14 _ _ _ Hd)); rewrite <- Hs; exact Eb. }
  split; [exact Heq |].
  intros pre s g r Ht Hd; rewrite Heq, Ht.
  destruct (buscar_cnpj (pre ++ s)) as [m |] eqn:Eb.
  - exact (tenta_cnpj_buscar _ _ Eb).
  - exfalso; exact (buscar_cnpj_sufixo pre s (casa_cnpj_14 _ _ _ Hd) Eb).
Qed.

Lemma extrair_cnpj_primeiro_padrao_witness :
  extrair_cnpj "00191758600001026560000090114971860168524522" <> None.
Proof.
  apply (proj2 (extrair_cnpj_primeiro_padrao "00191758600001026560000090114971860168524522")
           [] (list_ascii_of_string "00191758600001026560000090114971860168524522")
           (firstn 14 (list_ascii_of_string "00191758600001026560000090114971860168524522"))
           (skipn 14 (list_ascii_of_string "00191758600001026560000090114971860168524522")));
    vm_compute; reflexivity.
Defined.

(** ** Feature preparation ([model.py]) *)

(** The digits of [int(s)] after the sign: [_] is allowed only between two
    digits. *)
Fixpoint ler_digitos (l : list ascii) (acc : Z) (anterior_digito : bool) : option Z :=
  match l with
  | [] => if anterior_digito then Some acc else None
  | c :: r =>
      if is_digit c then ler_digitos r (acc * 10 + Z.of_nat (int_digit c)) true
      else if Ascii.eqb c "_"%char && anterior_digito then ler_digitos r acc false
      else None
  end.

(** [str.strip()] *)
Fixpoint tira_inicio (l : list ascii) : list ascii :=
  match l with
  | c :: r => if is_space c then tira_inicio r else l
  | [] => []
  end.

Definition strip (l : list ascii) : list ascii := rev (tira_inicio (rev (tira_inicio l))).

(** [int(s)] for a [str], base 10, over the ASCII range (the convention of
    [\d] above). The [repr] in the message is written as the quoted string,
    which is exact for strings without quotes, backslashes or control
    characters. *)
Definition int_str (s : string) : excecao + Z :=
  let t := strip (list_ascii_of_string s) in
  let '(sinal, corpo) :=
    match t with
    | c :: r => if Ascii.eqb c "+"%char then (1%Z, r)
                else if Ascii.eqb c "-"%char then ((-1)%Z, r)
                else (1%Z, t)
    | [] => (1%Z, t)
    end in
  match ler_digitos corpo 0 false with
  | Some n => inr (sinal * n)%Z
  | None => inl (ValueError ("invalid literal for int() with base 10: '" ^^ s ^^ "'"))
  end.

(** The exceptions [preparar_features] can raise. *)
Inductive erro_features :=
| ErroPy (e : excecao)
| AttributeError (msg : string).

Definition levanta {A} (r : excecao + A) : erro_features + A :=
  match r with inl e => inl (ErroPy e) | inr a => inr a end.

Definition ligar {A B} (m : erro_features + A) (k : A -> erro_features + B) : erro_features + B :=
  match m with inl e => inl e | inr a => k a end.

Notation "'let!' x ':=' m 'in' k" := (ligar m (fun x => k))
  (at level 200, x name, m at level 100, k at level 200).

(** [int(v)] for a [str] or a [float] (truncation). *)
Definition int_py (v : pyval) : excecao + Z :=
  match v with
  | PStr s => int_str s
  | PNum q => inr (py_int q)
  | PNone => inl (TypeError "int() argument must be a string, a bytes-like object or a real number, not 'NoneType'")
  end.

(** [s.replace(c, '')] *)
Definition remove_char (c : ascii) (l : list ascii) : list ascii :=
  filter (fun x => negb (Ascii.eqb x c)) l.

(** [s.split('-')[0]] *)
Fixpoint antes_traco (l : list ascii) : list ascii :=
  match l with
  | [] => []
  | c :: r => if Ascii.eqb c "-"%char then [] else c :: antes_traco r
  end.

Section Features.

(** [float(s)] of a [str]. *)
Variable float_str : string -> excecao + Q.

(** [preparar_features] *)
Definition preparar_features (d : dados) : erro_features + features :=
  let linha := if truthy (linha_digitavel d) then linha_digitavel d else PStr "" in
  match linha with
  | PStr linha =>
      let linha_digitos := remove_char " "%char (remove_char "."%char (list_ascii_of_string linha)) in
      let! linha_codBanco :=
        (if 3 <=? length linha_digitos then levanta (int_str (sl (firstn 3 linha_digitos)))
         else inr 0%Z) in
      let! linha_moeda :=
        (if 4 <=? length linha_digitos
         then levanta (int_str (String (nth 3 linha_digitos "000"%char) ""))
         else inr 0%Z) in
      let! linha_valor :=
        (if 47 <=? length linha_digitos
         then levanta (int_str (sl (fatia 37 47 linha_digitos)))
         else inr 0%Z) in
      let! codigo_banco :=
        (match codigo_banco d with PNone => inr 0%Z | v => levanta (int_py v) end) in
      let! valor :=
        (match valor d with
         | PNone => inr 0%Q
         | PNum q => inr q
         | PStr s => levanta (float_str s)
         end) in
      let agencia :=
        match agencia d with
        | PNone => 0%Z
        | PStr s => match int_str (sl (antes_traco (list_ascii_of_string s))) with
                    | inr z => z
                    | inl _ => 0%Z
                    end
        | PNum q => py_int q
        end in
      inr (mk_features (inject_Z codigo_banco) (inject_Z codigo_banco) (inject_Z agencia) valor
             (inject_Z linha_codBanco) (inject_Z linha_moeda) (inject_Z linha_valor))
  | v => inl (AttributeError ("'" ^^ tipo_nome v ^^ "' object has no attribute 'replace'"))
  end.

End Features.

Lemma filter_digitos_mantem : forall (p : ascii -> bool) g,
  (forall c, is_digit c = true -> p c = true) -> forallb is_digit g = true -> filter p g = g.
Proof.
  intros p g Hp; induction g as [| c g IH]; intros Hd; [reflexivity |].
  cbn [forallb] in Hd; apply andb_true_iff in Hd as [H1 H2].
  cbn [filter]; rewrite (Hp c H1), IH by exact H2; reflexivity.
Qed.

Lemma digito_nao_e : forall c x, nat_of_ascii x < 48 -> is_digit c = true ->
  negb (Ascii.eqb c x) = true.
Proof.
  intros c x Hx Hd; destruct (Ascii.eqb c x) eqn:E; [| reflexivity].
  apply Ascii.eqb_eq in E; subst c; unfold is_digit in Hd.
  apply andb_true_iff in Hd as [Hd _]; apply Nat.leb_le in Hd; lia.
Qed.

(** What [extrair_linha_digitavel] returns: the eight digit groups joined
    by "." and " ". *)
Lemma extrair_linha_grupos : forall texto l,
  extrair_linha_digitavel texto = Some l ->
  exists g0 g1 g2 g3 g4 g5 g6 g7,
    grupos_ok [g0; g1; g2; g3; g4; g5; g6; g7] /\
    l = sl g0 ^^ "." ^^ sl g1 ^^ " " ^^ sl g2 ^^ "." ^^ sl g3 ^^ " "
        ^^ sl g4 ^^ "." ^^ sl g5 ^^ " " ^^ sl g6 ^^ " " ^^ sl g7.
Proof.
  intros texto l H; unfold extrair_linha_digitavel in H.
  destruct (buscar_linha _) as [gs |] eqn:Eb.
  - apply buscar_linha_spec in Eb.
    destruct gs as [| g0 [| g1 [| g2 [| g3 [| g4 [| g5 [| g6 [| g7 [| g8 gs]]]]]]]]];
      try discriminate; try (inversion Eb; subst;
        repeat match goal with H : Forall2 _ _ _ |- _ => inversion H; subst; clear H end; fail).
    injection H as <-; do 8 eexists; split; [exact Eb | reflexivity].
  - destruct (buscar_47 None _) as [d |] eqn:E4; [| discriminate].
    apply buscar_47_spec in E4 as [Hl Hd].
    injection H as <-; do 8 eexists; split; [| reflexivity].
    unfold grupos_ok; repeat constructor;
      solve [rewrite length_fatia by lia; reflexivity | apply forallb_fatia, Hd].
Qed.

(** [linha.replace('.', '').replace(' ', '')] of an extracted linha is its
    47 digits. *)
Lemma extrair_linha_sem_separadores : forall texto l,
  extrair_linha_digitavel texto = Some l ->
  remove_char " "%char (remove_char "."%char (list_ascii_of_string l)) = digitos_de l.
Proof.
  intros texto l H.
  destruct (extrair_linha_grupos texto l H) as [g0 [g1 [g2 [g3 [g4 [g5 [g6 [g7 [Hok ->]]]]]]]]].
  pose proof (formatada_spec _ _ _ _ _ _ _ _ Hok) as [Hd _]; cbv zeta in Hd; rewrite Hd.
  unfold grupos_ok in Hok.
  repeat match goal with H : Forall2 _ _ _ |- _ => inversion H; subst; clear H end.
  repeat match goal with H : _ /\ _ |- _ => destruct H end.
  unfold remove_char, sl.
  rewrite !lista_app, !list_ascii_of_string_of_list_ascii, !filter_app.
  repeat match goal with H : forallb is_digit ?g = true |- _ =>
    rewrite (filter_digitos_mantem (fun x => negb (Ascii.eqb x "."%char)) g)
      by first [assumption | intros; apply digito_nao_e; [cbv; lia | assumption]];
    rewrite (filter_digitos_mantem (fun x => negb (Ascii.eqb x " "%char)) g)
      by first [assumption | intros; apply digito_nao_e; [cbv; lia | assumption]];
    clear H
  end.
  reflexivity.
Qed.

Lemma digito_nao_espaco : forall c, is_digit c = true -> is_space c = false.
Proof.
  intros c Hd; destruct (is_space c) eqn:E; [| reflexivity].
  assert (H : Ascii.eqb c " "%char || is_space c = true) by (rewrite E, orb_true_r; reflexivity).
  rewrite (separador_nao_digito c " "%char H ltac:(cbv; lia)) in Hd; discriminate.
Qed.

Lemma forallb_rev_digitos : forall l, forallb is_digit l = true -> forallb is_digit (rev l) = true.
Proof.
  intros l H; apply forallb_forall; intros x Hx; apply in_rev in Hx.
  exact (proj1 (forallb_forall _ _) H x Hx).
Qed.

Lemma tira_inicio_digitos : forall l,
  forallb is_digit l = true -> tira_inicio l = l.
Proof.
  intros [| c l] H; [reflexivity |]; cbn [forallb] in H; apply andb_true_iff in H as [H _].
  cbn [tira_inicio]; rewrite (digito_nao_espaco c H); reflexivity.
Qed.

Lemma ler_digitos_ok : forall l acc b,
  forallb is_digit l = true -> (l <> [] \/ b = true) -> exists z, ler_digitos l acc b = Some z.
Proof.
  induction l as [| c l IH]; intros acc b Hd Hn.
  - destruct Hn as [Hn | ->]; [contradiction | eexists; reflexivity].
  - cbn [forallb] in Hd; apply andb_true_iff in Hd as [H1 H2].
    cbn [ler_digitos]; rewrite H1; apply IH; [exact H2 | right; reflexivity].
Qed.

(** [int(s)] never raises on a non-empty string of digits. *)
Lemma int_str_digitos : forall l,
  l <> [] -> forallb is_digit l = true -> exists z, int_str (sl l) = inr z.
Proof.
  intros l Hn Hd; unfold int_str, sl, strip; rewrite list_ascii_of_string_of_list_ascii.
  rewrite (tira_inicio_digitos l Hd), (tira_inicio_digitos (rev l) (forallb_rev_digitos l Hd)),
    rev_involutive.
  destruct l as [| c r]; [contradiction |].
  assert (Hc : is_digit c = true) by (cbn [forallb] in Hd; apply andb_true_iff in Hd; apply Hd).
  rewrite (proj1 (Bool.negb_true_iff _) (digito_nao_e c "+"%char ltac:(cbv; lia) Hc)),
    (proj1 (Bool.negb_true_iff _) (digito_nao_e c "-"%char ltac:(cbv; lia) Hc)).
  destruct (ler_digitos_ok (c :: r) 0 false Hd (or_introl Hn)) as [z Hz].
  rewrite Hz; eexists; reflexivity.
Qed.

Lemma nth_digito : forall l n x, n < length l -> forallb is_digit l = true ->
  is_digit (nth n l x) = true.
Proof.
  intros l n x Hn Hd; apply (proj1 (forallb_forall _ _) Hd), nth_In, Hn.
Qed.

(** X19: on any record produced by [parse_dados_boleto], [preparar_features]
    does not raise; the features [banco], [codigoBanco] and
    [linha_codBanco] are the same number (all three come from the first
    three digits of the linha digitável, or are 0 without one); [agencia] is
    always 0, since the parser never fills it; and [valor] is the parsed
    amount, or 0. *)
Theorem preparar_features_parse : forall float_str repr ecb ev evc ecnpj texto,
  exists f,
    preparar_features float_str (parse_dados_boleto repr ecb ev evc ecnpj texto) = inr f /\
    f_banco f = f_codigoBanco f /\ f_codigoBanco f = f_linha_codBanco f /\
    f_agencia f = 0%Q /\
    f_valor f = match valor (parse_dados_boleto repr ecb ev evc ecnpj texto) with
                | PNum q => q
                | _ => 0%Q
                end.
Proof.
  intros float_str repr ecb ev evc ecnpj texto.
  unfold preparar_features.
  set (vl := valor (parse_dados_boleto repr ecb ev evc ecnpj texto)).
  assert (Hvl : vl = PNone \/ exists q, vl = PNum q).
  { unfold vl, parse_dados_boleto; cbn [valor].
    destruct (ev texto) as [q |]; [destruct (truthy (PNum q)) |]; eauto. }
  rewrite (eq_refl : linha_digitavel (parse_dados_boleto repr ecb ev evc ecnpj texto)
                     = se_str (extrair_linha_digitavel texto)),
    (eq_refl : codigo_banco (parse_dados_boleto repr ecb ev evc ecnpj texto)
               = match se_str (extrair_linha_digitavel texto) with
                 | PStr l => PStr (substring 0 3 l) | _ => PNone end),
    (eq_refl : agencia (parse_dados_boleto repr ecb ev evc ecnpj texto) = PNone).
  destruct (extrair_linha_digitavel texto) as [l |] eqn:E.
  - pose proof (extrair_linha_forma texto l E) as [Hl Hs].
    assert (Ht : truthy (PStr l) = true).
    { destruct l; [discriminate | reflexivity]. }
    cbn [se_str]; rewrite Ht; cbv beta iota; rewrite ?Ht.
    rewrite (extrair_linha_sem_separadores texto l E), Hl.
    assert (Hd : forallb is_digit (digitos_de l) = true) by apply forallb_filter.
    assert (N1 : firstn 3 (digitos_de l) <> [])
      by (destruct (digitos_de l) as [| ? ?]; [discriminate | discriminate]).
    assert (D1 : forallb is_digit (firstn 3 (digitos_de l)) = true).
    { pose proof Hd as Hd'; rewrite <- (firstn_skipn 3 (digitos_de l)), forallb_app in Hd'.
      apply andb_true_iff in Hd'; apply Hd'. }
    destruct (int_str_digitos _ N1 D1) as [z1 H1].
    assert (D2 : forallb is_digit [nth 3 (digitos_de l) "000"%char] = true)
      by (cbn [forallb]; rewrite nth_digito by (lia || exact Hd); reflexivity).
    destruct (int_str_digitos [nth 3 (digitos_de l) "000"%char] ltac:(discriminate) D2)
      as [z2 H2].
    assert (N3 : fatia 37 47 (digitos_de l) <> []).
    { intros He; apply (f_equal (@length ascii)) in He; rewrite length_fatia in He by lia.
      discriminate. }
    destruct (int_str_digitos _ N3 (forallb_fatia _ _ 37 47 Hd)) as [z3 H3].
    cbn [Nat.leb ligar].
    rewrite H1; cbn [levanta ligar].
    change (int_str (String (nth 3 (digitos_de l) "000"%char) "") = inr z2) in H2.
    rewrite H2; cbn [levanta ligar].
    rewrite H3; cbn [levanta ligar int_py]. rewrite Hs, H1; cbn [levanta ligar].
    destruct Hvl as [-> | [q ->]]; cbn [ligar];
      (eexists; split; [reflexivity | repeat split]).
  - cbn [se_str truthy]; cbn [length Nat.leb ligar levanta].
    destruct Hvl as [-> | [q ->]]; cbn [ligar];
      (eexists; split; [reflexivity | repeat split]).
Qed.

(** ** The pipeline of [processar_boleto] *)

Lemma parse_valor_nao_str : forall repr ecb ev evc ecnpj texto s,
  valor (parse_dados_boleto repr ecb ev evc ecnpj texto) <> PStr s.
Proof.
  intros repr ecb ev evc ecnpj texto s; unfold parse_dados_boleto; cbn [valor].
  destruct (ev texto) as [q |]; [destruct (truthy (PNum q)) |]; discriminate.
Qed.

(** X20: when no linha digitável is found in the text, the pipeline always
    ends in a fraudulent verdict: the parser leaves both the linha and the
    bank code empty, the validator reports both as missing, and the fused
    verdict cites FEBRABAN validation with those two messages among its
    reasons, whatever the classifier says. *)
Theorem pipeline_sem_linha_fraude : forall strp dia us repr ecb ev evc ecnpj texto pred,
  extrair_linha_digitavel texto = None ->
  let d := parse_dados_boleto repr ecb ev evc ecnpj texto in
  let fa := analise_fraude (validar_boleto_febraban strp dia us repr d) pred in
  fa_isFraudulento fa = true /\
  In "validacao_febraban" (fa_metodos fa) /\
  In msg_linha (fa_motivos fa) /\ In msg_banco (fa_motivos fa).
Proof.
  intros strp dia us repr ecb ev evc ecnpj texto pred H d fa.
  assert (Hl : linha_digitavel d = PNone)
    by (unfold d, parse_dados_boleto; cbn [linha_digitavel]; rewrite H; reflexivity).
  assert (Hc : codigo_banco d = PNone)
    by (unfold d, parse_dados_boleto; cbn [codigo_banco]; rewrite H; reflexivity).
  unfold fa, validar_boleto_febraban.
  rewrite (corpo_forma strp dia us repr d (parse_valor_nao_str repr ecb ev evc ecnpj texto)), Hl, Hc.
  unfold analise_fraude; cbn [truthy app length Nat.eqb v_valido v_erros negb orb
                              fa_isFraudulento fa_metodos fa_motivos].
  split; [reflexivity | split; [left; reflexivity | split; [left; reflexivity |]]].
  right; rewrite !in_app_iff; right; right; right; right; left; reflexivity.
Qed.

Lemma pipeline_sem_linha_fraude_witness :
  fa_isFraudulento
    (analise_fraude
       (validar_boleto_febraban (fun _ => inr 0%Z) 0%Z 0%Z (fun _ => "")
          (parse_dados_boleto (fun _ => "") (fun _ => None) (fun _ => None) (fun _ => None)
             (fun _ => None) "Pagavel em qualquer banco"))
       previsao_stub) = true.
Proof.
  assert (H : extrair_linha_digitavel "Pagavel em qualquer banco" = None)
    by (vm_compute; reflexivity).
  exact (proj1 (pipeline_sem_linha_fraude (fun _ => inr 0%Z) 0%Z 0%Z (fun _ => "")
                  (fun _ => None) (fun _ => None) (fun _ => None) (fun _ => None)
                  "Pagavel em qualquer banco" previsao_stub H)).
Defined.

(** X21: for a classifier whose two probabilities are non-negative and sum
    to one, [predizer_fraude] does not raise; it stores an integer score
    between 0 and 100, a confidence between 1/2 and 1, and flags fraud
    exactly when the predicted class is 0. *)
Theorem predizer_fraude_faixas : forall m f p0 p1,
  predict_proba m f = (p0, p1) -> (0 <= p0)%Q -> (0 <= p1)%Q -> (p0 + p1 == 1)%Q ->
  exists pr, predizer_fraude m f = inr pr /\
    (0 <= score_fraude pr <= 100)%Z /\
    (1 # 2 <= confianca pr <= 1)%Q /\
    (is_fraudulento pr = true <-> classe_predita pr = 0%Z).
Proof.
  intros m f p0 p1 Hp H0 H1 Hs.
  assert (H01 : (0 <= p0 <= 1)%Q) by lra.
  destruct (predizer_fraude_forma m f p0 p1 Hp H01) as [E R].
  eexists; split; [exact E |].
  cbn [score_fraude confianca is_fraudulento classe_predita].
  split; [exact R | split].
  - unfold py_max; destruct (Qlt_le_dec p0 p1); split; lra.
  - apply Z.eqb_eq.
Qed.

Lemma predizer_fraude_faixas_witness :
  exists pr, predizer_fraude (modelo_fixo 0 (3 # 8) (5 # 8)) features_zero = inr pr /\
    (0 <= score_fraude pr <= 100)%Z.
Proof.
  destruct (predizer_fraude_faixas (modelo_fixo 0 (3 # 8) (5 # 8)) features_zero (3 # 8) (5 # 8)
              eq_refl ltac:(apply Qle_bool_imp_le; reflexivity)
              ltac:(apply Qle_bool_imp_le; reflexivity) ltac:(vm_compute; reflexivity))
    as [pr [E [R _]]].
  exists pr; split; [exact E | exact R].
Defined.

(** X22: [validar_cnpj] reports at most two errors, and two errors only
    when both check digits are wrong (first-digit message, then second). *)
Theorem validar_cnpj_no_maximo_dois : forall v,
  length (erros (validar_cnpj v)) <= 2 /\
  (length (erros (validar_cnpj v)) = 2 ->
   erros (validar_cnpj v) = ["Primeiro dígito verificador do CNPJ inválido";
                             "Segundo dígito verificador do CNPJ inválido"]).
Proof.
  intros v; unfold validar_cnpj.
  destruct v as [| s | q]; cbn [erros length]; [split; [lia | discriminate] | | split; [lia | discriminate]].
  destruct (negb (length (digitos_de s) =? 14)); cbn [erros length]; [split; [lia | discriminate] |].
  destruct (sequencia_repetida (digitos_de s)); cbn [erros length]; [split; [lia | discriminate] |].
  unfold fecha, se.
  destruct (negb (_ =? dv_cnpj (soma_ponderada peso1 _)));
    destruct (negb (_ =? dv_cnpj (soma_ponderada peso2 _)));
    cbn [erros length app]; split; first [lia | reflexivity | discriminate].
Qed.

(** X23: the [agencia] field never makes [preparar_features] raise and
    touches no other feature: two records that differ only in [agencia]
    raise the same exception, or give features that agree everywhere
    except [agencia]. *)
Theorem preparar_features_agencia_inofensiva : forall float_str d a,
  match preparar_features float_str d,
        preparar_features float_str
          (mk_dados (codigo_barras d) (linha_digitavel d) (valor d) (vencimento d)
             (beneficiario_nome d) (beneficiario_cnpj d) (codigo_banco d) (banco_nome d) a) with
  | inl e, inl e' => e = e'
  | inr f, inr f' =>
      f_banco f = f_banco f' /\ f_codigoBanco f = f_codigoBanco f' /\ f_valor f = f_valor f' /\
      f_linha_codBanco f = f_linha_codBanco f' /\ f_linha_moeda f = f_linha_moeda f' /\
      f_linha_valor f = f_linha_valor f'
  | _, _ => False
  end.
Proof.
  intros float_str d a; unfold preparar_features, ligar;
    cbn [codigo_barras linha_digitavel valor vencimento beneficiario_nome beneficiario_cnpj
         codigo_banco banco_nome agencia].
  destruct (if truthy (linha_digitavel d) then linha_digitavel d else PStr "") as [| l | q];
    [reflexivity | | reflexivity].
  repeat (match goal with
          | |- context [levanta ?r] => destruct (levanta r)
          | |- context [if (?x <=? ?y) then _ else _] => destruct (x <=? y)
          | |- context [match codigo_banco d with _ => _ end] => destruct (codigo_banco d)
          | |- context [match valor d with _ => _ end] => destruct (valor d)
          end; cbv beta iota);
    first [reflexivity | repeat split].
Qed.

(** X24: [preparar_features] raises [AttributeError] exactly when
    [linha_digitavel] holds a non-zero number (a truthy non-string); every
    other exception it raises comes from [int()] or [float()]. *)
Theorem preparar_features_attribute_error : forall float_str d,
  (exists msg, preparar_features float_str d = inl (AttributeError msg)) <->
  (exists q, linha_digitavel d = PNum q /\ ~ (q == 0)%Q).
Proof.
  intros float_str d; unfold preparar_features, ligar.
  destruct (linha_digitavel d) as [| l | q] eqn:E; cbn [truthy].
  3: destruct (Qeq_bool q 0) eqn:Eq; cbn [negb].
  4: split; [intros _; exists q; split; [reflexivity |] | intros _; eexists; reflexivity];
     intros Hq; apply Qeq_bool_iff in Hq; congruence.
  all: split; [| intros [q' [Hq Hn]];
                 first [discriminate Hq
                       | injection Hq as <-; apply Qeq_bool_iff in Eq; contradiction]].
  2: destruct (negb (l =? "")%string).
  all: intros [msg H]; revert H;
    repeat (match goal with
            | |- context [levanta ?r] => destruct r
            | |- context [if (?x <=? ?y) then _ else _] => destruct (x <=? y)
            | |- context [match codigo_banco ?d with _ => _ end] => destruct (codigo_banco d)
            | |- context [match valor ?d with _ => _ end] => destruct (valor d)
            end; cbn [levanta]);
    intros H; discriminate H.
Qed.

Lemma preparar_features_attribute_error_witness :
  exists msg, preparar_features (fun _ => inr 0%Q)
    (mk_dados PNone (PNum 1) PNone PNone PNone PNone PNone PNone PNone) = inl (AttributeError msg).
Proof.
  apply (proj2 (preparar_features_attribute_error (fun _ => inr 0%Q)
                  (mk_dados PNone (PNum 1) PNone PNone PNone PNone PNone PNone PNone))).
  exists 1%Q; split; [reflexivity | intros H; discriminate (proj2 (Qeq_bool_iff _ _) H)].
Defined.
